(** * Attachment pipeline and tool facade of the Xero MCP server

    A shallow embedding of the TypeScript sources:
    - [helpers/file-to-base64.ts]          (File Loader)
    - [helpers/process-attachments.ts]     (Attachment Normalizer)
    - [handlers/*-xero-account.handler.ts] (Entity Handlers)
    - [tools/**/*.tool.ts]                 (Tool Facade and upload loop)

    Asynchronous functions are computations in a state-and-exception
    monad over a [Machine]: the state of the outside world (file system,
    remote service, authenticated client), a trace of the observable
    calls, and the handler-local [attachmentResults] array.  The state
    survives a [throw], as it does in JavaScript. *)

From Stdlib Require Import String Ascii List Bool NArith Lia DecimalString PrimFloat.
Import ListNotations.
Open Scope string_scope.

(** ** JavaScript values and string helpers *)

Module Js.

(** A value raised by [throw].  [ErrorObj] is an instance of [Error]
    ([code] is the errno code of a [NodeJS.ErrnoException], absent on an
    error made with [new Error(..)]); [NonError] is any other thrown
    value, carried by its [String(..)] rendering. *)
Inductive Thrown : Type :=
| ErrorObj (code : option string) (message : string)
| NonError (asString : string).

(** [error instanceof Error ? error.message : String(error)] *)
Definition errorMessage (error : Thrown) : string :=
  match error with
  | ErrorObj _ message => message
  | NonError s => s
  end.

(** [new Error(message)] *)
Definition newError (message : string) : Thrown := ErrorObj None message.

(** Truthiness of an optional string: [undefined] and [""] are falsy. *)
Definition truthy (o : option string) : bool :=
  match o with
  | Some s => negb (s =? "")
  | None => false
  end.

(** The string held by an optional string that has been tested truthy. *)
Definition str (o : option string) : string :=
  match o with
  | Some s => s
  | None => ""
  end.

(** [o || d] for an optional string [o] and a string [d]. *)
Definition orElse (o : option string) (d : string) : string :=
  match o with
  | Some s => if s =? "" then d else s
  | None => d
  end.

(** [`${x}`] for a possibly undefined [x]. *)
Definition tpl (o : option string) : string :=
  match o with
  | Some s => s
  | None => "undefined"
  end.

(** [`${x}`] for a possibly null [x]. *)
Definition tplNull (o : option string) : string :=
  match o with
  | Some s => s
  | None => "null"
  end.

(** [hay.includes(needle)] *)
Fixpoint includes (needle hay : string) : bool :=
  String.prefix needle hay ||
  match hay with
  | EmptyString => false
  | String _ hay' => includes needle hay'
  end.

(** [hay.startsWith(needle)] *)
Definition startsWith (needle hay : string) : bool := String.prefix needle hay.

(** An array element of a line array: a string or [null]. *)
Definition Line := option string.

(** [lines.filter(Boolean)]: drops [null] and the empty string. *)
Definition filterBoolean (lines : list Line) : list Line :=
  filter truthy lines.

(** [lines.join(sep)]: [null] is rendered as the empty string. *)
Fixpoint join (sep : string) (lines : list Line) : string :=
  match lines with
  | [] => ""
  | [l] => match l with Some s => s | None => "" end
  | l :: rest => match l with Some s => s | None => "" end ++ sep ++ join sep rest
  end.

(** [String(n)] for a non-negative integer below 1e21. *)
Definition showN (n : N) : string := NilZero.string_of_uint (N.to_uint n).

(** [Math.round(size / 1024 / 1024)] for a non-negative integer [size]
    below 2^53: both divisions are exact in binary floating point, and
    [Math.round] rounds to the nearest integer, ties upwards. *)
Definition roundMiB (size : N) : N := ((size + 524288) / 1048576)%N.

Definition LF : string := String (ascii_of_nat 10) EmptyString.

End Js.

Import Js.

(** ** Data model *)

Definition Buffer := list Byte.byte.

Module Stats.
(** The part of [fs.Stats] the loader looks at. *)
Record t := mk { isFile : bool; size : N }.
End Stats.

Module FileToBase64Result.
Record t := mk { base64Content : string; mimeType : string; fileName : string }.
End FileToBase64Result.

Module AttachmentInput.
(** [z.infer<typeof attachmentSchema>]: four optional strings. *)
Record t := mk {
  fileName : option string;
  mimeType : option string;
  filePath : option string;
  base64Content : option string
}.
End AttachmentInput.

Module ProcessedAttachment.
Record t := mk { fileName : string; mimeType : string; base64Content : string }.
End ProcessedAttachment.

Inductive UploadStatus := success | failed.

Definition showStatus (s : UploadStatus) : string :=
  match s with success => "success" | failed => "failed" end.

Module AttachmentUploadResult.
Record t := mk { fileName : string; status : UploadStatus; error : option string }.
End AttachmentUploadResult.

(** The remote attachment endpoints the tools call. *)
Inductive AttachCall :=
| createBankTransactionAttachmentByFileName
    (tenantId bankTransactionID fileName : string) (body : Buffer)
| createInvoiceAttachmentByFileName
    (tenantId invoiceID fileName : string) (body : Buffer) (includeOnline : bool)
| createCreditNoteAttachmentByFileName
    (tenantId creditNoteID fileName : string) (body : Buffer) (includeOnline : bool).

(** Observable calls, in the order they are made. *)
Inductive Event :=
| FsStat (path : string)
| FsReadFile (path : string)
| RemoteAttach (call : AttachCall) (threw : option Thrown)
| ConsoleError (label : string).

(** ** The machine and its monad *)

Section Monad.

Context {World : Type}.

Record Machine := mkMachine {
  world : World;
  trace : list Event;
  attachmentResults : list AttachmentUploadResult.t
}.

(** An asynchronous computation: it ends by returning ([inr]) or by
    throwing ([inl]); the machine it leaves behind is kept either way. *)
Definition M (A : Type) : Type := Machine -> Machine * (Thrown + A).

Definition ret {A} (a : A) : M A := fun m => (m, inr a).

Definition throw {A} (e : Thrown) : M A := fun m => (m, inl e).

Definition bind {A B} (c : M A) (k : A -> M B) : M B :=
  fun m =>
    match c m with
    | (m1, inr a) => k a m1
    | (m1, inl e) => (m1, inl e)
    end.

(** [try { body } catch (error) { handler }] *)
Definition tryCatch {A} (body : M A) (handler : Thrown -> M A) : M A :=
  fun m =>
    match body m with
    | (m1, inr a) => (m1, inr a)
    | (m1, inl e) => handler e m1
    end.

Definition emit (ev : Event) : M unit :=
  fun m => (mkMachine (world m) (trace m ++ [ev]) (attachmentResults m), inr tt).

(** [console.error(label, error)] *)
Definition consoleError (label : string) : M unit := emit (ConsoleError label).

(** [attachmentResults.push(r)] *)
Definition pushResult (r : AttachmentUploadResult.t) : M unit :=
  fun m => (mkMachine (world m) (trace m) (attachmentResults m ++ [r]), inr tt).

(** [const attachmentResults = []] *)
Definition newResults : M unit :=
  fun m => (mkMachine (world m) (trace m) [], inr tt).

Definition getResults : M (list AttachmentUploadResult.t) :=
  fun m => (m, inr (attachmentResults m)).

(** A call to a collaborator that acts on the world and may throw. *)
Definition callWorld {A} (f : World -> World * (Thrown + A)) : M A :=
  fun m =>
    let '(w1, r) := f (world m) in
    (mkMachine w1 (trace m) (attachmentResults m), r).

Definition readWorld {A} (f : World -> A) : M A :=
  fun m => (m, inr (f (world m))).

End Monad.

Arguments Machine : clear implicits.
Arguments M : clear implicits.

Declare Scope js_scope.
Delimit Scope js_scope with js.
Notation "x <- c ;; k" := (bind c (fun x => k))
  (at level 61, c at next level, right associativity) : js_scope.
Notation "c ;;; k" := (bind c (fun _ => k))
  (at level 61, right associativity) : js_scope.
Open Scope js_scope.

(** ** Entities and the response envelope *)

(** A JavaScript number. *)
Definition JsNumber := PrimFloat.float.

Module Contact.
Record t := mk { name : option string }.
End Contact.

Module BankAccount.
Record t := mk { accountID : option string }.
End BankAccount.

Module BankTransaction.
Record t := mk {
  bankTransactionID : option string;
  bankAccount : option BankAccount.t;
  date : option string;
  contact : option Contact.t;
  total : option JsNumber;
  status : option string
}.
End BankTransaction.

Module Invoice.
Record t := mk {
  invoiceID : option string;
  contact : option Contact.t;
  type : option string;
  reference : option string;
  total : option JsNumber;
  status : option string
}.
End Invoice.

Module CreditNote.
Record t := mk {
  creditNoteID : option string;
  contact : option Contact.t;
  total : option JsNumber;
  status : option string
}.
End CreditNote.

Module XeroClientResponse.
(** [{ result: T | null, isError: boolean, error: string | null }] *)
Record t {T : Type} := mk {
  result : option T;
  isError : bool;
  error : option string
}.
Arguments t : clear implicits.
Arguments mk {T}.
End XeroClientResponse.

Module LineItem.
Record t := mk {
  description : string;
  quantity : JsNumber;
  unitAmount : JsNumber;
  accountCode : string;
  taxType : string
}.
End LineItem.

(** The attachment shape the tools with an inline schema accept:
    [{ fileName: string, mimeType?: string, base64Content: string }]. *)
Module InlineAttachment.
Record t := mk {
  fileName : string;
  mimeType : option string;
  base64Content : string
}.

(** The same object, seen at the type [AttachmentInput]. *)
Definition asInput (a : t) : AttachmentInput.t :=
  AttachmentInput.mk (Some (fileName a)) (mimeType a) None (Some (base64Content a)).
End InlineAttachment.

Module ContentBlock.
Record t := mk { type : string; text : string }.
End ContentBlock.

Module ToolResponse.
Record t := mk { content : list ContentBlock.t }.
End ToolResponse.

(** [{ content: [{ type: "text", text }] }] *)
Definition textResponse (text : string) : ToolResponse.t :=
  ToolResponse.mk [ContentBlock.mk "text" text].

(** ** Collaborators

    Everything the sources import but do not define: Node's [fs] and
    [path], the MIME table, the authenticated remote client, the deep-link
    builders and the error formatters.  Effectful ones act on the world
    and may throw; the theorems quantify over all of them. *)

Module Account.
(** The fields of xero-node's [Account] the sources read or write;
    enumerations and booleans are carried by their renderings. *)
Record t := mk {
  accountID : option string;
  code : option string;
  name : option string;
  type : option string;
  description : option string;
  taxType : option string;
  enablePaymentsToAccount : option bool;
  bankAccountNumber : option string;
  bankAccountType : option string;
  showInExpenseClaims : option bool
}.
End Account.

Inductive DeepLinkType := INVOICE | BILL | CREDIT_NOTE | MANUAL_JOURNAL | CONTACT.

Record Collaborators {World : Type} := mkCollaborators {
  (* path *)
  resolve : string -> string;
  basename : string -> string;
  (* helpers/mime-type.js *)
  detectMimeType : string -> string;
  (* Buffer *)
  toBase64 : Buffer -> string;
  fromBase64 : string -> Buffer;
  (* fs.promises *)
  fs_stat : string -> World -> World * (Thrown + Stats.t);
  fs_readFile : string -> World -> World * (Thrown + Buffer);
  (* xeroClient *)
  tenantId : World -> string;
  authenticate : World -> World * (Thrown + unit);
  api_attach : AttachCall -> World -> World * (Thrown + unit);
  (* accountingApi.getAccount / createAccount / updateAccount: the value is
     [response.body.accounts] *)
  api_getAccount :
    string -> string -> World -> World * (Thrown + option (list Account.t));
  api_createAccount :
    string -> Account.t -> World -> World * (Thrown + option (list Account.t));
  api_updateAccount :
    string -> string -> list Account.t -> World ->
    World * (Thrown + option (list Account.t));
  (* the entity handlers whose source is not at hand *)
  createXeroBankTransaction :
    string -> string -> string -> list LineItem.t -> option string -> option string ->
    World -> World * (Thrown + XeroClientResponse.t BankTransaction.t);
  updateXeroInvoice :
    string -> option (list LineItem.t) -> option string -> option string ->
    option string -> option string ->
    World -> World * (Thrown + XeroClientResponse.t Invoice.t);
  createXeroCreditNote :
    string -> list LineItem.t -> option string ->
    World -> World * (Thrown + XeroClientResponse.t CreditNote.t);
  (* helpers/format-error.js, helpers/ensure-error.js *)
  formatError : Thrown -> string;
  ensureError : Thrown -> Thrown;
  (* Number::toString *)
  numberToString : JsNumber -> string;
  (* helpers/get-deeplink.js, consts/deeplinks.js *)
  getDeepLink : DeepLinkType -> string -> World -> World * (Thrown + string);
  bankTransactionDeepLink : string -> string -> World -> World * (Thrown + string)
}.

Arguments Collaborators : clear implicits.

(** ** File Loader: [helpers/file-to-base64.ts] *)

Definition MAX_FILE_SIZE : N := 10 * 1024 * 1024.

Section Pipeline.

Context {World : Type} (env : Collaborators World).

Definition stat (path : string) : M World Stats.t :=
  emit (FsStat path) ;;; callWorld (fs_stat env path).

Definition readFile (path : string) : M World Buffer :=
  emit (FsReadFile path) ;;; callWorld (fs_readFile env path).

(** The [try] block of [fileToBase64]. *)
Definition fileToBase64_try (filePath : string) : M World FileToBase64Result.t :=
  let resolvedPath := resolve env filePath in
  stats <- stat resolvedPath ;;
  if negb (Stats.isFile stats) then
    throw (newError ("Path is not a file: " ++ filePath))
  else if (MAX_FILE_SIZE <? Stats.size stats)%N then
    throw (newError ("File too large: " ++ showN (roundMiB (Stats.size stats))
                       ++ "MB (max: 10MB)"))
  else
    buffer <- readFile resolvedPath ;;
    let base64Content := toBase64 env buffer in
    let fileName := basename env resolvedPath in
    let mimeType := detectMimeType env fileName in
    ret (FileToBase64Result.mk base64Content mimeType fileName).

Definition codeIs (code : option string) (c : string) : bool :=
  match code with
  | Some s => s =? c
  | None => false
  end.

(** The [catch] block of [fileToBase64]. *)
Definition fileToBase64_catch (filePath : string) (error : Thrown)
  : M World FileToBase64Result.t :=
  match error with
  | ErrorObj code message =>
      if codeIs code "ENOENT" then
        throw (newError ("File not found: " ++ filePath))
      else if codeIs code "EACCES" then
        throw (newError ("Permission denied: " ++ filePath))
      else if includes "too large" message || includes "not a file" message then
        throw error
      else
        throw (newError ("Unable to read file: " ++ filePath ++ " - " ++ message))
  | NonError s =>
      throw (newError ("Unable to read file: " ++ filePath ++ " - " ++ s))
  end.

Definition fileToBase64 (filePath : string) : M World FileToBase64Result.t :=
  tryCatch (fileToBase64_try filePath) (fileToBase64_catch filePath).

(** ** Attachment Normalizer: [helpers/process-attachments.ts] *)

Definition MISSING_FILE_NAME : string :=
  "fileName is required when using base64Content".

Definition MISSING_SOURCE : string :=
  "Either filePath or base64Content must be provided".

Definition PROCESS_PREFIX : string := "Failed to process attachment: ".

(** The [try] block of one loop iteration. *)
Definition processItem_try (attachment : AttachmentInput.t)
  : M World ProcessedAttachment.t :=
  if truthy (AttachmentInput.filePath attachment) then
    fileData <- fileToBase64 (str (AttachmentInput.filePath attachment)) ;;
    let fileName :=
      orElse (AttachmentInput.fileName attachment)
             (FileToBase64Result.fileName fileData) in
    let mimeType :=
      orElse (AttachmentInput.mimeType attachment)
             (FileToBase64Result.mimeType fileData) in
    let base64Content := FileToBase64Result.base64Content fileData in
    ret (ProcessedAttachment.mk fileName mimeType base64Content)
  else if truthy (AttachmentInput.base64Content attachment) then
    if negb (truthy (AttachmentInput.fileName attachment)) then
      throw (newError MISSING_FILE_NAME)
    else
      let fileName := str (AttachmentInput.fileName attachment) in
      let mimeType :=
        orElse (AttachmentInput.mimeType attachment)
               (detectMimeType env fileName) in
      let base64Content := str (AttachmentInput.base64Content attachment) in
      ret (ProcessedAttachment.mk fileName mimeType base64Content)
  else
    throw (newError MISSING_SOURCE).

(** One loop iteration: the [try] block and its re-throwing [catch]. *)
Definition processItem (attachment : AttachmentInput.t)
  : M World ProcessedAttachment.t :=
  tryCatch (processItem_try attachment)
           (fun error => throw (newError (PROCESS_PREFIX ++ errorMessage error))).

(** The [for .. of] loop; [processedAttachments] is the array built so far. *)
Fixpoint processLoop (attachments : list AttachmentInput.t)
         (processedAttachments : list ProcessedAttachment.t)
  : M World (list ProcessedAttachment.t) :=
  match attachments with
  | [] => ret processedAttachments
  | attachment :: rest =>
      p <- processItem attachment ;;
      processLoop rest (processedAttachments ++ [p])
  end.

Definition processAttachments (attachments : option (list AttachmentInput.t))
  : M World (list ProcessedAttachment.t) :=
  match attachments with
  | None => ret []
  | Some [] => ret []
  | Some l => processLoop l []
  end.

End Pipeline.

(** ** Entity Handlers: [handlers/get-xero-account.handler.ts],
       [handlers/create-xero-account.handler.ts] *)

(** [accounts?.[0]] *)
Definition firstOf {A} (xs : option (list A)) : option A :=
  match xs with
  | Some (x :: _) => Some x
  | _ => None
  end.

Section Handlers.

Context {World : Type} (env : Collaborators World).

Definition getAccount (accountId : string) : M World (option Account.t) :=
  callWorld (authenticate env) ;;;
  tid <- readWorld (tenantId env) ;;
  accounts <- callWorld (api_getAccount env tid accountId) ;;
  ret (firstOf accounts).

Definition getXeroAccount (accountId : string)
  : M World (XeroClientResponse.t Account.t) :=
  tryCatch
    (account <- getAccount accountId ;;
     match account with
     | None => throw (newError "Account not found.")
     | Some a => ret (XeroClientResponse.mk (Some a) false None)
     end)
    (fun error =>
       ret (XeroClientResponse.mk None true (Some (formatError env error)))).

Definition createAccount (code name type : string) (accountId : option string)
           (description taxType : option string)
           (enablePaymentsToAccount : option bool)
           (bankAccountNumber bankAccountType : option string)
           (showInExpenseClaims : option bool)
  : M World (option Account.t) :=
  callWorld (authenticate env) ;;;
  let account :=
    Account.mk None (Some code) (Some name) (Some type) description taxType
               enablePaymentsToAccount bankAccountNumber bankAccountType
               showInExpenseClaims in
  if truthy accountId then
    tid <- readWorld (tenantId env) ;;
    accounts <- callWorld (api_updateAccount env tid (str accountId) [account]) ;;
    ret (firstOf accounts)
  else
    tid <- readWorld (tenantId env) ;;
    accounts <- callWorld (api_createAccount env tid account) ;;
    ret (firstOf accounts).

Definition createXeroAccount (code name type : string) (accountId : option string)
           (description taxType : option string)
           (enablePaymentsToAccount : option bool)
           (bankAccountNumber bankAccountType : option string)
           (showInExpenseClaims : option bool)
  : M World (XeroClientResponse.t Account.t) :=
  tryCatch
    (account <- createAccount code name type accountId description taxType
                              enablePaymentsToAccount bankAccountNumber
                              bankAccountType showInExpenseClaims ;;
     match account with
     | None => throw (newError "Account creation/update failed.")
     | Some a => ret (XeroClientResponse.mk (Some a) false None)
     end)
    (fun error =>
       ret (XeroClientResponse.mk None true (Some (formatError env error)))).

End Handlers.

(** The envelope invariant of the data model: [isError] is true iff
    [result] is null, and iff [error] is non-null. *)
Definition envelope_ok {T} (r : XeroClientResponse.t T) : Prop :=
  (XeroClientResponse.isError r = true <-> XeroClientResponse.result r = None) /\
  (XeroClientResponse.isError r = true <-> XeroClientResponse.error r <> None).

(** ** Tool Facade: the upload loop shared by the tools *)

Section Tools.

Context {World : Type} (env : Collaborators World).

(** The remote call, recorded in the trace with its outcome. *)
Definition attach (call : AttachCall) : M World unit :=
  fun m =>
    let '(w1, r) := api_attach env call (world m) in
    let threw := match r with inl e => Some e | inr _ => None end in
    (mkMachine w1 (trace m ++ [RemoteAttach call threw]) (attachmentResults m), r).

(** One iteration of [for (const attachment of ..) { try {..} catch {..} }].
    [endpoint] is the accounting-API method of the tool, already given the
    resource identifier. *)
Definition uploadOne (endpoint : string -> string -> Buffer -> AttachCall)
           (fileName base64Content : string) : M World unit :=
  tryCatch
    (tid <- readWorld (tenantId env) ;;
     attach (endpoint tid fileName (fromBase64 env base64Content)) ;;;
     pushResult (AttachmentUploadResult.mk fileName success None))
    (fun error =>
       let errorMessage := errorMessage error in
       consoleError ("Attachment failed for " ++ fileName ++ ":") ;;;
       pushResult (AttachmentUploadResult.mk fileName failed (Some errorMessage))).

Fixpoint uploadLoop {A} (fileNameOf base64Of : A -> string)
         (endpoint : string -> string -> Buffer -> AttachCall)
         (attachments : list A) : M World unit :=
  match attachments with
  | [] => ret tt
  | attachment :: rest =>
      uploadOne endpoint (fileNameOf attachment) (base64Of attachment) ;;;
      uploadLoop fileNameOf base64Of endpoint rest
  end.

(** [try { processAttachments; upload loop } catch { push 'unknown' }],
    the attachment block of the tools that normalize first. *)
Definition normalizeAndUpload (endpoint : string -> string -> Buffer -> AttachCall)
           (attachments : list AttachmentInput.t) : M World unit :=
  tryCatch
    (processedAttachments <- processAttachments env (Some attachments) ;;
     uploadLoop ProcessedAttachment.fileName ProcessedAttachment.base64Content
                endpoint processedAttachments)
    (fun error =>
       let errorMessage := errorMessage error in
       consoleError "Failed to process attachments:" ;;;
       pushResult (AttachmentUploadResult.mk "unknown" failed
                     (Some ("Processing failed: " ++ errorMessage)))).

(** [attachments && attachments.length > 0 && id] *)
Definition shouldAttach {A} (attachments : option (list A)) (id : option string)
  : bool :=
  match attachments with
  | Some (_ :: _) => truthy id
  | _ => false
  end.

(** [attachmentResults.length > 0 ? `Attachments: ${..}` : null] *)
Definition attachmentsLine (results : list AttachmentUploadResult.t) : Line :=
  match results with
  | [] => None
  | _ =>
      Some ("Attachments: " ++
            join ", " (map (fun r => Some (AttachmentUploadResult.fileName r ++ " (" ++
                                             showStatus (AttachmentUploadResult.status r)
                                             ++ ")")) results))
  end.

(** [deepLink ? `Link to view: ${deepLink}` : null] *)
Definition deepLinkLine (deepLink : option string) : Line :=
  if truthy deepLink then Some ("Link to view: " ++ str deepLink) else None.

(** [`${entity?.contact?.name}`] *)
Definition contactName (contact : option Contact.t) : string :=
  tpl (match contact with Some c => Contact.name c | None => None end).

Definition showTotal (total : option JsNumber) : string :=
  tpl (option_map (numberToString env) total).

(** [entity.field] on a possibly null entity: a [TypeError] when null. *)
Definition deref {A} (o : option A) (what : string) : M World A :=
  match o with
  | Some a => ret a
  | None => throw (ErrorObj None ("Cannot read properties of " ++ what))
  end.

End Tools.

(** ** Tool Facade: the tool handlers *)

Module CreateBankTransactionArgs.
Record t := mk {
  type : string;
  bankAccountId : string;
  contactId : string;
  lineItems : list LineItem.t;
  reference : option string;
  date : option string;
  attachments : option (list InlineAttachment.t)
}.
End CreateBankTransactionArgs.

Module UpdateInvoiceArgs.
Record t := mk {
  invoiceId : string;
  lineItems : option (list LineItem.t);
  reference : option string;
  dueDate : option string;
  date : option string;
  contactId : option string;
  attachments : option (list AttachmentInput.t)
}.
End UpdateInvoiceArgs.

Module CreateCreditNoteArgs.
Record t := mk {
  contactId : string;
  lineItems : list LineItem.t;
  reference : option string;
  attachments : option (list InlineAttachment.t)
}.
End CreateCreditNoteArgs.

Module CreateAccountArgs.
Record t := mk {
  code : string;
  name : string;
  type : string;
  accountId : option string;
  description : option string;
  taxType : option string;
  enablePaymentsToAccount : option bool;
  bankAccountNumber : option string;
  bankAccountType : option string;
  showInExpenseClaims : option bool
}.
End CreateAccountArgs.

Section ToolHandlers.

Context {World : Type} (env : Collaborators World).

(** *** [tools/create/create-bank-transaction.tool.ts] *)

Definition bankTransactionFields (bankTransaction : BankTransaction.t) : list Line :=
  [ Some "Bank transaction successfully:";
    Some ("ID: " ++ tpl (BankTransaction.bankTransactionID bankTransaction));
    Some ("Date: " ++ tpl (BankTransaction.date bankTransaction));
    Some ("Contact: " ++ contactName (BankTransaction.contact bankTransaction));
    Some ("Total: " ++ showTotal env (BankTransaction.total bankTransaction));
    Some ("Status: " ++ tpl (BankTransaction.status bankTransaction)) ].

(** [const deepLink = accountID && bankTransactionID ? .. : null] *)
Definition bankTransactionLink (bankAccount : BankAccount.t)
           (bankTransaction : BankTransaction.t) : M World (option string) :=
  if truthy (BankAccount.accountID bankAccount)
     && truthy (BankTransaction.bankTransactionID bankTransaction)
  then
    link <- callWorld (bankTransactionDeepLink env
              (str (BankAccount.accountID bankAccount))
              (str (BankTransaction.bankTransactionID bankTransaction))) ;;
    ret (Some link)
  else ret None.

(** From [const attachmentResults = []] to the final [return]. *)
Definition bankTransactionReport (bankTransaction : BankTransaction.t)
           (deepLink : option string)
           (attachments : option (list InlineAttachment.t))
  : M World ToolResponse.t :=
  newResults ;;;
  (if shouldAttach attachments (BankTransaction.bankTransactionID bankTransaction)
   then
     normalizeAndUpload env
       (fun tid => createBankTransactionAttachmentByFileName tid
                     (str (BankTransaction.bankTransactionID bankTransaction)))
       (map InlineAttachment.asInput
            (match attachments with
             | Some l => l
             | None => []
             end))
   else ret tt) ;;;
  attachmentResults <- getResults ;;
  ret (textResponse
         (join LF (filterBoolean
            (bankTransactionFields bankTransaction
               ++ [attachmentsLine attachmentResults; deepLinkLine deepLink])))).

Definition CreateBankTransactionTool (args : CreateBankTransactionArgs.t)
  : M World ToolResponse.t :=
  result <- callWorld (createXeroBankTransaction env
              (CreateBankTransactionArgs.type args)
              (CreateBankTransactionArgs.bankAccountId args)
              (CreateBankTransactionArgs.contactId args)
              (CreateBankTransactionArgs.lineItems args)
              (CreateBankTransactionArgs.reference args)
              (CreateBankTransactionArgs.date args)) ;;
  if XeroClientResponse.isError result then
    ret (textResponse ("Error creating bank transaction: "
                         ++ tplNull (XeroClientResponse.error result)))
  else
    bankTransaction <- deref (XeroClientResponse.result result)
                             "null (reading 'bankAccount')" ;;
    bankAccount <- deref (BankTransaction.bankAccount bankTransaction)
                         "undefined (reading 'accountID')" ;;
    deepLink <- bankTransactionLink bankAccount bankTransaction ;;
    bankTransactionReport bankTransaction deepLink
                          (CreateBankTransactionArgs.attachments args).

(** *** [tools/update/update-invoice.tool.ts] *)

Definition invoiceFields (invoice : Invoice.t) : list Line :=
  [ Some "Invoice updated successfully:";
    Some ("ID: " ++ tpl (Invoice.invoiceID invoice));
    Some ("Contact: " ++ contactName (Invoice.contact invoice));
    Some ("Type: " ++ tpl (Invoice.type invoice));
    Some ("Reference: " ++ orElse (Invoice.reference invoice) "None");
    Some ("Total: " ++ showTotal env (Invoice.total invoice));
    Some ("Status: " ++ tpl (Invoice.status invoice)) ].

(** [const deepLink = invoice.invoiceID ? await getDeepLink(..) : null] *)
Definition invoiceLink (invoice : Invoice.t) : M World (option string) :=
  if truthy (Invoice.invoiceID invoice) then
    link <- callWorld (getDeepLink env INVOICE (str (Invoice.invoiceID invoice))) ;;
    ret (Some link)
  else ret None.

(** From [const attachmentResults = []] to the final [return]. *)
Definition invoiceReport (invoice : Invoice.t) (deepLink : option string)
           (attachments : option (list AttachmentInput.t))
  : M World ToolResponse.t :=
  newResults ;;;
  (if shouldAttach attachments (Invoice.invoiceID invoice)
   then
     normalizeAndUpload env
       (fun tid fileName body =>
          createInvoiceAttachmentByFileName tid (str (Invoice.invoiceID invoice))
                                            fileName body true)
       (match attachments with
        | Some l => l
        | None => []
        end)
   else ret tt) ;;;
  attachmentResults <- getResults ;;
  ret (textResponse
         (join LF (invoiceFields invoice
                     ++ [attachmentsLine attachmentResults; deepLinkLine deepLink]))).

Definition UpdateInvoiceTool (args : UpdateInvoiceArgs.t) : M World ToolResponse.t :=
  result <- callWorld (updateXeroInvoice env
              (UpdateInvoiceArgs.invoiceId args)
              (UpdateInvoiceArgs.lineItems args)
              (UpdateInvoiceArgs.reference args)
              (UpdateInvoiceArgs.dueDate args)
              (UpdateInvoiceArgs.date args)
              (UpdateInvoiceArgs.contactId args)) ;;
  if XeroClientResponse.isError result then
    ret (textResponse ("Error updating invoice: "
                         ++ tplNull (XeroClientResponse.error result)))
  else
    invoice <- deref (XeroClientResponse.result result)
                     "null (reading 'invoiceID')" ;;
    deepLink <- invoiceLink invoice ;;
    invoiceReport invoice deepLink (UpdateInvoiceArgs.attachments args).

(** *** [create-credit-note.tool.ts], the variant that uploads the inline
    attachments as they are, without the normalizer *)

Definition creditNoteFields (creditNote : CreditNote.t) : list Line :=
  [ Some "Credit note created successfully:";
    Some ("ID: " ++ tpl (CreditNote.creditNoteID creditNote));
    Some ("Contact: " ++ contactName (CreditNote.contact creditNote));
    Some ("Total: " ++ showTotal env (CreditNote.total creditNote));
    Some ("Status: " ++ tpl (CreditNote.status creditNote)) ].

(** [const deepLink = creditNote.creditNoteID ? await getDeepLink(..) : null] *)
Definition creditNoteLink (creditNote : CreditNote.t) : M World (option string) :=
  if truthy (CreditNote.creditNoteID creditNote) then
    link <- callWorld (getDeepLink env CREDIT_NOTE
                         (str (CreditNote.creditNoteID creditNote))) ;;
    ret (Some link)
  else ret None.

(** From [const attachmentResults = []] to the final [return]. *)
Definition creditNoteReport (creditNote : CreditNote.t) (deepLink : option string)
           (attachments : option (list InlineAttachment.t))
  : M World ToolResponse.t :=
  newResults ;;;
  (if shouldAttach attachments (CreditNote.creditNoteID creditNote)
   then
     uploadLoop env InlineAttachment.fileName InlineAttachment.base64Content
       (fun tid fileName body =>
          createCreditNoteAttachmentByFileName tid
            (str (CreditNote.creditNoteID creditNote)) fileName body true)
       (match attachments with
        | Some l => l
        | None => []
        end)
   else ret tt) ;;;
  attachmentResults <- getResults ;;
  ret (textResponse
         (join LF (filterBoolean
            (creditNoteFields creditNote
               ++ [attachmentsLine attachmentResults; deepLinkLine deepLink])))).

Definition CreateCreditNoteTool (args : CreateCreditNoteArgs.t)
  : M World ToolResponse.t :=
  result <- callWorld (createXeroCreditNote env
              (CreateCreditNoteArgs.contactId args)
              (CreateCreditNoteArgs.lineItems args)
              (CreateCreditNoteArgs.reference args)) ;;
  if XeroClientResponse.isError result then
    ret (textResponse ("Error creating credit note: "
                         ++ tplNull (XeroClientResponse.error result)))
  else
    creditNote <- deref (XeroClientResponse.result result)
                        "null (reading 'creditNoteID')" ;;
    deepLink <- creditNoteLink creditNote ;;
    creditNoteReport creditNote deepLink (CreateCreditNoteArgs.attachments args).

(** *** [tools/create/create-account.tool.ts] *)

Definition CreateAccountTool (args : CreateAccountArgs.t) : M World ToolResponse.t :=
  let accountId := CreateAccountArgs.accountId args in
  tryCatch
    (response <- createXeroAccount env
                   (CreateAccountArgs.code args) (CreateAccountArgs.name args)
                   (CreateAccountArgs.type args) accountId
                   (CreateAccountArgs.description args)
                   (CreateAccountArgs.taxType args)
                   (CreateAccountArgs.enablePaymentsToAccount args)
                   (CreateAccountArgs.bankAccountNumber args)
                   (CreateAccountArgs.bankAccountType args)
                   (CreateAccountArgs.showInExpenseClaims args) ;;
     if XeroClientResponse.isError response then
       ret (textResponse ("Error " ++ (if truthy accountId then "updating" else "creating")
                            ++ " account: "
                            ++ tplNull (XeroClientResponse.error response)))
     else
       account <- deref (XeroClientResponse.result response)
                        "null (reading 'accountID')" ;;
       let deepLink : option string :=
         if truthy (Account.accountID account) then None else None in
       ret (textResponse
              (join LF (filterBoolean
                 [ Some ("Account " ++ (if truthy accountId then "updated" else "created")
                           ++ ": " ++ tpl (Account.name account)
                           ++ " (ID: " ++ tpl (Account.accountID account) ++ ")");
                   Some ("Code: " ++ tpl (Account.code account));
                   Some ("Type: " ++ tpl (Account.type account));
                   deepLinkLine deepLink ]))))
    (fun error =>
       let err := ensureError env error in
       ret (textResponse ("Error " ++ (if truthy accountId then "updating" else "creating")
                            ++ " account: " ++ errorMessage err))).

End ToolHandlers.

(** ** Further sources

    The attachment schema, and the tools and collaborators the sections
    above do not need. *)

(** *** [schemas/attachment.schema.ts] *)

Module ZodIssue.
Record t := mk { message : string; path : list string }.
End ZodIssue.

(** The two refinements of [attachmentSchema], in their order; the result
    is the list of issues, empty when the input is accepted. *)
Definition attachmentSchema (data : AttachmentInput.t) : list ZodIssue.t :=
  ((if truthy (AttachmentInput.filePath data)
       || truthy (AttachmentInput.base64Content data)
    then []
    else [ZodIssue.mk "Either filePath or base64Content must be provided"
                      ["filePath"; "base64Content"]])
   ++
   (if truthy (AttachmentInput.base64Content data)
       && negb (truthy (AttachmentInput.fileName data))
    then [ZodIssue.mk "fileName is required when using base64Content" ["fileName"]]
    else []))%list.

(** *** Entities, arguments and collaborators of the further tools *)

Module XeroContact.
Record t := mk { contactID : option string; name : option string }.
End XeroContact.

Module Address.
Record t := mk {
  addressLine1 : string;
  addressLine2 : option string;
  city : option string;
  region : option string;
  postalCode : option string;
  country : option string
}.
End Address.

Module ManualJournalLine.
Record t := mk {
  lineAmount : option JsNumber;
  accountCode : option string;
  description : option string;
  taxType : option string;
  taxAmount : option JsNumber
}.
End ManualJournalLine.

Module ManualJournal.
Record t := mk {
  manualJournalID : option string;
  narration : option string;
  date : option string;
  status : option string;
  journalLines : option (list ManualJournalLine.t);
  showOnCashBasisReports : option bool
}.
End ManualJournal.

Module JournalLineInput.
Record t := mk {
  lineAmount : JsNumber;
  accountCode : string;
  description : option string;
  taxType : option string
}.
End JournalLineInput.

Module UpdateBankTransactionArgs.
Record t := mk {
  bankTransactionId : string;
  type : option string;
  contactId : option string;
  lineItems : option (list LineItem.t);
  reference : option string;
  date : option string;
  attachments : option (list InlineAttachment.t)
}.
End UpdateBankTransactionArgs.

Module CreateCreditNoteNormalizingArgs.
Record t := mk {
  contactId : string;
  lineItems : list LineItem.t;
  reference : option string;
  attachments : option (list AttachmentInput.t)
}.
End CreateCreditNoteNormalizingArgs.

Module UpdateContactArgs.
Record t := mk {
  contactId : string;
  name : string;
  firstName : option string;
  lastName : option string;
  email : option string;
  phone : option string;
  address : option Address.t
}.
End UpdateContactArgs.

Module CreateManualJournalArgs.
Record t := mk {
  narration : string;
  manualJournalLines : list JournalLineInput.t;
  date : option string;
  lineAmountTypes : option string;
  status : option string;
  url : option string;
  showOnCashBasisReports : option bool;
  attachments : option (list InlineAttachment.t)
}.
End CreateManualJournalArgs.

Record MoreCollaborators {World : Type} := mkMoreCollaborators {
  (* the entity handlers whose source is not at hand *)
  updateXeroBankTransaction :
    string -> option string -> option string -> option (list LineItem.t) ->
    option string -> option string ->
    World -> World * (Thrown + XeroClientResponse.t BankTransaction.t);
  updateXeroContact :
    string -> string -> option string -> option string -> option string ->
    option string -> option Address.t ->
    World -> World * (Thrown + XeroClientResponse.t XeroContact.t);
  createXeroManualJournal :
    string -> list JournalLineInput.t -> option string -> option string ->
    option string -> option string -> option bool ->
    World -> World * (Thrown + XeroClientResponse.t ManualJournal.t);
  (* accountingApi.createManualJournalAttachmentByFileName
     (tenantId, manualJournalID, fileName, body) *)
  api_attachManualJournal :
    string -> string -> string -> Buffer -> World -> World * (Thrown + unit);
  (* [account.status], a field of xero-node's [Account] that the record
     [Account.t] leaves out *)
  accountStatus : Account.t -> option string
}.

Arguments MoreCollaborators : clear implicits.

(** [`${b}`] for a possibly undefined boolean. *)
Definition tplBool (o : option bool) : string :=
  match o with
  | Some true => "true"
  | Some false => "false"
  | None => "undefined"
  end.

(** [`${b ?? 'Not set'}`] *)
Definition boolOrNotSet (o : option bool) : string :=
  match o with
  | Some true => "true"
  | Some false => "false"
  | None => "Not set"
  end.

(** An element of the line array of [CreateManualJournalTool]: a string,
    [null], or an array of content-block objects. *)
Inductive Elem :=
| EStr (s : string)
| ENull
| EBlocks (blocks : list ContentBlock.t).

(** [Boolean(e)]: an array is truthy, also when empty. *)
Definition elemTruthy (e : Elem) : bool :=
  match e with
  | EStr s => negb (s =? "")
  | ENull => false
  | EBlocks _ => true
  end.

(** [String(e)] as [Array.prototype.join] applies it: an inner array is
    joined with commas, and a plain object is "[object Object]". *)
Definition elemToString (e : Elem) : string :=
  match e with
  | EStr s => s
  | ENull => ""
  | EBlocks blocks => join "," (map (fun _ => Some "[object Object]") blocks)
  end.

(** [elems.filter(Boolean).join(sep)] *)
Definition joinTruthy (sep : string) (elems : list Elem) : string :=
  join sep (map (fun e => Some (elemToString e)) (filter elemTruthy elems)).

Section FurtherTools.

Context {World : Type} (env : Collaborators World) (more : MoreCollaborators World).

(** *** [tools/get/get-account.tool.ts] *)

Definition accountFields (account : Account.t) : list Line :=
  [ Some ("Account ID: " ++ tpl (Account.accountID account));
    Some ("Code: " ++ tpl (Account.code account));
    Some ("Name: " ++ tpl (Account.name account));
    Some ("Type: " ++ tpl (Account.type account));
    Some ("Description: " ++ orElse (Account.description account) "None");
    Some ("Tax Type: " ++ orElse (Account.taxType account) "None");
    Some ("Bank Account Number: " ++ orElse (Account.bankAccountNumber account) "None");
    Some ("Bank Account Type: " ++ orElse (Account.bankAccountType account) "None");
    Some ("Enable Payments: " ++ boolOrNotSet (Account.enablePaymentsToAccount account));
    Some ("Show in Expense Claims: "
            ++ boolOrNotSet (Account.showInExpenseClaims account));
    Some ("Status: " ++ tpl (accountStatus more account)) ].

Definition GetAccountTool (accountId : string) : M World ToolResponse.t :=
  response <- getXeroAccount env accountId ;;
  if XeroClientResponse.isError response then
    ret (textResponse ("Error retrieving account: "
                         ++ tplNull (XeroClientResponse.error response)))
  else
    match XeroClientResponse.result response with
    | None => ret (textResponse ("No account found with ID: " ++ accountId))
    | Some account =>
        let deepLink : option string := None in
        ret (textResponse
               (join LF (filterBoolean (accountFields account ++ [deepLinkLine deepLink]))))
    end.

(** *** [update-bank-transaction.tool.ts] *)

Definition updatedBankTransactionFields (bankTransaction : BankTransaction.t)
  : list Line :=
  [ Some "Bank transaction updated successfully:";
    Some ("ID: " ++ tpl (BankTransaction.bankTransactionID bankTransaction));
    Some ("Date: " ++ tpl (BankTransaction.date bankTransaction));
    Some ("Contact: " ++ contactName (BankTransaction.contact bankTransaction));
    Some ("Total: " ++ showTotal env (BankTransaction.total bankTransaction));
    Some ("Status: " ++ tpl (BankTransaction.status bankTransaction)) ].

Definition UpdateBankTransactionTool (args : UpdateBankTransactionArgs.t)
  : M World ToolResponse.t :=
  result <- callWorld (updateXeroBankTransaction more
              (UpdateBankTransactionArgs.bankTransactionId args)
              (UpdateBankTransactionArgs.type args)
              (UpdateBankTransactionArgs.contactId args)
              (UpdateBankTransactionArgs.lineItems args)
              (UpdateBankTransactionArgs.reference args)
              (UpdateBankTransactionArgs.date args)) ;;
  if XeroClientResponse.isError result then
    ret (textResponse ("Error updating bank transaction: "
                         ++ tplNull (XeroClientResponse.error result)))
  else
    bankTransaction <- deref (XeroClientResponse.result result)
                             "null (reading 'bankAccount')" ;;
    bankAccount <- deref (BankTransaction.bankAccount bankTransaction)
                         "undefined (reading 'accountID')" ;;
    deepLink <- bankTransactionLink env bankAccount bankTransaction ;;
    newResults ;;;
    (if shouldAttach (UpdateBankTransactionArgs.attachments args)
                     (BankTransaction.bankTransactionID bankTransaction)
     then
       normalizeAndUpload env
         (fun tid => createBankTransactionAttachmentByFileName tid
                       (str (BankTransaction.bankTransactionID bankTransaction)))
         (map InlineAttachment.asInput
              (match UpdateBankTransactionArgs.attachments args with
               | Some l => l
               | None => []
               end))
     else ret tt) ;;;
    attachmentResults <- getResults ;;
    ret (textResponse
           (join LF (filterBoolean
              (updatedBankTransactionFields bankTransaction
                 ++ [attachmentsLine attachmentResults; deepLinkLine deepLink])))).

(** *** [tools/create/create-credit-note.tool.ts], the variant that
    normalizes its attachments first *)

Definition CreateCreditNoteTool_normalizing (args : CreateCreditNoteNormalizingArgs.t)
  : M World ToolResponse.t :=
  result <- callWorld (createXeroCreditNote env
              (CreateCreditNoteNormalizingArgs.contactId args)
              (CreateCreditNoteNormalizingArgs.lineItems args)
              (CreateCreditNoteNormalizingArgs.reference args)) ;;
  if XeroClientResponse.isError result then
    ret (textResponse ("Error creating credit note: "
                         ++ tplNull (XeroClientResponse.error result)))
  else
    creditNote <- deref (XeroClientResponse.result result)
                        "null (reading 'creditNoteID')" ;;
    deepLink <- creditNoteLink env creditNote ;;
    newResults ;;;
    (if shouldAttach (CreateCreditNoteNormalizingArgs.attachments args)
                     (CreditNote.creditNoteID creditNote)
     then
       normalizeAndUpload env
         (fun tid fileName body =>
            createCreditNoteAttachmentByFileName tid
              (str (CreditNote.creditNoteID creditNote)) fileName body true)
         (match CreateCreditNoteNormalizingArgs.attachments args with
          | Some l => l
          | None => []
          end)
     else ret tt) ;;;
    attachmentResults <- getResults ;;
    ret (textResponse
           (join LF (filterBoolean
              (creditNoteFields env creditNote
                 ++ [attachmentsLine attachmentResults; deepLinkLine deepLink])))).

(** *** [update-contact.tool.ts] *)

Definition UpdateContactTool (args : UpdateContactArgs.t) : M World ToolResponse.t :=
  tryCatch
    (response <- callWorld (updateXeroContact more
                   (UpdateContactArgs.contactId args)
                   (UpdateContactArgs.name args)
                   (UpdateContactArgs.firstName args)
                   (UpdateContactArgs.lastName args)
                   (UpdateContactArgs.email args)
                   (UpdateContactArgs.phone args)
                   (UpdateContactArgs.address args)) ;;
     if XeroClientResponse.isError response then
       ret (textResponse ("Error updating contact: "
                            ++ tplNull (XeroClientResponse.error response)))
     else
       contact <- deref (XeroClientResponse.result response)
                        "null (reading 'contactID')" ;;
       deepLink <-
         (if truthy (XeroContact.contactID contact) then
            link <- callWorld (getDeepLink env CONTACT
                                 (str (XeroContact.contactID contact))) ;;
            ret (Some link)
          else ret None) ;;
       ret (textResponse
              (join LF (filterBoolean
                 [ Some ("Contact updated: " ++ tpl (XeroContact.name contact)
                           ++ " (ID: " ++ tpl (XeroContact.contactID contact) ++ ")");
                   deepLinkLine deepLink ]))))
    (fun error =>
       let err := ensureError env error in
       ret (textResponse ("Error creating contact: " ++ errorMessage err))).

(** *** [create-manual-journal.tool.ts] *)

(** One iteration of the upload loop of the manual-journal tools; the
    remote call is a collaborator of its own and is not written to the
    trace. *)
Definition uploadJournalAttachment (manualJournalID : string)
           (attachment : InlineAttachment.t) : M World unit :=
  let fileName := InlineAttachment.fileName attachment in
  tryCatch
    (tid <- readWorld (tenantId env) ;;
     callWorld (api_attachManualJournal more tid manualJournalID fileName
                  (fromBase64 env (InlineAttachment.base64Content attachment))) ;;;
     pushResult (AttachmentUploadResult.mk fileName success None))
    (fun error =>
       let errorMessage := errorMessage error in
       consoleError ("Attachment failed for " ++ fileName ++ ":") ;;;
       pushResult (AttachmentUploadResult.mk fileName failed (Some errorMessage))).

Fixpoint uploadJournalAttachments (manualJournalID : string)
         (attachments : list InlineAttachment.t) : M World unit :=
  match attachments with
  | [] => ret tt
  | attachment :: rest =>
      uploadJournalAttachment manualJournalID attachment ;;;
      uploadJournalAttachments manualJournalID rest
  end.

(** The object [journalLines.map] builds for one journal line. *)
Definition journalLineBlock (line : ManualJournalLine.t) : ContentBlock.t :=
  ContentBlock.mk "text"
    (join LF (filterBoolean
       [ Some ("Line Amount: "
                 ++ tpl (option_map (numberToString env)
                                    (ManualJournalLine.lineAmount line)));
         Some (if truthy (ManualJournalLine.accountCode line)
               then "Account Code: " ++ str (ManualJournalLine.accountCode line)
               else "No account code");
         Some (if truthy (ManualJournalLine.description line)
               then "Description: " ++ str (ManualJournalLine.description line)
               else "No description");
         Some (if truthy (ManualJournalLine.taxType line)
               then "Tax Type: " ++ str (ManualJournalLine.taxType line)
               else "No tax type");
         Some ("Tax Amount: "
                 ++ tpl (option_map (numberToString env)
                                    (ManualJournalLine.taxAmount line))) ])).

(** The array the tool filters and joins into its text. *)
Definition manualJournalElems (manualJournal : ManualJournal.t)
           (attachmentResults : list AttachmentUploadResult.t)
           (deepLink : option string) : list Elem :=
  [ EStr ("Manual journal created: " ++ tpl (ManualJournal.narration manualJournal)
            ++ " (ID: " ++ tpl (ManualJournal.manualJournalID manualJournal) ++ ")");
    (if truthy (ManualJournal.date manualJournal)
     then EStr ("Date: " ++ str (ManualJournal.date manualJournal))
     else ENull);
    (if truthy (ManualJournal.status manualJournal)
     then EStr ("Status: " ++ str (ManualJournal.status manualJournal))
     else EStr "No status");
    (match ManualJournal.journalLines manualJournal with
     | Some lines => EBlocks (map journalLineBlock lines)
     | None => EBlocks [ContentBlock.mk "text" "No journal lines"]
     end);
    EStr ("Show on Cash Basis Reports: "
            ++ tplBool (ManualJournal.showOnCashBasisReports manualJournal));
    (match attachmentsLine attachmentResults with
     | Some s => EStr s
     | None => ENull
     end);
    (match deepLinkLine deepLink with
     | Some s => EStr s
     | None => ENull
     end) ].

Definition CreateManualJournalTool (args : CreateManualJournalArgs.t)
  : M World ToolResponse.t :=
  tryCatch
    (response <- callWorld (createXeroManualJournal more
                   (CreateManualJournalArgs.narration args)
                   (CreateManualJournalArgs.manualJournalLines args)
                   (CreateManualJournalArgs.date args)
                   (CreateManualJournalArgs.lineAmountTypes args)
                   (CreateManualJournalArgs.status args)
                   (CreateManualJournalArgs.url args)
                   (CreateManualJournalArgs.showOnCashBasisReports args)) ;;
     if XeroClientResponse.isError response then
       ret (textResponse ("Error creating manual journal: "
                            ++ tplNull (XeroClientResponse.error response)))
     else
       manualJournal <- deref (XeroClientResponse.result response)
                              "null (reading 'manualJournalID')" ;;
       deepLink <-
         (if truthy (ManualJournal.manualJournalID manualJournal) then
            link <- callWorld (getDeepLink env MANUAL_JOURNAL
                                 (str (ManualJournal.manualJournalID manualJournal))) ;;
            ret (Some link)
          else ret None) ;;
       newResults ;;;
       (if shouldAttach (CreateManualJournalArgs.attachments args)
                        (ManualJournal.manualJournalID manualJournal)
        then
          uploadJournalAttachments
            (str (ManualJournal.manualJournalID manualJournal))
            (match CreateManualJournalArgs.attachments args with
             | Some l => l
             | None => []
             end)
        else ret tt) ;;;
       attachmentResults <- getResults ;;
       ret (textResponse
              (joinTruthy LF (manualJournalElems manualJournal attachmentResults
                                                 deepLink))))
    (fun error =>
       let err := ensureError env error in
       ret (textResponse ("Error creating manual journal: " ++ errorMessage err))).

End FurtherTools.

(** ** Vocabulary of the properties *)

(** [error.code] *)
Definition codeOf (error : Thrown) : option string :=
  match error with
  | ErrorObj code _ => code
  | NonError _ => None
  end.

(** The remote attachment calls of a trace, with their outcomes, in order. *)
Fixpoint attachEvents (t : list Event) : list (AttachCall * option Thrown) :=
  match t with
  | [] => []
  | RemoteAttach call threw :: rest => (call, threw) :: attachEvents rest
  | _ :: rest => attachEvents rest
  end.

Section Vocabulary.

Context {World : Type} (env : Collaborators World).

(** The result entry the loop records for an attachment, by the outcome of
    its upload call. *)
Definition resultOf (fileName : string) (threw : option Thrown)
  : AttachmentUploadResult.t :=
  match threw with
  | None => AttachmentUploadResult.mk fileName success None
  | Some e => AttachmentUploadResult.mk fileName failed (Some (errorMessage e))
  end.

(** What an upload call threw, if it threw. *)
Definition thrownOf (outcome : Thrown + unit) : option Thrown :=
  match outcome with
  | inl e => Some e
  | inr _ => None
  end.

(** The upload calls owed to a list of attachments, issued one after the
    other against the remote service itself, from world [w]: each call
    carries the tenant of the world it is issued in, the attachment's name
    and its decoded content; the next call is issued in the world the
    previous one left, whether it threw or not.  Returns the last world
    and the calls with what each threw. *)
Fixpoint remoteUploads {A} (fileNameOf base64Of : A -> string)
         (endpoint : string -> string -> Buffer -> AttachCall)
         (attachments : list A) (w : World)
  : World * list (AttachCall * option Thrown) :=
  match attachments with
  | [] => (w, [])
  | a :: rest =>
      let call := endpoint (tenantId env w) (fileNameOf a)
                           (fromBase64 env (base64Of a)) in
      let '(w1, outcome) := api_attach env call w in
      let '(w', calls) := remoteUploads fileNameOf base64Of endpoint rest w1 in
      (w', (call, thrownOf outcome) :: calls)
  end.

(** One call and one result per attachment, position by position: call [i]
    carries the name and the decoded content of attachment [i], and result
    [i] is [failed] with the thrown error's message when call [i] threw,
    and [success] otherwise. *)
Definition OneResultPerAttachment {A} (fileNameOf base64Of : A -> string)
           (endpoint : string -> string -> Buffer -> AttachCall)
           (attachments : list A)
           (calls : list (AttachCall * option Thrown))
           (results : list AttachmentUploadResult.t) : Prop :=
  length calls = length attachments /\
  length results = length attachments /\
  forall i a,
    nth_error attachments i = Some a ->
    exists tid threw r,
      nth_error calls i
        = Some (endpoint tid (fileNameOf a) (fromBase64 env (base64Of a)), threw) /\
      nth_error results i = Some r /\
      AttachmentUploadResult.fileName r = fileNameOf a /\
      match threw with
      | Some e => AttachmentUploadResult.status r = failed /\
                  AttachmentUploadResult.error r = Some (errorMessage e)
      | None => AttachmentUploadResult.status r = success /\
                AttachmentUploadResult.error r = None
      end.

(** The primary operation of [CreateBankTransactionTool] succeeded from
    machine [m]: the handler returned a success envelope holding
    [bankTransaction], and the deep link was computed as [deepLink],
    leaving machine [m2]. *)
Definition bankTransactionCreated (args : CreateBankTransactionArgs.t)
           (m : Machine World) (bankTransaction : BankTransaction.t)
           (deepLink : option string) (m2 : Machine World) : Prop :=
  exists w1 result bankAccount,
    createXeroBankTransaction env
      (CreateBankTransactionArgs.type args)
      (CreateBankTransactionArgs.bankAccountId args)
      (CreateBankTransactionArgs.contactId args)
      (CreateBankTransactionArgs.lineItems args)
      (CreateBankTransactionArgs.reference args)
      (CreateBankTransactionArgs.date args) (world m) = (w1, inr result) /\
    XeroClientResponse.isError result = false /\
    XeroClientResponse.result result = Some bankTransaction /\
    BankTransaction.bankAccount bankTransaction = Some bankAccount /\
    bankTransactionLink env bankAccount bankTransaction
      (mkMachine w1 (trace m) (attachmentResults m)) = (m2, inr deepLink).

(** The same for [UpdateInvoiceTool]. *)
Definition invoiceUpdated (args : UpdateInvoiceArgs.t)
           (m : Machine World) (invoice : Invoice.t)
           (deepLink : option string) (m2 : Machine World) : Prop :=
  exists w1 result,
    updateXeroInvoice env
      (UpdateInvoiceArgs.invoiceId args)
      (UpdateInvoiceArgs.lineItems args)
      (UpdateInvoiceArgs.reference args)
      (UpdateInvoiceArgs.dueDate args)
      (UpdateInvoiceArgs.date args)
      (UpdateInvoiceArgs.contactId args) (world m) = (w1, inr result) /\
    XeroClientResponse.isError result = false /\
    XeroClientResponse.result result = Some invoice /\
    invoiceLink env invoice (mkMachine w1 (trace m) (attachmentResults m))
      = (m2, inr deepLink).

End Vocabulary.

Section FurtherVocabulary.

Context {World : Type} (env : Collaborators World) (more : MoreCollaborators World).

(** The same for [UpdateBankTransactionTool]. *)
Definition bankTransactionUpdated (args : UpdateBankTransactionArgs.t)
           (m : Machine World) (bankTransaction : BankTransaction.t)
           (deepLink : option string) (m2 : Machine World) : Prop :=
  exists w1 result bankAccount,
    updateXeroBankTransaction more
      (UpdateBankTransactionArgs.bankTransactionId args)
      (UpdateBankTransactionArgs.type args)
      (UpdateBankTransactionArgs.contactId args)
      (UpdateBankTransactionArgs.lineItems args)
      (UpdateBankTransactionArgs.reference args)
      (UpdateBankTransactionArgs.date args) (world m) = (w1, inr result) /\
    XeroClientResponse.isError result = false /\
    XeroClientResponse.result result = Some bankTransaction /\
    BankTransaction.bankAccount bankTransaction = Some bankAccount /\
    bankTransactionLink env bankAccount bankTransaction
      (mkMachine w1 (trace m) (attachmentResults m)) = (m2, inr deepLink).

(** The same for the [CreateCreditNoteTool] that normalizes its attachments. *)
Definition creditNoteCreated (args : CreateCreditNoteNormalizingArgs.t)
           (m : Machine World) (creditNote : CreditNote.t)
           (deepLink : option string) (m2 : Machine World) : Prop :=
  exists w1 result,
    createXeroCreditNote env
      (CreateCreditNoteNormalizingArgs.contactId args)
      (CreateCreditNoteNormalizingArgs.lineItems args)
      (CreateCreditNoteNormalizingArgs.reference args) (world m) = (w1, inr result) /\
    XeroClientResponse.isError result = false /\
    XeroClientResponse.result result = Some creditNote /\
    creditNoteLink env creditNote (mkMachine w1 (trace m) (attachmentResults m))
      = (m2, inr deepLink).

End FurtherVocabulary.

(** A line of the response that starts with "Attachments:". *)
Definition isAttachmentsLine (l : Line) : bool :=
  match l with
  | Some s => startsWith "Attachments:" s
  | None => false
  end.

(** [text.split("\n")]: the lines of a text. *)
Fixpoint splitLines (text : string) : list string :=
  match text with
  | EmptyString => [EmptyString]
  | String c rest =>
      if Ascii.eqb c (ascii_of_nat 10) then EmptyString :: splitLines rest
      else match splitLines rest with
           | [] => [String c EmptyString]
           | line :: lines => String c line :: lines
           end
  end.

(** The text has a line that starts with "Attachments:". *)
Definition hasAttachmentsLine (text : string) : bool :=
  existsb (startsWith "Attachments:") (splitLines text).

(** The string holds a line break. *)
Fixpoint hasLineBreak (s : string) : bool :=
  match s with
  | EmptyString => false
  | String c rest => Ascii.eqb c (ascii_of_nat 10) || hasLineBreak rest
  end.

(** An element of a joined array that brings no "Attachments:" line of its
    own into the text: it holds no line break followed by "Attachments:". *)
Definition noAttachmentsLineInside (l : Line) : Prop :=
  includes (LF ++ "Attachments:") (match l with Some s => s | None => "" end)
  = false.

(** The array a tool joins into its response text when it skipped the
    attachment handling, by what the entity handler returned: the one
    error line; or the entity's field lines, a [null] where the
    attachments line would be, and the link line.  [filtered] tells
    whether the tool passes the array through [filter(Boolean)]. *)
Definition skippedLines {T} (errorLabel : string) (fields : T -> list Line)
           (filtered : bool) (outcome : Thrown + XeroClientResponse.t T)
           (lines : list Line) : Prop :=
  exists result,
    outcome = inr result /\
    if XeroClientResponse.isError result
    then lines = [Some (errorLabel ++ tplNull (XeroClientResponse.error result))]
    else exists entity link,
        XeroClientResponse.result result = Some entity /\
        lines = (if filtered then filterBoolean else fun ls => ls)
                  (fields entity ++ [None; deepLinkLine link])%list.

(** What a tool invocation that skipped the attachment handling leaves
    behind: no call of any kind was added to the trace, no result entry
    exists, and a returned response is one text block, the join of
    [skippedLines]; that text has no line starting with "Attachments:"
    unless one of the joined elements holds such a line itself, behind a
    line break. *)
Definition AttachmentsSkipped {World T} (errorLabel : string)
           (fields : T -> list Line) (filtered : bool)
           (outcome : Thrown + XeroClientResponse.t T)
           (m m' : Machine World) (r : Thrown + ToolResponse.t) : Prop :=
  trace m' = trace m /\
  (attachmentResults m' = [] \/ attachmentResults m' = attachmentResults m) /\
  forall response,
    r = inr response ->
    exists lines,
      skippedLines errorLabel fields filtered outcome lines /\
      response = ToolResponse.mk [ContentBlock.mk "text" (join LF lines)] /\
      (Forall noAttachmentsLineInside lines ->
       hasAttachmentsLine (join LF lines) = false).

(** The three conditions under which a tool may upload: the handler
    returned a success envelope [result], the entity's identifier is
    non-empty, and the attachment list is non-empty. *)
Definition mayAttach {T A} (idOf : T -> option string)
           (outcome : Thrown + XeroClientResponse.t T)
           (attachments : option (list A)) : Prop :=
  exists result entity,
    outcome = inr result /\
    XeroClientResponse.isError result = false /\
    XeroClientResponse.result result = Some entity /\
    truthy (idOf entity) = true /\
    exists a l, attachments = Some (a :: l).

Ltac run_monad :=
  unfold bind, ret, throw, tryCatch, emit, consoleError, callWorld, readWorld,
    pushResult, newResults, getResults; simpl.

(** ** A concrete world

    A small file system, a remote service that rejects one file name, and
    an organisation whose short code may be unknown.  Used to run the
    model on concrete inputs. *)

Module Demo.

Record World := mkWorld {
  uploads : nat;              (* attachment calls received so far *)
  shortCode : option string   (* what the deep-link builder needs *)
}.

Definition enoent (syscall path : string) : Thrown :=
  ErrorObj (Some "ENOENT")
           ("ENOENT: no such file or directory, " ++ syscall ++ " '" ++ path ++ "'").

Definition eacces (syscall path : string) : Thrown :=
  ErrorObj (Some "EACCES")
           ("EACCES: permission denied, " ++ syscall ++ " '" ++ path ++ "'").

Definition stat (path : string) (w : World) : World * (Thrown + Stats.t) :=
  if path =? "/tmp/a.pdf" then (w, inr (Stats.mk true 3))
  else if path =? "/tmp/b.png" then (w, inr (Stats.mk true 2))
  else if path =? "/tmp/big.bin" then (w, inr (Stats.mk true 11534336))
  else if path =? "/tmp/dir" then (w, inr (Stats.mk false 4096))
  else if path =? "/root/secret" then (w, inl (eacces "stat" path))
  else (w, inl (enoent "stat" path)).

Definition read (path : string) (w : World) : World * (Thrown + Buffer) :=
  if path =? "/tmp/a.pdf" then (w, inr [Byte.x41; Byte.x42; Byte.x43])
  else if path =? "/tmp/b.png" then (w, inr [Byte.x41; Byte.x42])
  else (w, inl (enoent "open" path)).

(** The part of the name after the last slash. *)
Fixpoint lastSegment (acc path : string) : string :=
  match path with
  | EmptyString => acc
  | String c rest =>
      if Ascii.eqb c "/"%char then lastSegment "" rest
      else lastSegment (acc ++ String c "") rest
  end.

Definition mime (fileName : string) : string :=
  if includes ".pdf" fileName then "application/pdf"
  else if includes ".png" fileName then "image/png"
  else "application/octet-stream".

Definition encode (b : Buffer) : string :=
  match b with
  | [Byte.x41; Byte.x42; Byte.x43] => "QUJD"
  | [Byte.x41; Byte.x42] => "QUI="
  | _ => ""
  end.

Definition decode (s : string) : Buffer :=
  if s =? "QUJD" then [Byte.x41; Byte.x42; Byte.x43]
  else if s =? "QUI=" then [Byte.x41; Byte.x42]
  else [].

Definition fileNameOfCall (call : AttachCall) : string :=
  match call with
  | createBankTransactionAttachmentByFileName _ _ f _ => f
  | createInvoiceAttachmentByFileName _ _ f _ _ => f
  | createCreditNoteAttachmentByFileName _ _ f _ _ => f
  end.

(** The remote service rejects the file name [b.pdf]. *)
Definition attachCall (call : AttachCall) (w : World) : World * (Thrown + unit) :=
  let w1 := mkWorld (S (uploads w)) (shortCode w) in
  if fileNameOfCall call =? "b.pdf"
  then (w1, inl (newError "Request failed with status code 400"))
  else (w1, inr tt).

Definition sampleAccount : Account.t :=
  Account.mk (Some "acc-1") (Some "200") (Some "Sales") (Some "REVENUE")
             None None None None None None.

Definition sampleBankTransaction : BankTransaction.t :=
  BankTransaction.mk (Some "bt-1") (Some (BankAccount.mk (Some "acc-1")))
                     (Some "2024-05-01") (Some (Contact.mk (Some "ACME")))
                     (Some 120%float) (Some "AUTHORISED").

Definition sampleInvoice : Invoice.t :=
  Invoice.mk (Some "inv-1") (Some (Contact.mk (Some "ACME"))) (Some "ACCREC")
             None (Some 120%float) (Some "DRAFT").

Definition sampleCreditNote : CreditNote.t :=
  CreditNote.mk (Some "cn-1") (Some (Contact.mk (Some "ACME")))
                (Some 120%float) (Some "DRAFT").

Definition ok {T} (x : T) : XeroClientResponse.t T :=
  XeroClientResponse.mk (Some x) false None.

Definition err {T} (message : string) : XeroClientResponse.t T :=
  XeroClientResponse.mk None true (Some message).

(** The handlers fail for the contact [nobody]. *)
Definition handle {T} (entity : T) (contactId : string) (w : World)
  : World * (Thrown + XeroClientResponse.t T) :=
  if contactId =? "nobody" then (w, inr (err "Contact not found"))
  else (w, inr (ok entity)).

Definition deepLink (url : string) (w : World) : World * (Thrown + string) :=
  match shortCode w with
  | Some c => (w, inr ("https://go.xero.com/app/" ++ c ++ "/" ++ url))
  | None => (w, inl (newError "Failed to retrieve organisation short code"))
  end.

Definition env : Collaborators World :=
  {| resolve := fun p => p;
     basename := lastSegment "";
     detectMimeType := mime;
     toBase64 := encode;
     fromBase64 := decode;
     fs_stat := stat;
     fs_readFile := read;
     tenantId := fun _ => "tenant-1";
     authenticate := fun w => (w, inr tt);
     api_attach := attachCall;
     api_getAccount := fun _ id w =>
       if id =? "acc-1" then (w, inr (Some [sampleAccount])) else (w, inr (Some []));
     api_createAccount := fun _ a w => (w, inr (Some [a]));
     api_updateAccount := fun _ _ l w => (w, inr (Some l));
     createXeroBankTransaction := fun _ _ contactId _ _ _ =>
       handle sampleBankTransaction contactId;
     updateXeroInvoice := fun invoiceId _ _ _ _ _ =>
       handle sampleInvoice invoiceId;
     createXeroCreditNote := fun contactId _ _ =>
       handle sampleCreditNote contactId;
     formatError := errorMessage;
     ensureError := fun e => newError (errorMessage e);
     numberToString := fun _ => "120";
     getDeepLink := fun _ id => deepLink ("invoicing/view/" ++ id);
     bankTransactionDeepLink := fun accountId id =>
       deepLink ("bank/" ++ accountId ++ "/" ++ id)
  |}.

Definition machine : Machine World :=
  mkMachine (mkWorld 0 (Some "!abc")) [] [].

(** Sample attachment inputs: fileName, mimeType, filePath, base64Content. *)
Definition byContent := AttachmentInput.mk (Some "a.pdf") None None (Some "QUJD").
Definition byPath := AttachmentInput.mk None None (Some "/tmp/a.pdf") None.
Definition byPathOverridden :=
  AttachmentInput.mk (Some "scan.bin") (Some "text/plain") (Some "/tmp/a.pdf") None.
Definition noSource := AttachmentInput.mk None None None None.
Definition noName := AttachmentInput.mk None None None (Some "QUJD").
Definition pathAndContent :=
  AttachmentInput.mk None None (Some "/tmp/a.pdf") (Some "QUJD").
Definition emptyMime := AttachmentInput.mk None (Some "") (Some "/tmp/a.pdf") None.
Definition emptyPath := AttachmentInput.mk (Some "a.pdf") None (Some "") (Some "QUJD").
Definition bothEmpty := AttachmentInput.mk None None (Some "") (Some "").
Definition emptyName := AttachmentInput.mk (Some "") None None (Some "QUJD").
Definition emptyNameWithPath :=
  AttachmentInput.mk (Some "") None (Some "/tmp/a.pdf") (Some "QUJD").
Definition aPdf := ProcessedAttachment.mk "a.pdf" "application/pdf" "QUJD".

(** Sample tool arguments. *)
Definition threeFiles : list InlineAttachment.t :=
  [ InlineAttachment.mk "a.pdf" None "QUJD";
    InlineAttachment.mk "b.pdf" None "QUJD";
    InlineAttachment.mk "c.pdf" None "QUI=" ].

Definition namelessFile : list InlineAttachment.t :=
  [ InlineAttachment.mk "a.pdf" None "QUJD";
    InlineAttachment.mk "" None "QUJD" ].

Definition bankArgs (contactId : string) (attachments : option (list InlineAttachment.t))
  : CreateBankTransactionArgs.t :=
  CreateBankTransactionArgs.mk "SPEND" "acc-1" contactId [] None None attachments.

Definition invoiceArgs (invoiceId : string) (attachments : option (list AttachmentInput.t))
  : UpdateInvoiceArgs.t :=
  UpdateInvoiceArgs.mk invoiceId None None None None None attachments.

Definition creditNoteArgs (contactId : string)
           (attachments : option (list InlineAttachment.t))
  : CreateCreditNoteArgs.t :=
  CreateCreditNoteArgs.mk contactId [] None attachments.

Definition bankLink : option string :=
  Some "https://go.xero.com/app/!abc/bank/acc-1/bt-1".

Definition threeProcessed : list ProcessedAttachment.t :=
  [ ProcessedAttachment.mk "a.pdf" "application/pdf" "QUJD";
    ProcessedAttachment.mk "b.pdf" "application/pdf" "QUJD";
    ProcessedAttachment.mk "c.pdf" "application/pdf" "QUI=" ].

(** The same, with an organisation whose short code cannot be found. *)
Definition machineNoShortCode : Machine World :=
  mkMachine (mkWorld 0 None) [] [].

End Demo.

(** ** Vocabulary of the further properties *)

(** The file-system calls of a trace, in order. *)
Fixpoint fsEvents (t : list Event) : list Event :=
  match t with
  | [] => []
  | FsStat path :: rest => FsStat path :: fsEvents rest
  | FsReadFile path :: rest => FsReadFile path :: fsEvents rest
  | _ :: rest => fsEvents rest
  end.

(** What [processAttachments] makes of one input: by path, the overrides
    or the values derived from the base name of the resolved path; by
    content, the name and the content as they are. *)
Definition Normalized {World} (env : Collaborators World)
           (a : AttachmentInput.t) (p : ProcessedAttachment.t) : Prop :=
  if truthy (AttachmentInput.filePath a) then
    let loaded := basename env (resolve env (str (AttachmentInput.filePath a))) in
    ProcessedAttachment.fileName p = orElse (AttachmentInput.fileName a) loaded /\
    ProcessedAttachment.mimeType p
      = orElse (AttachmentInput.mimeType a) (detectMimeType env loaded)
  else
    AttachmentInput.fileName a = Some (ProcessedAttachment.fileName p) /\
    ProcessedAttachment.fileName p <> "" /\
    AttachmentInput.base64Content a = Some (ProcessedAttachment.base64Content p) /\
    ProcessedAttachment.base64Content p <> "" /\
    ProcessedAttachment.mimeType p
      = orElse (AttachmentInput.mimeType a)
               (detectMimeType env (ProcessedAttachment.fileName p)).

(** What the normalizer makes of an inline attachment. *)
Definition normalizedInline {World} (env : Collaborators World)
           (a : InlineAttachment.t) : ProcessedAttachment.t :=
  ProcessedAttachment.mk
    (InlineAttachment.fileName a)
    (orElse (InlineAttachment.mimeType a)
            (detectMimeType env (InlineAttachment.fileName a)))
    (InlineAttachment.base64Content a).

(** An inline attachment with a name and some content. *)
Definition namedWithContent (a : InlineAttachment.t) : Prop :=
  InlineAttachment.fileName a <> "" /\ InlineAttachment.base64Content a <> "".

(** An array element as a line: an array of objects is seen through its
    rendering. *)
Definition lineOf (e : Elem) : Line :=
  match e with
  | EStr s => Some s
  | ENull => None
  | EBlocks _ => Some (elemToString e)
  end.

(** The synthetic entry a tool records when normalization fails. *)
Definition unknownResult (e : Thrown) : AttachmentUploadResult.t :=
  AttachmentUploadResult.mk "unknown" failed
    (Some ("Processing failed: " ++ errorMessage e)).

(** A concrete world with a file of exactly the size limit, a large
    directory, and a client that may fail to authenticate. *)

Module Scenario.

Definition stat (path : string) (w : Demo.World)
  : Demo.World * (Thrown + Stats.t) :=
  if path =? "/tmp/limit.bin" then (w, inr (Stats.mk true 10485760))
  else if path =? "/tmp/over.bin" then (w, inr (Stats.mk true 10485761))
  else if path =? "/tmp/bigdir" then (w, inr (Stats.mk false 20000000))
  else Demo.stat path w.

Definition read (path : string) (w : Demo.World) : Demo.World * (Thrown + Buffer) :=
  if path =? "/tmp/limit.bin" then (w, inr [Byte.x41; Byte.x42])
  else Demo.read path w.

(** [Demo.env] over the larger file system; [online] tells whether
    [authenticate] succeeds. *)
Definition env (online : bool) : Collaborators Demo.World :=
  {| resolve := resolve Demo.env;
     basename := basename Demo.env;
     detectMimeType := detectMimeType Demo.env;
     toBase64 := toBase64 Demo.env;
     fromBase64 := fromBase64 Demo.env;
     fs_stat := stat;
     fs_readFile := read;
     tenantId := tenantId Demo.env;
     authenticate := fun w =>
       if online then (w, inr tt)
       else (Demo.mkWorld (S (Demo.uploads w)) (Demo.shortCode w),
             inl (newError "invalid_client"));
     api_attach := api_attach Demo.env;
     api_getAccount := fun tid id w =>
       (Demo.mkWorld (100 + Demo.uploads w) (Demo.shortCode w),
        snd (api_getAccount Demo.env tid id w));
     api_createAccount := fun tid a w =>
       (Demo.mkWorld (100 + Demo.uploads w) (Demo.shortCode w),
        snd (api_createAccount Demo.env tid a w));
     api_updateAccount := fun tid id l w =>
       (Demo.mkWorld (100 + Demo.uploads w) (Demo.shortCode w),
        snd (api_updateAccount Demo.env tid id l w));
     createXeroBankTransaction := createXeroBankTransaction Demo.env;
     updateXeroInvoice := updateXeroInvoice Demo.env;
     createXeroCreditNote := createXeroCreditNote Demo.env;
     formatError := formatError Demo.env;
     ensureError := ensureError Demo.env;
     numberToString := numberToString Demo.env;
     getDeepLink := getDeepLink Demo.env;
     bankTransactionDeepLink := bankTransactionDeepLink Demo.env
  |}.

Definition sampleContact : XeroContact.t :=
  XeroContact.mk (Some "c-1") (Some "ACME").

Definition sampleJournal : ManualJournal.t :=
  ManualJournal.mk (Some "mj-1") (Some "Accrual") (Some "2024-05-01") (Some "DRAFT")
    (Some [ ManualJournalLine.mk (Some 100%float) (Some "200") None None None;
            ManualJournalLine.mk (Some (-100)%float) (Some "400") None None None ])
    (Some true).

Definition more : MoreCollaborators Demo.World :=
  {| updateXeroBankTransaction := fun id _ _ _ _ _ =>
       Demo.handle Demo.sampleBankTransaction id;
     updateXeroContact := fun id _ _ _ _ _ _ =>
       Demo.handle sampleContact id;
     createXeroManualJournal := fun narration _ _ _ _ _ _ =>
       Demo.handle sampleJournal narration;
     api_attachManualJournal := fun _ _ fileName _ w =>
       if fileName =? "b.pdf"
       then (w, inl (newError "Request failed with status code 400"))
       else (w, inr tt);
     accountStatus := fun _ => Some "ACTIVE"
  |}.

Definition journalArgs (narration : string)
           (attachments : option (list InlineAttachment.t))
  : CreateManualJournalArgs.t :=
  CreateManualJournalArgs.mk narration [] None None None None None attachments.

Definition contactArgs (contactId : string) : UpdateContactArgs.t :=
  UpdateContactArgs.mk contactId "ACME" None None None None None.

Definition missingFile : AttachmentInput.t :=
  AttachmentInput.mk None None (Some "/tmp/nope") None.

End Scenario.

(** [Demo.env] with a bank-transaction handler whose error text runs over
    two lines. *)

Module Multiline.

Definition validationError : string :=
  "A validation exception occurred" ++ LF
    ++ "Attachments: not supported for this transaction type".

Definition env : Collaborators Demo.World :=
  {| resolve := resolve Demo.env;
     basename := basename Demo.env;
     detectMimeType := detectMimeType Demo.env;
     toBase64 := toBase64 Demo.env;
     fromBase64 := fromBase64 Demo.env;
     fs_stat := fs_stat Demo.env;
     fs_readFile := fs_readFile Demo.env;
     tenantId := tenantId Demo.env;
     authenticate := authenticate Demo.env;
     api_attach := api_attach Demo.env;
     api_getAccount := api_getAccount Demo.env;
     api_createAccount := api_createAccount Demo.env;
     api_updateAccount := api_updateAccount Demo.env;
     createXeroBankTransaction := fun _ _ _ _ _ _ w =>
       (w, inr (Demo.err validationError));
     updateXeroInvoice := updateXeroInvoice Demo.env;
     createXeroCreditNote := createXeroCreditNote Demo.env;
     formatError := formatError Demo.env;
     ensureError := ensureError Demo.env;
     numberToString := numberToString Demo.env;
     getDeepLink := getDeepLink Demo.env;
     bankTransactionDeepLink := bankTransactionDeepLink Demo.env
  |}.

End Multiline.

(** * Properties *)

(** ** Strings *)

Lemma prefix_append (s t : string) : String.prefix s (s ++ t) = true.
Proof.
  induction s as [|c s IH]; simpl.
  - destruct t; reflexivity.
  - destruct (ascii_dec c c) as [_|ne]; [exact IH | contradiction].
Qed.

Lemma includes_here (s t : string) : includes s (s ++ t) = true.
Proof.
  destruct s as [|c s].
  - destruct t; reflexivity.
  - change (String.prefix (String c s) (String c s ++ t)
            || includes (String c s) (s ++ t) = true).
    now rewrite prefix_append.
Qed.

Lemma includes_skip (s p t : string) :
  includes s t = true -> includes s (p ++ t) = true.
Proof.
  intros H. induction p as [|c p IH]; simpl; [exact H|].
  rewrite IH. apply orb_true_r.
Qed.

Lemma includes_after (s p t : string) : includes s (p ++ s ++ t) = true.
Proof. apply includes_skip, includes_here. Qed.

Lemma append_empty_r (s : string) : s ++ "" = s.
Proof. induction s; simpl; congruence. Qed.

Lemma includes_suffix (s p : string) : includes s (p ++ s) = true.
Proof.
  rewrite <- (append_empty_r s) at 2. apply includes_after.
Qed.

(** *** The lines of a text *)

Lemma splitLines_nonempty (s : string) : splitLines s <> [].
Proof.
  destruct s as [|c s]; simpl; [discriminate|].
  destruct (Ascii.eqb c _); [discriminate|].
  destruct (splitLines s); discriminate.
Qed.

Lemma splitLines_append (a b : string) :
  splitLines (a ++ LF ++ b) = (splitLines a ++ splitLines b)%list.
Proof.
  induction a as [|c a IH]; [reflexivity|].
  simpl. simpl in IH. rewrite IH.
  destruct (Ascii.eqb c _); [reflexivity|].
  destruct (splitLines a) eqn:E; [now destruct (splitLines_nonempty a)|].
  reflexivity.
Qed.

(** A needle without a line break is at the start of a text when it is at
    the start of its first line. *)
Lemma prefix_first_line (needle s : string) :
  hasLineBreak needle = false ->
  String.prefix needle (hd "" (splitLines s)) = String.prefix needle s.
Proof.
  revert needle. induction s as [|c s IH]; intros needle Hn; [reflexivity|].
  simpl. destruct (Ascii.eqb c (ascii_of_nat 10)) eqn:Ec.
  - apply Ascii.eqb_eq in Ec. subst c.
    destruct needle as [|a n]; [reflexivity|].
    simpl in *. destruct (ascii_dec a _) as [->|]; [discriminate Hn|reflexivity].
  - destruct (splitLines s) as [|l0 ls] eqn:E;
      [now destruct (splitLines_nonempty s)|].
    destruct needle as [|a n]; [reflexivity|].
    simpl. destruct (ascii_dec a c); [|reflexivity].
    simpl in Hn. apply orb_false_elim in Hn as [_ Hn].
    exact (IH n Hn).
Qed.

(** A line after the first starts with "Attachments:" when the text holds
    a line break followed by "Attachments:". *)
Lemma later_lines (s : string) :
  existsb (startsWith "Attachments:") (tl (splitLines s))
  = includes (LF ++ "Attachments:") s.
Proof.
  induction s as [|c s IH]; [reflexivity|].
  change (includes (LF ++ "Attachments:") (String c s))
    with (String.prefix (LF ++ "Attachments:") (String c s)
          || includes (LF ++ "Attachments:") s).
  pose proof (prefix_first_line "Attachments:" s eq_refl) as Hfirst.
  cbn [splitLines]. destruct (Ascii.eqb c (ascii_of_nat 10)) eqn:Ec.
  - apply Ascii.eqb_eq in Ec. subst c. cbn [tl].
    destruct (splitLines s) as [|l0 ls] eqn:E;
      [now destruct (splitLines_nonempty s)|].
    cbn [existsb tl hd] in *. rewrite IH. unfold startsWith. rewrite Hfirst.
    f_equal.
  - destruct (splitLines s) as [|l0 ls] eqn:E;
      [now destruct (splitLines_nonempty s)|].
    cbn [tl] in *. rewrite IH.
    assert (Hp : String.prefix (LF ++ "Attachments:") (String c s) = false).
    { change (String.prefix (LF ++ "Attachments:") (String c s))
        with (match ascii_dec (ascii_of_nat 10) c with
              | left _ => String.prefix "Attachments:" s
              | right _ => false
              end).
      destruct (ascii_dec (ascii_of_nat 10) c) as [Heq|]; [|reflexivity].
      rewrite <- Heq in Ec. discriminate Ec. }
    now rewrite Hp.
Qed.

Lemma hasAttachmentsLine_alt (s : string) :
  hasAttachmentsLine s
  = startsWith "Attachments:" s || includes (LF ++ "Attachments:") s.
Proof.
  unfold hasAttachmentsLine. rewrite <- later_lines.
  pose proof (prefix_first_line "Attachments:" s eq_refl) as Hfirst.
  destruct (splitLines s) as [|l0 ls] eqn:E;
    [now destruct (splitLines_nonempty s)|].
  cbn [existsb tl hd] in *. unfold startsWith. now rewrite Hfirst.
Qed.

Lemma hasAttachmentsLine_append (a b : string) :
  hasAttachmentsLine (a ++ LF ++ b)
  = hasAttachmentsLine a || hasAttachmentsLine b.
Proof.
  unfold hasAttachmentsLine. now rewrite splitLines_append, existsb_app.
Qed.

Lemma join_cons (sep : string) (l l' : Line) (rest : list Line) :
  join sep (l :: l' :: rest)
  = match l with Some s => s | None => "" end ++ sep ++ join sep (l' :: rest).
Proof. reflexivity. Qed.

(** A text joined from elements none of which starts with "Attachments:"
    or holds an "Attachments:" line inside has no "Attachments:" line. *)
Lemma no_attachments_line (lines : list Line) :
  Forall (fun l => isAttachmentsLine l = false) lines ->
  Forall noAttachmentsLineInside lines ->
  hasAttachmentsLine (join LF lines) = false.
Proof.
  induction lines as [|l rest IH]; [reflexivity|].
  intros Hnot Hin.
  inversion Hnot as [|? ? Hl Hnot']; subst.
  inversion Hin as [|? ? Hi Hin']; subst.
  assert (Hone : hasAttachmentsLine (match l with Some s => s | None => "" end)
                 = false).
  { rewrite hasAttachmentsLine_alt. unfold noAttachmentsLineInside in Hi.
    rewrite Hi. destruct l as [s|]; [|reflexivity].
    unfold isAttachmentsLine in Hl. now rewrite Hl. }
  destruct rest as [|l' rest']; [exact Hone|].
  rewrite join_cons, hasAttachmentsLine_append, Hone.
  now apply IH.
Qed.

Arguments includes : simpl never.

Lemma orElse_truthy (o : option string) (d : string) :
  truthy o = true -> orElse o d = str o.
Proof.
  destruct o as [s|]; simpl; [|discriminate].
  destruct (s =? ""); [discriminate | reflexivity].
Qed.

Lemma orElse_falsy (o : option string) (d : string) :
  truthy o = false -> orElse o d = d.
Proof.
  destruct o as [s|]; simpl; [|reflexivity].
  destruct (s =? ""); [reflexivity | discriminate].
Qed.

(** ** File Loader *)

Section FileLoaderFacts.

Context {World : Type} (env : Collaborators World).


Lemma fileToBase64_try_not_a_file filePath (m : Machine World) w1 stats :
  fs_stat env (resolve env filePath) (world m) = (w1, inr stats) ->
  Stats.isFile stats = false ->
  fileToBase64_try env filePath m =
    (mkMachine w1 (trace m ++ [FsStat (resolve env filePath)]) (attachmentResults m),
     inl (newError ("Path is not a file: " ++ filePath))).
Proof.
  intros H F. unfold fileToBase64_try, stat. run_monad. rewrite H. simpl.
  now rewrite F.
Qed.

Lemma fileToBase64_try_too_large filePath (m : Machine World) w1 stats :
  fs_stat env (resolve env filePath) (world m) = (w1, inr stats) ->
  Stats.isFile stats = true ->
  (MAX_FILE_SIZE < Stats.size stats)%N ->
  fileToBase64_try env filePath m =
    (mkMachine w1 (trace m ++ [FsStat (resolve env filePath)]) (attachmentResults m),
     inl (newError ("File too large: " ++ showN (roundMiB (Stats.size stats))
                      ++ "MB (max: 10MB)"))).
Proof.
  intros H F L. unfold fileToBase64_try, stat. run_monad. rewrite H. simpl.
  rewrite F. simpl. apply N.ltb_lt in L. now rewrite L.
Qed.

Lemma too_large_message_kept (n : string) :
  includes "too large" ("File too large: " ++ n ++ "MB (max: 10MB)") = true.
Proof. apply (includes_after "too large" "File " (": " ++ n ++ "MB (max: 10MB)")). Qed.

End FileLoaderFacts.

(** C3. A regular file whose [stat] size exceeds 10 MiB makes [fileToBase64]
    fail with a "File too large" error.  The failure is decided on the stat
    result: the only file-system call in the trace is the [stat], the world
    is the one [stat] left, [readFile] is never called and no content is
    returned. *)
Theorem fileToBase64_rejects_oversized_before_reading :
  forall World (env : Collaborators World) (filePath : string)
         (m : Machine World) (w1 : World) (stats : Stats.t),
    fs_stat env (resolve env filePath) (world m) = (w1, inr stats) ->
    Stats.isFile stats = true ->
    (10 * 1024 * 1024 < Stats.size stats)%N ->
    exists message,
      fileToBase64 env filePath m =
        (mkMachine w1 (trace m ++ [FsStat (resolve env filePath)])
                   (attachmentResults m),
         inl (newError message)) /\
      startsWith "File too large" message = true.
Proof.
  intros World env filePath m w1 stats Hstat Hfile Hsize.
  exists ("File too large: " ++ showN (roundMiB (Stats.size stats)) ++ "MB (max: 10MB)").
  split; [|reflexivity].
  unfold fileToBase64, tryCatch.
  rewrite (fileToBase64_try_too_large env filePath m w1 stats Hstat Hfile Hsize).
  unfold fileToBase64_catch, newError, codeIs.
  now rewrite too_large_message_kept.
Qed.

Lemma fileToBase64_rejects_oversized_before_reading_witness :
  Demo.stat "/tmp/big.bin" (world Demo.machine)
    = (world Demo.machine, inr (Stats.mk true 11534336)) /\
  exists message,
    fileToBase64 Demo.env "/tmp/big.bin" Demo.machine =
      (mkMachine (world Demo.machine) [FsStat "/tmp/big.bin"] [],
       inl (newError message)) /\
    startsWith "File too large" message = true.
Proof.
  split; [reflexivity|].
  apply (fileToBase64_rejects_oversized_before_reading
           Demo.World Demo.env "/tmp/big.bin" Demo.machine
           (world Demo.machine) (Stats.mk true 11534336));
    reflexivity.
Defined.

(** C8 as stated fails: the message of the size-limit failure reports the
    rounded size and the limit, and does not include the path. *)
Lemma fileToBase64_too_large_message_omits_path :
  exists m' e,
    fileToBase64 Demo.env "/tmp/big.bin" Demo.machine = (m', inl e) /\
    errorMessage e = "File too large: 11MB (max: 10MB)" /\
    includes "/tmp/big.bin" (errorMessage e) = false.
Proof.
  eexists. eexists. split; [vm_compute; reflexivity|].
  split; reflexivity.
Qed.

(** C8, amended.  Every failure of [fileToBase64] comes from a failure [u]
    inside its [try] block.  The code ENOENT is reported as
    "File not found: <path>" and EACCES as "Permission denied: <path>".
    The raised message includes the original path, unless [u] has neither
    code and its message contains "too large" or "not a file": then [u] is
    raised unchanged (the loader's own size-limit error is such a [u]).
    Whenever the code is not translated, the raised message includes the
    message of [u]. *)
Theorem fileToBase64_failure_messages :
  forall World (env : Collaborators World) (filePath : string)
         (m m' : Machine World) (e : Thrown),
    fileToBase64 env filePath m = (m', inl e) ->
    exists u,
      fileToBase64_try env filePath m = (m', inl u) /\
      (codeOf u = Some "ENOENT" -> e = newError ("File not found: " ++ filePath)) /\
      (codeOf u = Some "EACCES" -> e = newError ("Permission denied: " ++ filePath)) /\
      (includes filePath (errorMessage e) = true \/
       (e = u /\ codeOf u <> Some "ENOENT" /\ codeOf u <> Some "EACCES" /\
        (includes "too large" (errorMessage u) = true \/
         includes "not a file" (errorMessage u) = true))) /\
      (codeOf u <> Some "ENOENT" -> codeOf u <> Some "EACCES" ->
       includes (errorMessage u) (errorMessage e) = true).
Proof.
  intros World env filePath m m' e H.
  unfold fileToBase64, tryCatch in H.
  destruct (fileToBase64_try env filePath m) as [m1 [u|r]] eqn:Htry;
    [|discriminate].
  assert (Hne : forall c s, codeIs c s = false -> c <> Some s).
  { intros [c|] s Hc; [|discriminate]. simpl in Hc.
    intros E. injection E as ->. now rewrite String.eqb_refl in Hc. }
  assert (Heq : forall c s, codeIs c s = true -> c = Some s).
  { intros [c|] s Hc; [|discriminate]. simpl in Hc.
    apply String.eqb_eq in Hc. now subst. }
  exists u.
  destruct u as [code message | s]; unfold fileToBase64_catch, throw in H.
  - destruct (codeIs code "ENOENT") eqn:E1.
    { injection H as <- <-. apply Heq in E1. subst code. cbn [codeOf errorMessage newError].
      repeat split; try reflexivity; try discriminate; try congruence.
      left. apply (includes_suffix filePath "File not found: "). }
    destruct (codeIs code "EACCES") eqn:E2.
    { injection H as <- <-. apply Heq in E2. subst code. cbn [codeOf errorMessage newError].
      repeat split; try reflexivity; try discriminate; try congruence.
      left. apply (includes_suffix filePath "Permission denied: "). }
    apply Hne in E1, E2.
    destruct (includes "too large" message || includes "not a file" message) eqn:E3.
    { injection H as <- <-. cbn [codeOf errorMessage newError].
      repeat split; try congruence.
      - right. repeat split; try assumption. now apply orb_true_iff in E3.
      - intros _ _. rewrite <- (append_empty_r message) at 2. apply includes_here. }
    injection H as <- <-. cbn [codeOf errorMessage newError].
    repeat split; try congruence.
    + left. apply (includes_after filePath "Unable to read file: ").
    + intros _ _.
      exact (includes_skip message "Unable to read file: " _
               (includes_skip message filePath _ (includes_suffix message " - "))).
  - injection H as <- <-. cbn [codeOf errorMessage newError].
    repeat split; try discriminate.
    + left. apply (includes_after filePath "Unable to read file: ").
    + intros _ _.
      exact (includes_skip s "Unable to read file: " _
               (includes_skip s filePath _ (includes_suffix s " - "))).
Qed.

Lemma fileToBase64_failure_messages_witness :
  fileToBase64 Demo.env "/tmp/nope" Demo.machine
    = (mkMachine (world Demo.machine) [FsStat "/tmp/nope"] [],
       inl (newError "File not found: /tmp/nope")) /\
  exists u,
    fileToBase64_try Demo.env "/tmp/nope" Demo.machine
      = (mkMachine (world Demo.machine) [FsStat "/tmp/nope"] [], inl u) /\
    (codeOf u = Some "ENOENT" ->
     newError "File not found: /tmp/nope" = newError ("File not found: " ++ "/tmp/nope")) /\
    (codeOf u = Some "EACCES" ->
     newError "File not found: /tmp/nope" = newError ("Permission denied: " ++ "/tmp/nope")) /\
    (includes "/tmp/nope" (errorMessage (newError "File not found: /tmp/nope")) = true \/
     (newError "File not found: /tmp/nope" = u /\
      codeOf u <> Some "ENOENT" /\ codeOf u <> Some "EACCES" /\
      (includes "too large" (errorMessage u) = true \/
       includes "not a file" (errorMessage u) = true))) /\
    (codeOf u <> Some "ENOENT" -> codeOf u <> Some "EACCES" ->
     includes (errorMessage u) (errorMessage (newError "File not found: /tmp/nope")) = true).
Proof.
  split; [reflexivity|].
  apply (fileToBase64_failure_messages Demo.World Demo.env "/tmp/nope" Demo.machine).
  reflexivity.
Defined.

(** ** Attachment Normalizer *)

Section NormalizerFacts.

Context {World : Type} (env : Collaborators World).

(** The [catch] block of the loader always throws, and leaves the machine
    as it found it. *)
Lemma fileToBase64_catch_throws filePath u (m : Machine World) :
  exists e, fileToBase64_catch filePath u m = (m, inl e).
Proof.
  destruct u as [code message|s]; simpl; [|eexists; reflexivity].
  destruct (codeIs code "ENOENT"); [eexists; reflexivity|].
  destruct (codeIs code "EACCES"); [eexists; reflexivity|].
  destruct (_ || _); eexists; reflexivity.
Qed.

(** The loader succeeds exactly when its [try] block does. *)
Lemma fileToBase64_ok_inv filePath (m m1 : Machine World) fd :
  fileToBase64 env filePath m = (m1, inr fd) ->
  fileToBase64_try env filePath m = (m1, inr fd).
Proof.
  unfold fileToBase64, tryCatch.
  destruct (fileToBase64_try env filePath m) as [m2 [u|r]]; [|trivial].
  destruct (fileToBase64_catch_throws filePath u m2) as [e ->]. discriminate.
Qed.

(** A successful load returns the base name of the resolved path and the
    MIME type inferred from that name. *)
Lemma fileToBase64_ok_shape filePath (m m1 : Machine World) fd :
  fileToBase64 env filePath m = (m1, inr fd) ->
  FileToBase64Result.fileName fd = basename env (resolve env filePath) /\
  FileToBase64Result.mimeType fd
    = detectMimeType env (basename env (resolve env filePath)).
Proof.
  intros H. apply fileToBase64_ok_inv in H. revert H.
  unfold fileToBase64_try, stat, readFile. run_monad.
  destruct (fs_stat env (resolve env filePath) (world m)) as [w1 [u|stats]]; simpl;
    [discriminate|].
  destruct (Stats.isFile stats); simpl; [|discriminate].
  destruct (MAX_FILE_SIZE <? Stats.size stats)%N; simpl; [discriminate|].
  destruct (fs_readFile env (resolve env filePath) w1) as [w2 [u|buffer]]; simpl;
    [discriminate|].
  intros H. injection H as _ <-. split; reflexivity.
Qed.

Lemma fileToBase64_try_results filePath (m : Machine World) :
  attachmentResults (fst (fileToBase64_try env filePath m)) = attachmentResults m.
Proof.
  unfold fileToBase64_try, stat, readFile. run_monad.
  destruct (fs_stat env (resolve env filePath) (world m)) as [w1 [u|stats]]; simpl;
    [reflexivity|].
  destruct (Stats.isFile stats); simpl; [|reflexivity].
  destruct (MAX_FILE_SIZE <? Stats.size stats)%N; simpl; [reflexivity|].
  destruct (fs_readFile env (resolve env filePath) w1) as [w2 [u|buffer]];
    reflexivity.
Qed.

(** The loader does not touch the handler's result array. *)
Lemma fileToBase64_results filePath (m : Machine World) :
  attachmentResults (fst (fileToBase64 env filePath m)) = attachmentResults m.
Proof.
  pose proof (fileToBase64_try_results filePath m) as H.
  unfold fileToBase64, tryCatch.
  destruct (fileToBase64_try env filePath m) as [m2 [u|r]]; [|exact H].
  destruct (fileToBase64_catch_throws filePath u m2) as [e ->]. exact H.
Qed.

Lemma processItem_try_by_path a (m m1 : Machine World) r :
  truthy (AttachmentInput.filePath a) = true ->
  fileToBase64 env (str (AttachmentInput.filePath a)) m = (m1, r) ->
  processItem_try env a m =
    (m1,
     match r with
     | inl u => inl u
     | inr fd =>
         inr (ProcessedAttachment.mk
                (orElse (AttachmentInput.fileName a) (FileToBase64Result.fileName fd))
                (orElse (AttachmentInput.mimeType a) (FileToBase64Result.mimeType fd))
                (FileToBase64Result.base64Content fd))
     end).
Proof.
  intros Hp Hl. unfold processItem_try. rewrite Hp. unfold bind. rewrite Hl.
  destruct r; reflexivity.
Qed.

Lemma processItem_try_by_content a (m : Machine World) :
  truthy (AttachmentInput.filePath a) = false ->
  truthy (AttachmentInput.base64Content a) = true ->
  truthy (AttachmentInput.fileName a) = true ->
  processItem_try env a m =
    (m, inr (ProcessedAttachment.mk
               (str (AttachmentInput.fileName a))
               (orElse (AttachmentInput.mimeType a)
                       (detectMimeType env (str (AttachmentInput.fileName a))))
               (str (AttachmentInput.base64Content a)))).
Proof.
  intros Hp Hc Hn. unfold processItem_try. now rewrite Hp, Hc, Hn.
Qed.

Lemma processItem_try_missing_name a (m : Machine World) :
  truthy (AttachmentInput.filePath a) = false ->
  truthy (AttachmentInput.base64Content a) = true ->
  truthy (AttachmentInput.fileName a) = false ->
  processItem_try env a m = (m, inl (newError MISSING_FILE_NAME)).
Proof.
  intros Hp Hc Hn. unfold processItem_try. now rewrite Hp, Hc, Hn.
Qed.

Lemma processItem_try_missing_source a (m : Machine World) :
  truthy (AttachmentInput.filePath a) = false ->
  truthy (AttachmentInput.base64Content a) = false ->
  processItem_try env a m = (m, inl (newError MISSING_SOURCE)).
Proof.
  intros Hp Hc. unfold processItem_try. now rewrite Hp, Hc.
Qed.

Lemma processItem_results a (m : Machine World) :
  attachmentResults (fst (processItem env a m)) = attachmentResults m.
Proof.
  unfold processItem, tryCatch, processItem_try.
  destruct (truthy (AttachmentInput.filePath a)).
  - unfold bind.
    pose proof (fileToBase64_results (str (AttachmentInput.filePath a)) m) as H.
    destruct (fileToBase64 env (str (AttachmentInput.filePath a)) m) as [m1 [u|fd]];
      exact H.
  - destruct (truthy (AttachmentInput.base64Content a)); [|reflexivity].
    destruct (truthy (AttachmentInput.fileName a)); reflexivity.
Qed.

Lemma processLoop_results l : forall acc (m : Machine World),
  attachmentResults (fst (processLoop env l acc m)) = attachmentResults m.
Proof.
  induction l as [|a l IH]; intros acc m; [reflexivity|].
  simpl. unfold bind.
  pose proof (processItem_results a m) as H.
  destruct (processItem env a m) as [m1 [u|p]]; simpl in *; [exact H|].
  now rewrite IH.
Qed.

Lemma processAttachments_results l (m : Machine World) :
  attachmentResults (fst (processAttachments env l m)) = attachmentResults m.
Proof.
  destruct l as [[|a l]|]; try reflexivity.
  apply (processLoop_results (a :: l)).
Qed.

Lemma processLoop_app pre : forall rest acc (m m1 : Machine World) done,
  processLoop env pre acc m = (m1, inr done) ->
  processLoop env (pre ++ rest)%list acc m = processLoop env rest done m1.
Proof.
  induction pre as [|a pre IH]; intros rest acc m m1 done H.
  - simpl in H. injection H as <- <-. reflexivity.
  - simpl in *. unfold bind in *.
    destruct (processItem env a m) as [m2 [u|p]]; [discriminate|].
    now apply IH.
Qed.

(** A batch extended after a successful prefix continues from where the
    prefix left off. *)
Lemma processAttachments_extend pre a post (m m1 : Machine World) done :
  processAttachments env (Some pre) m = (m1, inr done) ->
  processAttachments env (Some (pre ++ a :: post)%list) m =
    processLoop env (a :: post) done m1.
Proof.
  intros H. destruct pre as [|b pre].
  - simpl in H. injection H as <- <-. reflexivity.
  - change (processLoop env ((b :: pre) ++ a :: post)%list [] m
            = processLoop env (a :: post) done m1).
    now apply processLoop_app.
Qed.

Lemma processLoop_first_fails a post acc (m m1 : Machine World) u :
  processItem_try env a m = (m1, inl u) ->
  processLoop env (a :: post) acc m =
    (m1, inl (newError (PROCESS_PREFIX ++ errorMessage u))).
Proof.
  intros H. simpl. unfold bind, processItem, tryCatch. now rewrite H.
Qed.

Lemma processLoop_last_ok a acc (m m1 : Machine World) p :
  processItem_try env a m = (m1, inr p) ->
  processLoop env [a] acc m = (m1, inr (acc ++ [p])%list).
Proof.
  intros H. simpl. unfold bind, processItem, tryCatch. now rewrite H.
Qed.

(** Whatever fails, the error raised is a fresh [Error] whose message
    carries the prefix. *)
Lemma processLoop_error_prefixed l : forall acc (m m' : Machine World) e,
  processLoop env l acc m = (m', inl e) ->
  exists message, e = newError (PROCESS_PREFIX ++ message).
Proof.
  induction l as [|a l IH]; intros acc m m' e H; [discriminate|].
  simpl in H. unfold bind in H.
  destruct (processItem env a m) as [m1 [u|p]] eqn:Hi.
  - injection H as <- <-. unfold processItem, tryCatch in Hi.
    destruct (processItem_try env a m) as [m2 [v|q]]; [|discriminate].
    unfold throw in Hi. injection Hi as <- <-. now exists (errorMessage v).
  - now apply IH in H.
Qed.

End NormalizerFacts.

Section NormalizerBatches.

Context {World : Type} (env : Collaborators World).

(** The first item whose [try] block fails aborts the batch. *)
Lemma processAttachments_item_fails pre a post (m m1 m2 : Machine World) done u :
  processAttachments env (Some pre) m = (m1, inr done) ->
  processItem_try env a m1 = (m2, inl u) ->
  processAttachments env (Some (pre ++ a :: post)%list) m =
    (m2, inl (newError (PROCESS_PREFIX ++ errorMessage u))).
Proof.
  intros Hpre Hitem.
  rewrite (processAttachments_extend env pre a post m m1 done Hpre).
  now apply processLoop_first_fails.
Qed.

(** An item whose [try] block succeeds is appended to the batch. *)
Lemma processAttachments_item_ok pre a (m m1 m2 : Machine World) done p :
  processAttachments env (Some pre) m = (m1, inr done) ->
  processItem_try env a m1 = (m2, inr p) ->
  processAttachments env (Some (pre ++ [a])%list) m = (m2, inr (done ++ [p])%list).
Proof.
  intros Hpre Hitem.
  rewrite (processAttachments_extend env pre a [] m m1 done Hpre).
  now apply processLoop_last_ok.
Qed.

Lemma processAttachments_error_prefixed l (m m' : Machine World) e :
  processAttachments env (Some l) m = (m', inl e) ->
  exists message, e = newError (PROCESS_PREFIX ++ message).
Proof.
  destruct l as [|a l]; [discriminate|].
  apply (processLoop_error_prefixed env (a :: l)).
Qed.

End NormalizerBatches.

(** C6 as stated fails in its second half: an input with [base64Content]
    set and [fileName] absent is loaded by path when [filePath] is set too,
    and no missing-filename error is raised. *)
Lemma base64_without_name_is_accepted_when_path_is_set :
  AttachmentInput.base64Content Demo.pathAndContent = Some "QUJD" /\
  AttachmentInput.fileName Demo.pathAndContent = None /\
  processAttachments Demo.env (Some [Demo.pathAndContent]) Demo.machine =
    (mkMachine (world Demo.machine) [FsStat "/tmp/a.pdf"; FsReadFile "/tmp/a.pdf"] [],
     inr [ProcessedAttachment.mk "a.pdf" "application/pdf" "QUJD"]).
Proof. repeat split. Qed.

(** C6, amended.  After a prefix of the batch that was processed, an input
    with both [filePath] and [base64Content] absent makes
    [processAttachments] fail with the missing-source error, and an input
    with no usable [filePath] (absent or empty), a non-empty
    [base64Content] and [fileName] absent makes it fail with the
    missing-filename error; either message is raised behind the prefix
    "Failed to process attachment: ". *)
Theorem processAttachments_late_checks :
  forall World (env : Collaborators World) (pre post : list AttachmentInput.t)
         (a : AttachmentInput.t) (m m1 : Machine World)
         (done : list ProcessedAttachment.t),
    processAttachments env (Some pre) m = (m1, inr done) ->
    (AttachmentInput.filePath a = None ->
     AttachmentInput.base64Content a = None ->
     processAttachments env (Some (pre ++ a :: post)%list) m =
       (m1, inl (newError ("Failed to process attachment: "
                             ++ "Either filePath or base64Content must be provided")))) /\
    (truthy (AttachmentInput.filePath a) = false ->
     truthy (AttachmentInput.base64Content a) = true ->
     AttachmentInput.fileName a = None ->
     processAttachments env (Some (pre ++ a :: post)%list) m =
       (m1, inl (newError ("Failed to process attachment: "
                             ++ "fileName is required when using base64Content")))).
Proof.
  intros World env pre post a m m1 done Hpre. split.
  - intros Hp Hc.
    apply (processAttachments_item_fails env pre a post m m1 m1 done
             (newError MISSING_SOURCE) Hpre).
    apply processItem_try_missing_source; [now rewrite Hp | now rewrite Hc].
  - intros Hp Hc Hn.
    apply (processAttachments_item_fails env pre a post m m1 m1 done
             (newError MISSING_FILE_NAME) Hpre).
    apply processItem_try_missing_name; try assumption. now rewrite Hn.
Qed.

Lemma processAttachments_late_checks_witness :
  processAttachments Demo.env (Some [Demo.byContent]) Demo.machine
    = (Demo.machine, inr [Demo.aPdf]) /\
  processAttachments Demo.env
    (Some [Demo.byContent; Demo.noSource; Demo.byContent]) Demo.machine =
    (Demo.machine,
     inl (newError "Failed to process attachment: Either filePath or base64Content must be provided")) /\
  processAttachments Demo.env
    (Some [Demo.byContent; Demo.noName; Demo.byContent]) Demo.machine =
    (Demo.machine,
     inl (newError "Failed to process attachment: fileName is required when using base64Content")).
Proof.
  split; [reflexivity|]. split.
  - apply (proj1 (processAttachments_late_checks Demo.World Demo.env
                    [Demo.byContent] [Demo.byContent] Demo.noSource
                    Demo.machine Demo.machine [Demo.aPdf] eq_refl));
      reflexivity.
  - apply (proj2 (processAttachments_late_checks Demo.World Demo.env
                    [Demo.byContent] [Demo.byContent] Demo.noName
                    Demo.machine Demo.machine [Demo.aPdf] eq_refl));
      reflexivity.
Defined.

(** C7 as stated fails: a [mimeType] override that is provided as the
    empty string is not used; the inferred type is. *)
Lemma empty_mimeType_override_is_not_used :
  AttachmentInput.mimeType Demo.emptyMime = Some "" /\
  processAttachments Demo.env (Some [Demo.emptyMime]) Demo.machine =
    (mkMachine (world Demo.machine) [FsStat "/tmp/a.pdf"; FsReadFile "/tmp/a.pdf"] [],
     inr [ProcessedAttachment.mk "a.pdf" "application/pdf" "QUJD"]).
Proof. split; reflexivity. Qed.

(** C7, amended.  For a by-path input whose file load succeeds (after a
    prefix of the batch that was processed), the produced attachment's
    [mimeType] is the input's override when that is provided and not empty,
    and otherwise the MIME Detector's inference from the base name of the
    resolved path (not from the [fileName] override); its [fileName] is the
    override when provided and not empty, else that base name; its content
    is the loaded content. *)
Theorem processAttachments_by_path_overrides :
  forall World (env : Collaborators World) (pre : list AttachmentInput.t)
         (a : AttachmentInput.t) (m m1 m2 : Machine World)
         (done : list ProcessedAttachment.t) (fd : FileToBase64Result.t),
    processAttachments env (Some pre) m = (m1, inr done) ->
    truthy (AttachmentInput.filePath a) = true ->
    fileToBase64 env (str (AttachmentInput.filePath a)) m1 = (m2, inr fd) ->
    exists p,
      processAttachments env (Some (pre ++ [a])%list) m = (m2, inr (done ++ [p])%list) /\
      ProcessedAttachment.mimeType p =
        (if truthy (AttachmentInput.mimeType a)
         then str (AttachmentInput.mimeType a)
         else detectMimeType env
                (basename env (resolve env (str (AttachmentInput.filePath a))))) /\
      ProcessedAttachment.fileName p =
        (if truthy (AttachmentInput.fileName a)
         then str (AttachmentInput.fileName a)
         else basename env (resolve env (str (AttachmentInput.filePath a)))) /\
      ProcessedAttachment.base64Content p = FileToBase64Result.base64Content fd.
Proof.
  intros World env pre a m m1 m2 done fd Hpre Hpath Hload.
  destruct (fileToBase64_ok_shape env _ _ _ _ Hload) as [Hname Hmime].
  eexists. split.
  - apply (processAttachments_item_ok env pre a m m1 m2 done _ Hpre).
    rewrite (processItem_try_by_path env a m1 m2 (inr fd) Hpath Hload).
    reflexivity.
  - cbn [ProcessedAttachment.mimeType ProcessedAttachment.fileName
         ProcessedAttachment.base64Content].
    rewrite Hname, Hmime. repeat split.
    + destruct (truthy (AttachmentInput.mimeType a)) eqn:E.
      * now apply orElse_truthy.
      * now apply orElse_falsy.
    + destruct (truthy (AttachmentInput.fileName a)) eqn:E.
      * now apply orElse_truthy.
      * now apply orElse_falsy.
Qed.

Lemma processAttachments_by_path_overrides_witness :
  processAttachments Demo.env (Some [Demo.byPathOverridden]) Demo.machine
    = (mkMachine (world Demo.machine) [FsStat "/tmp/a.pdf"; FsReadFile "/tmp/a.pdf"] [],
       inr [ProcessedAttachment.mk "scan.bin" "text/plain" "QUJD"]) /\
  exists p,
    processAttachments Demo.env (Some [Demo.byPathOverridden; Demo.byPath]) Demo.machine =
      (mkMachine (world Demo.machine)
         [FsStat "/tmp/a.pdf"; FsReadFile "/tmp/a.pdf";
          FsStat "/tmp/a.pdf"; FsReadFile "/tmp/a.pdf"] [],
       inr [ProcessedAttachment.mk "scan.bin" "text/plain" "QUJD"; p]) /\
    ProcessedAttachment.mimeType p = "application/pdf" /\
    ProcessedAttachment.fileName p = "a.pdf" /\
    ProcessedAttachment.base64Content p = "QUJD".
Proof.
  split; [reflexivity|].
  apply (processAttachments_by_path_overrides Demo.World Demo.env
           [Demo.byPathOverridden] Demo.byPath Demo.machine
           (mkMachine (world Demo.machine) [FsStat "/tmp/a.pdf"; FsReadFile "/tmp/a.pdf"] [])
           (mkMachine (world Demo.machine)
              [FsStat "/tmp/a.pdf"; FsReadFile "/tmp/a.pdf";
               FsStat "/tmp/a.pdf"; FsReadFile "/tmp/a.pdf"] [])
           [ProcessedAttachment.mk "scan.bin" "text/plain" "QUJD"]
           (FileToBase64Result.mk "QUJD" "application/pdf" "a.pdf"));
    reflexivity.
Defined.

(** C10 as stated fails in its last clause: an input with a non-empty
    [base64Content] and an empty [fileName] is loaded by path when a
    non-empty [filePath] is present, and named after the file. *)
Lemma empty_name_is_accepted_when_path_is_set :
  AttachmentInput.base64Content Demo.emptyNameWithPath = Some "QUJD" /\
  AttachmentInput.fileName Demo.emptyNameWithPath = Some "" /\
  processAttachments Demo.env (Some [Demo.emptyNameWithPath]) Demo.machine =
    (mkMachine (world Demo.machine) [FsStat "/tmp/a.pdf"; FsReadFile "/tmp/a.pdf"] [],
     inr [ProcessedAttachment.mk "a.pdf" "application/pdf" "QUJD"]).
Proof. repeat split. Qed.

(** C10, amended.  [processAttachments] tests its fields for truthiness, so
    a field that is present but empty counts as absent.  After a prefix of
    the batch that was processed: an input whose [filePath] is the empty
    string and whose [base64Content] is not empty goes through the
    by-content branch (no file-system call is made; the content is used as
    it is when a [fileName] is given, and the missing-filename error is
    raised otherwise); an input whose [filePath] and [base64Content] are both
    the empty string fails with the missing-source error; and an input with
    no usable [filePath] (absent or empty), a non-empty [base64Content] and
    an empty [fileName] fails with the missing-filename error. *)
Theorem processAttachments_empty_strings_count_as_absent :
  forall World (env : Collaborators World) (pre post : list AttachmentInput.t)
         (a : AttachmentInput.t) (m m1 : Machine World)
         (done : list ProcessedAttachment.t),
    processAttachments env (Some pre) m = (m1, inr done) ->
    (AttachmentInput.filePath a = Some "" ->
     truthy (AttachmentInput.base64Content a) = true ->
     processAttachments env (Some (pre ++ [a])%list) m =
       (m1,
        if truthy (AttachmentInput.fileName a)
        then inr (done ++ [ProcessedAttachment.mk
                             (str (AttachmentInput.fileName a))
                             (orElse (AttachmentInput.mimeType a)
                                (detectMimeType env (str (AttachmentInput.fileName a))))
                             (str (AttachmentInput.base64Content a))])%list
        else inl (newError ("Failed to process attachment: "
                              ++ "fileName is required when using base64Content")))) /\
    (AttachmentInput.filePath a = Some "" ->
     AttachmentInput.base64Content a = Some "" ->
     processAttachments env (Some (pre ++ a :: post)%list) m =
       (m1, inl (newError ("Failed to process attachment: "
                             ++ "Either filePath or base64Content must be provided")))) /\
    (truthy (AttachmentInput.filePath a) = false ->
     truthy (AttachmentInput.base64Content a) = true ->
     AttachmentInput.fileName a = Some "" ->
     processAttachments env (Some (pre ++ a :: post)%list) m =
       (m1, inl (newError ("Failed to process attachment: "
                             ++ "fileName is required when using base64Content")))).
Proof.
  intros World env pre post a m m1 done Hpre. repeat split.
  - intros Hp Hc.
    destruct (truthy (AttachmentInput.fileName a)) eqn:Hn.
    + apply (processAttachments_item_ok env pre a m m1 m1 done _ Hpre).
      apply processItem_try_by_content; try assumption. now rewrite Hp.
    + apply (processAttachments_item_fails env pre a [] m m1 m1 done
               (newError MISSING_FILE_NAME) Hpre).
      apply processItem_try_missing_name; try assumption. now rewrite Hp.
  - intros Hp Hc.
    apply (processAttachments_item_fails env pre a post m m1 m1 done
             (newError MISSING_SOURCE) Hpre).
    apply processItem_try_missing_source; [now rewrite Hp | now rewrite Hc].
  - intros Hp Hc Hn.
    apply (processAttachments_item_fails env pre a post m m1 m1 done
             (newError MISSING_FILE_NAME) Hpre).
    apply processItem_try_missing_name; try assumption. now rewrite Hn.
Qed.

Lemma processAttachments_empty_strings_count_as_absent_witness :
  processAttachments Demo.env (Some [Demo.byContent]) Demo.machine
    = (Demo.machine, inr [Demo.aPdf]) /\
  processAttachments Demo.env (Some [Demo.byContent; Demo.emptyPath]) Demo.machine =
    (Demo.machine, inr [Demo.aPdf; Demo.aPdf]) /\
  processAttachments Demo.env
    (Some [Demo.byContent; Demo.bothEmpty; Demo.byContent]) Demo.machine =
    (Demo.machine,
     inl (newError "Failed to process attachment: Either filePath or base64Content must be provided")) /\
  processAttachments Demo.env
    (Some [Demo.byContent; Demo.emptyName; Demo.byContent]) Demo.machine =
    (Demo.machine,
     inl (newError "Failed to process attachment: fileName is required when using base64Content")).
Proof.
  split; [reflexivity|]. split; [|split].
  - apply (proj1 (processAttachments_empty_strings_count_as_absent
                    Demo.World Demo.env [Demo.byContent] [] Demo.emptyPath
                    Demo.machine Demo.machine [Demo.aPdf] eq_refl));
      reflexivity.
  - apply (proj1 (proj2 (processAttachments_empty_strings_count_as_absent
                    Demo.World Demo.env [Demo.byContent] [Demo.byContent] Demo.bothEmpty
                    Demo.machine Demo.machine [Demo.aPdf] eq_refl)));
      reflexivity.
  - apply (proj2 (proj2 (processAttachments_empty_strings_count_as_absent
                    Demo.World Demo.env [Demo.byContent] [Demo.byContent] Demo.emptyName
                    Demo.machine Demo.machine [Demo.aPdf] eq_refl)));
      reflexivity.
Defined.

(** ** Upload loop *)

Lemma attachEvents_app (t1 t2 : list Event) :
  attachEvents (t1 ++ t2) = (attachEvents t1 ++ attachEvents t2)%list.
Proof.
  induction t1 as [|ev t1 IH]; [reflexivity|].
  destruct ev; simpl; now rewrite IH.
Qed.

Section UploadFacts.

Context {World : Type} (env : Collaborators World).

Lemma OneResultPerAttachment_cons {A} (fileNameOf base64Of : A -> string) endpoint
      a l tid threw calls results :
  OneResultPerAttachment env fileNameOf base64Of endpoint l calls results ->
  OneResultPerAttachment env fileNameOf base64Of endpoint (a :: l)
    ((endpoint tid (fileNameOf a) (fromBase64 env (base64Of a)), threw) :: calls)
    (resultOf (fileNameOf a) threw :: results).
Proof.
  intros (Hc & Hr & Hi). repeat split; simpl; try congruence.
  intros [|i] b H; simpl in *.
  - injection H as <-. exists tid, threw, (resultOf (fileNameOf a) threw).
    repeat split. 
    + destruct threw; reflexivity.
    + destruct threw; split; reflexivity.
  - now apply Hi.
Qed.

(** One iteration never throws: it makes exactly one remote call and
    records exactly one result. *)
Lemma uploadOne_run endpoint fileName base64Content (m : Machine World) :
  exists w1 threw,
    let call := endpoint (tenantId env (world m)) fileName
                         (fromBase64 env base64Content) in
    uploadOne env endpoint fileName base64Content m =
      (mkMachine w1
         (trace m ++ RemoteAttach call threw ::
            match threw with
            | Some _ => [ConsoleError ("Attachment failed for " ++ fileName ++ ":")]
            | None => []
            end)
         (attachmentResults m ++ [resultOf fileName threw]),
       inr tt).
Proof.
  unfold uploadOne, attach. run_monad.
  destruct (api_attach env _ (world m)) as [w1 [e|[]]]; simpl.
  - exists w1, (Some e). simpl. now rewrite <- app_assoc.
  - exists w1, None. reflexivity.
Qed.

Lemma uploadLoop_run {A} (fileNameOf base64Of : A -> string) endpoint l :
  forall m : Machine World,
  exists m' calls results,
    uploadLoop env fileNameOf base64Of endpoint l m = (m', inr tt) /\
    attachEvents (trace m') = (attachEvents (trace m) ++ calls)%list /\
    attachmentResults m' = (attachmentResults m ++ results)%list /\
    OneResultPerAttachment env fileNameOf base64Of endpoint l calls results.
Proof.
  induction l as [|a l IH]; intros m.
  - exists m, [], []. simpl. rewrite !app_nil_r. repeat split.
    intros [|i] b H; discriminate.
  - destruct (uploadOne_run endpoint (fileNameOf a) (base64Of a) m)
      as (w1 & threw & Hone).
    cbv zeta in Hone. simpl. unfold bind. rewrite Hone.
    match goal with |- context [uploadLoop _ _ _ _ l ?m1] =>
      destruct (IH m1) as (m' & calls & results & Hrun & Htr & Hres & Hspec)
    end.
    simpl in Htr, Hres.
    exists m', ((endpoint (tenantId env (world m)) (fileNameOf a)
                   (fromBase64 env (base64Of a)), threw) :: calls),
      (resultOf (fileNameOf a) threw :: results).
    split; [exact Hrun|]. split; [|split].
    + rewrite Htr, attachEvents_app. simpl.
      rewrite <- app_assoc. f_equal. simpl. f_equal.
      destruct threw; reflexivity.
    + rewrite Hres, <- app_assoc. reflexivity.
    + now apply OneResultPerAttachment_cons.
Qed.

(** The attachment block of the normalizing tools never throws. *)
Lemma normalizeAndUpload_fails endpoint atts (m m1 : Machine World) e :
  processAttachments env (Some atts) m = (m1, inl e) ->
  normalizeAndUpload env endpoint atts m =
    (mkMachine (world m1)
       (trace m1 ++ [ConsoleError "Failed to process attachments:"])
       (attachmentResults m ++
          [AttachmentUploadResult.mk "unknown" failed
             (Some ("Processing failed: " ++ errorMessage e))]),
     inr tt).
Proof.
  intros H. unfold normalizeAndUpload, tryCatch, bind. rewrite H.
  run_monad.
  pose proof (processAttachments_results env (Some atts) m) as Hr.
  rewrite H in Hr. simpl in Hr. now rewrite Hr.
Qed.

Lemma normalizeAndUpload_uploads endpoint atts (m m1 : Machine World) processed :
  processAttachments env (Some atts) m = (m1, inr processed) ->
  exists m' calls results,
    normalizeAndUpload env endpoint atts m = (m', inr tt) /\
    attachEvents (trace m') = (attachEvents (trace m1) ++ calls)%list /\
    attachmentResults m' = (attachmentResults m ++ results)%list /\
    OneResultPerAttachment env ProcessedAttachment.fileName
      ProcessedAttachment.base64Content endpoint processed calls results.
Proof.
  intros H.
  destruct (uploadLoop_run ProcessedAttachment.fileName
              ProcessedAttachment.base64Content endpoint processed m1)
    as (m' & calls & results & Hrun & Htr & Hres & Hspec).
  exists m', calls, results.
  unfold normalizeAndUpload, tryCatch, bind. rewrite H, Hrun.
  pose proof (processAttachments_results env (Some atts) m) as Hr.
  rewrite H in Hr. simpl in Hr. rewrite <- Hr. auto.
Qed.

Lemma normalizeAndUpload_total endpoint atts (m : Machine World) :
  exists m', normalizeAndUpload env endpoint atts m = (m', inr tt).
Proof.
  destruct (processAttachments env (Some atts) m) as [m1 [e|processed]] eqn:H.
  - eexists. exact (normalizeAndUpload_fails endpoint atts m m1 e H).
  - destruct (normalizeAndUpload_uploads endpoint atts m m1 processed H)
      as (m' & _ & _ & Hrun & _).
    now exists m'.
Qed.

(** One iteration, by what the remote service does with its call. *)
Lemma uploadOne_outcome endpoint fileName base64Content (m : Machine World)
      w1 outcome :
  api_attach env (endpoint (tenantId env (world m)) fileName
                           (fromBase64 env base64Content)) (world m)
    = (w1, outcome) ->
  uploadOne env endpoint fileName base64Content m =
    (mkMachine w1
       (trace m ++
          RemoteAttach (endpoint (tenantId env (world m)) fileName
                                 (fromBase64 env base64Content))
                       (thrownOf outcome) ::
          match thrownOf outcome with
          | Some _ => [ConsoleError ("Attachment failed for " ++ fileName ++ ":")]
          | None => []
          end)
       (attachmentResults m ++ [resultOf fileName (thrownOf outcome)]),
     inr tt).
Proof.
  intros H. unfold uploadOne, attach. run_monad. rewrite H.
  destruct outcome as [e|[]]; simpl.
  - now rewrite <- app_assoc.
  - reflexivity.
Qed.

(** The loop issues the calls of [remoteUploads], and ends in the world
    they leave. *)
Lemma uploadLoop_remote {A} (fileNameOf base64Of : A -> string) endpoint l :
  forall m : Machine World,
  exists m' calls results,
    uploadLoop env fileNameOf base64Of endpoint l m = (m', inr tt) /\
    remoteUploads env fileNameOf base64Of endpoint l (world m) = (world m', calls) /\
    attachEvents (trace m') = (attachEvents (trace m) ++ calls)%list /\
    attachmentResults m' = (attachmentResults m ++ results)%list /\
    OneResultPerAttachment env fileNameOf base64Of endpoint l calls results.
Proof.
  induction l as [|a l IH]; intros m.
  - exists m, [], []. simpl. rewrite !app_nil_r. repeat split.
    intros [|i] b H; discriminate.
  - destruct (api_attach env
                (endpoint (tenantId env (world m)) (fileNameOf a)
                          (fromBase64 env (base64Of a))) (world m))
      as [w1 outcome] eqn:Hc.
    pose proof (uploadOne_outcome endpoint (fileNameOf a) (base64Of a) m
                  w1 outcome Hc) as Hone.
    simpl. unfold bind. rewrite Hone, Hc.
    match goal with |- context [uploadLoop _ _ _ _ l ?m1] =>
      destruct (IH m1) as (m' & calls & results & Hrun & Hrem & Htr & Hres & Hspec)
    end.
    simpl in Hrem, Htr, Hres.
    exists m', ((endpoint (tenantId env (world m)) (fileNameOf a)
                   (fromBase64 env (base64Of a)), thrownOf outcome) :: calls),
      (resultOf (fileNameOf a) (thrownOf outcome) :: results).
    split; [exact Hrun|]. split; [now rewrite Hrem|]. split; [|split].
    + rewrite Htr, attachEvents_app. simpl.
      rewrite <- app_assoc. f_equal. simpl. f_equal.
      destruct (thrownOf outcome); reflexivity.
    + rewrite Hres, <- app_assoc. reflexivity.
    + now apply OneResultPerAttachment_cons.
Qed.

Lemma normalizeAndUpload_remote endpoint atts (m m1 : Machine World) processed :
  processAttachments env (Some atts) m = (m1, inr processed) ->
  exists m' calls results,
    normalizeAndUpload env endpoint atts m = (m', inr tt) /\
    remoteUploads env ProcessedAttachment.fileName
      ProcessedAttachment.base64Content endpoint processed (world m1)
      = (world m', calls) /\
    attachEvents (trace m') = (attachEvents (trace m1) ++ calls)%list /\
    attachmentResults m' = (attachmentResults m ++ results)%list /\
    OneResultPerAttachment env ProcessedAttachment.fileName
      ProcessedAttachment.base64Content endpoint processed calls results.
Proof.
  intros H.
  destruct (uploadLoop_remote ProcessedAttachment.fileName
              ProcessedAttachment.base64Content endpoint processed m1)
    as (m' & calls & results & Hrun & Hrem & Htr & Hres & Hspec).
  exists m', calls, results.
  unfold normalizeAndUpload, tryCatch, bind. rewrite H, Hrun.
  pose proof (processAttachments_results env (Some atts) m) as Hr.
  rewrite H in Hr. simpl in Hr. rewrite <- Hr. auto.
Qed.

End UploadFacts.

(** ** Tools: from the primary operation to the report *)

Section ToolFacts.

Context {World : Type} (env : Collaborators World).

Lemma CreateBankTransactionTool_after_success args (m m2 : Machine World) bt link :
  bankTransactionCreated env args m bt link m2 ->
  CreateBankTransactionTool env args m =
    bankTransactionReport env bt link (CreateBankTransactionArgs.attachments args) m2.
Proof.
  intros (w1 & result & ba & Hh & He & Hr & Hb & Hl).
  unfold CreateBankTransactionTool, bind at 1, callWorld. rewrite Hh, He.
  unfold bind at 1. rewrite Hr. simpl. unfold bind at 1. rewrite Hb. simpl.
  unfold bind at 1. now rewrite Hl.
Qed.

Lemma UpdateInvoiceTool_after_success args (m m2 : Machine World) invoice link :
  invoiceUpdated env args m invoice link m2 ->
  UpdateInvoiceTool env args m =
    invoiceReport env invoice link (UpdateInvoiceArgs.attachments args) m2.
Proof.
  intros (w1 & result & Hh & He & Hr & Hl).
  unfold UpdateInvoiceTool, bind at 1, callWorld. rewrite Hh, He.
  unfold bind at 1. rewrite Hr. simpl. unfold bind at 1. now rewrite Hl.
Qed.

(** The report stage, by what its attachment block does. *)
Lemma bankTransactionReport_run bt link atts (m m' : Machine World) :
  (if shouldAttach atts (BankTransaction.bankTransactionID bt)
   then normalizeAndUpload env
          (fun tid => createBankTransactionAttachmentByFileName tid
                        (str (BankTransaction.bankTransactionID bt)))
          (map InlineAttachment.asInput
               (match atts with Some l => l | None => [] end))
   else ret tt) (mkMachine (world m) (trace m) []) = (m', inr tt) ->
  bankTransactionReport env bt link atts m =
    (m', inr (textResponse
                (join LF (filterBoolean
                   (bankTransactionFields env bt
                      ++ [attachmentsLine (attachmentResults m');
                          deepLinkLine link]))))).
Proof.
  intros H. unfold bankTransactionReport, bind at 1, newResults.
  unfold bind at 1. now rewrite H.
Qed.

Lemma invoiceReport_run invoice link atts (m m' : Machine World) :
  (if shouldAttach atts (Invoice.invoiceID invoice)
   then normalizeAndUpload env
          (fun tid fileName body =>
             createInvoiceAttachmentByFileName tid (str (Invoice.invoiceID invoice))
                                               fileName body true)
          (match atts with Some l => l | None => [] end)
   else ret tt) (mkMachine (world m) (trace m) []) = (m', inr tt) ->
  invoiceReport env invoice link atts m =
    (m', inr (textResponse
                (join LF (invoiceFields env invoice
                            ++ [attachmentsLine (attachmentResults m');
                                deepLinkLine link])))).
Proof.
  intros H. unfold invoiceReport, bind at 1, newResults.
  unfold bind at 1. now rewrite H.
Qed.

Lemma bankTransactionReport_total bt link atts (m : Machine World) :
  exists m',
    bankTransactionReport env bt link atts m =
      (m', inr (textResponse
                  (join LF (filterBoolean
                     (bankTransactionFields env bt
                        ++ [attachmentsLine (attachmentResults m');
                            deepLinkLine link]))))).
Proof.
  destruct (shouldAttach atts (BankTransaction.bankTransactionID bt)) eqn:G.
  - destruct (normalizeAndUpload_total env
                (fun tid => createBankTransactionAttachmentByFileName tid
                              (str (BankTransaction.bankTransactionID bt)))
                (map InlineAttachment.asInput
                     (match atts with Some l => l | None => [] end))
                (mkMachine (world m) (trace m) [])) as [m' H].
    exists m'. apply bankTransactionReport_run. now rewrite G.
  - eexists. apply bankTransactionReport_run. rewrite G. reflexivity.
Qed.

Lemma invoiceReport_total invoice link atts (m : Machine World) :
  exists m',
    invoiceReport env invoice link atts m =
      (m', inr (textResponse
                  (join LF (invoiceFields env invoice
                              ++ [attachmentsLine (attachmentResults m');
                                  deepLinkLine link])))).
Proof.
  destruct (shouldAttach atts (Invoice.invoiceID invoice)) eqn:G.
  - destruct (normalizeAndUpload_total env
                (fun tid fileName body =>
                   createInvoiceAttachmentByFileName tid
                     (str (Invoice.invoiceID invoice)) fileName body true)
                (match atts with Some l => l | None => [] end)
                (mkMachine (world m) (trace m) [])) as [m' H].
    exists m'. apply invoiceReport_run. now rewrite G.
  - eexists. apply invoiceReport_run. rewrite G. reflexivity.
Qed.

End ToolFacts.

Section FurtherToolReports.

Context {World : Type} (env : Collaborators World) (more : MoreCollaborators World).

(** From [const attachmentResults = []] to the final [return], for a tool
    that has this stage inline. *)
Lemma report_tail_run (block : M World unit)
      (k : list AttachmentUploadResult.t -> ToolResponse.t)
      (m m' : Machine World) :
  block (mkMachine (world m) (trace m) []) = (m', inr tt) ->
  (newResults ;;; block ;;;
   attachmentResults <- getResults ;; ret (k attachmentResults)) m
    = (m', inr (k (attachmentResults m'))).
Proof.
  intros H. unfold bind at 1, newResults. unfold bind at 1. now rewrite H.
Qed.

Lemma UpdateBankTransactionTool_run args (m m2 m' : Machine World) bt link :
  bankTransactionUpdated env more args m bt link m2 ->
  (if shouldAttach (UpdateBankTransactionArgs.attachments args)
                   (BankTransaction.bankTransactionID bt)
   then normalizeAndUpload env
          (fun tid => createBankTransactionAttachmentByFileName tid
                        (str (BankTransaction.bankTransactionID bt)))
          (map InlineAttachment.asInput
               (match UpdateBankTransactionArgs.attachments args with
                | Some l => l
                | None => []
                end))
   else ret tt) (mkMachine (world m2) (trace m2) []) = (m', inr tt) ->
  UpdateBankTransactionTool env more args m =
    (m', inr (textResponse
                (join LF (filterBoolean
                   (updatedBankTransactionFields env bt
                      ++ [attachmentsLine (attachmentResults m');
                          deepLinkLine link]))))).
Proof.
  intros (w1 & result & ba & Hh & He & Hr & Hb & Hl) H.
  unfold UpdateBankTransactionTool, bind at 1, callWorld. rewrite Hh, He.
  unfold bind at 1. rewrite Hr. unfold deref at 1, ret at 1.
  unfold bind at 1. rewrite Hb. unfold deref at 1, ret at 1.
  unfold bind at 1. cbn [world trace attachmentResults]. rewrite Hl.
  exact (report_tail_run _
           (fun rs => textResponse
                        (join LF (filterBoolean
                           (updatedBankTransactionFields env bt
                              ++ [attachmentsLine rs; deepLinkLine link]))))
           m2 m' H).
Qed.

Lemma CreateCreditNoteTool_normalizing_run args (m m2 m' : Machine World) cn link :
  creditNoteCreated env args m cn link m2 ->
  (if shouldAttach (CreateCreditNoteNormalizingArgs.attachments args)
                   (CreditNote.creditNoteID cn)
   then normalizeAndUpload env
          (fun tid fileName body =>
             createCreditNoteAttachmentByFileName tid
               (str (CreditNote.creditNoteID cn)) fileName body true)
          (match CreateCreditNoteNormalizingArgs.attachments args with
           | Some l => l
           | None => []
           end)
   else ret tt) (mkMachine (world m2) (trace m2) []) = (m', inr tt) ->
  CreateCreditNoteTool_normalizing env args m =
    (m', inr (textResponse
                (join LF (filterBoolean
                   (creditNoteFields env cn
                      ++ [attachmentsLine (attachmentResults m');
                          deepLinkLine link]))))).
Proof.
  intros (w1 & result & Hh & He & Hr & Hl) H.
  unfold CreateCreditNoteTool_normalizing, bind at 1, callWorld. rewrite Hh, He.
  unfold bind at 1. rewrite Hr. unfold deref at 1, ret at 1.
  unfold bind at 1. cbn [world trace attachmentResults]. rewrite Hl.
  exact (report_tail_run _
           (fun rs => textResponse
                        (join LF (filterBoolean
                           (creditNoteFields env cn
                              ++ [attachmentsLine rs; deepLinkLine link]))))
           m2 m' H).
Qed.

End FurtherToolReports.

(** C1.  The upload loop never throws and, whatever the remote upload call
    does, issues one call per attachment, in input order, against the
    remote service: the calls and the world it ends in are those of
    [remoteUploads], where every call is issued whether or not an earlier
    one threw.  It records one result per attachment, in the same order:
    result [i] is [failed] with the thrown error's message exactly when
    call [i] threw, and [success] otherwise.  In
    [CreateBankTransactionTool] and [UpdateInvoiceTool], once the primary
    operation succeeded and the attachments were normalized, the response
    is one text block: the entity's heading, identifier, date or type,
    contact, reference, total and status, then the attachments line built
    from the results of that loop, then the link. *)
Theorem upload_loop_isolates_failures :
  forall World (env : Collaborators World),
    (forall A (fileNameOf base64Of : A -> string) endpoint
            (attachments : list A) (m : Machine World),
       exists m' calls results,
         uploadLoop env fileNameOf base64Of endpoint attachments m = (m', inr tt) /\
         remoteUploads env fileNameOf base64Of endpoint attachments (world m)
           = (world m', calls) /\
         attachEvents (trace m') = (attachEvents (trace m) ++ calls)%list /\
         attachmentResults m' = (attachmentResults m ++ results)%list /\
         OneResultPerAttachment env fileNameOf base64Of endpoint
                                attachments calls results) /\
    (forall args (m m2 m3 : Machine World) bt link l processed,
       bankTransactionCreated env args m bt link m2 ->
       CreateBankTransactionArgs.attachments args = Some l ->
       shouldAttach (Some l) (BankTransaction.bankTransactionID bt) = true ->
       processAttachments env (Some (map InlineAttachment.asInput l))
                          (mkMachine (world m2) (trace m2) []) = (m3, inr processed) ->
       exists m' calls,
         CreateBankTransactionTool env args m =
           (m', inr (ToolResponse.mk
                       [ContentBlock.mk "text"
                          (join LF (filterBoolean
                             [ Some "Bank transaction successfully:";
                               Some ("ID: " ++ tpl (BankTransaction.bankTransactionID bt));
                               Some ("Date: " ++ tpl (BankTransaction.date bt));
                               Some ("Contact: " ++
                                     tpl (match BankTransaction.contact bt with
                                          | Some c => Contact.name c
                                          | None => None
                                          end));
                               Some ("Total: " ++
                                     tpl (option_map (numberToString env)
                                                     (BankTransaction.total bt)));
                               Some ("Status: " ++ tpl (BankTransaction.status bt));
                               attachmentsLine (attachmentResults m');
                               (if truthy link
                                then Some ("Link to view: " ++ str link)
                                else None) ]))])) /\
         remoteUploads env ProcessedAttachment.fileName
           ProcessedAttachment.base64Content
           (fun tid => createBankTransactionAttachmentByFileName tid
                         (str (BankTransaction.bankTransactionID bt)))
           processed (world m3) = (world m', calls) /\
         attachEvents (trace m') = (attachEvents (trace m3) ++ calls)%list /\
         OneResultPerAttachment env ProcessedAttachment.fileName
           ProcessedAttachment.base64Content
           (fun tid => createBankTransactionAttachmentByFileName tid
                         (str (BankTransaction.bankTransactionID bt)))
           processed calls (attachmentResults m')) /\
    (forall args (m m2 m3 : Machine World) invoice link l processed,
       invoiceUpdated env args m invoice link m2 ->
       UpdateInvoiceArgs.attachments args = Some l ->
       shouldAttach (Some l) (Invoice.invoiceID invoice) = true ->
       processAttachments env (Some l)
                          (mkMachine (world m2) (trace m2) []) = (m3, inr processed) ->
       exists m' calls,
         UpdateInvoiceTool env args m =
           (m', inr (ToolResponse.mk
                       [ContentBlock.mk "text"
                          (join LF
                             [ Some "Invoice updated successfully:";
                               Some ("ID: " ++ tpl (Invoice.invoiceID invoice));
                               Some ("Contact: " ++
                                     tpl (match Invoice.contact invoice with
                                          | Some c => Contact.name c
                                          | None => None
                                          end));
                               Some ("Type: " ++ tpl (Invoice.type invoice));
                               Some ("Reference: " ++
                                     orElse (Invoice.reference invoice) "None");
                               Some ("Total: " ++
                                     tpl (option_map (numberToString env)
                                                     (Invoice.total invoice)));
                               Some ("Status: " ++ tpl (Invoice.status invoice));
                               attachmentsLine (attachmentResults m');
                               (if truthy link
                                then Some ("Link to view: " ++ str link)
                                else None) ])])) /\
         remoteUploads env ProcessedAttachment.fileName
           ProcessedAttachment.base64Content
           (fun tid fileName body =>
              createInvoiceAttachmentByFileName tid (str (Invoice.invoiceID invoice))
                                                fileName body true)
           processed (world m3) = (world m', calls) /\
         attachEvents (trace m') = (attachEvents (trace m3) ++ calls)%list /\
         OneResultPerAttachment env ProcessedAttachment.fileName
           ProcessedAttachment.base64Content
           (fun tid fileName body =>
              createInvoiceAttachmentByFileName tid (str (Invoice.invoiceID invoice))
                                                fileName body true)
           processed calls (attachmentResults m')).
Proof.
  intros World env. split; [|split].
  - intros A fileNameOf base64Of endpoint attachments m.
    apply uploadLoop_remote.
  - intros args m m2 m3 bt link l processed Hcreated Hatts Hguard Hnorm.
    rewrite (CreateBankTransactionTool_after_success env args m m2 bt link Hcreated).
    rewrite Hatts.
    destruct (normalizeAndUpload_remote env
                (fun tid => createBankTransactionAttachmentByFileName tid
                              (str (BankTransaction.bankTransactionID bt)))
                _ _ _ _ Hnorm)
      as (m' & calls & results & Hrun & Hrem & Htr & Hres & Hspec).
    exists m', calls. split; [|split; [|split]].
    + rewrite (bankTransactionReport_run env bt link (Some l) m2 m').
      * reflexivity.
      * now rewrite Hguard.
    + exact Hrem.
    + exact Htr.
    + simpl in Hres. now rewrite Hres.
  - intros args m m2 m3 invoice link l processed Hupdated Hatts Hguard Hnorm.
    rewrite (UpdateInvoiceTool_after_success env args m m2 invoice link Hupdated).
    rewrite Hatts.
    destruct (normalizeAndUpload_remote env
                (fun tid fileName body =>
                   createInvoiceAttachmentByFileName tid
                     (str (Invoice.invoiceID invoice)) fileName body true)
                _ _ _ _ Hnorm)
      as (m' & calls & results & Hrun & Hrem & Htr & Hres & Hspec).
    exists m', calls. split; [|split; [|split]].
    + rewrite (invoiceReport_run env invoice link (Some l) m2 m').
      * reflexivity.
      * now rewrite Hguard.
    + exact Hrem.
    + exact Htr.
    + simpl in Hres. now rewrite Hres.
Qed.

Lemma upload_loop_isolates_failures_witness :
  bankTransactionCreated Demo.env (Demo.bankArgs "contact-1" (Some Demo.threeFiles))
    Demo.machine Demo.sampleBankTransaction Demo.bankLink Demo.machine /\
  processAttachments Demo.env (Some (map InlineAttachment.asInput Demo.threeFiles))
    Demo.machine = (Demo.machine, inr Demo.threeProcessed) /\
  exists m' calls,
    CreateBankTransactionTool Demo.env
      (Demo.bankArgs "contact-1" (Some Demo.threeFiles)) Demo.machine =
      (m', inr (ToolResponse.mk
                  [ContentBlock.mk "text"
                     (join LF (filterBoolean
                        [ Some "Bank transaction successfully:";
                          Some "ID: bt-1";
                          Some "Date: 2024-05-01";
                          Some "Contact: ACME";
                          Some "Total: 120";
                          Some "Status: AUTHORISED";
                          attachmentsLine (attachmentResults m');
                          Some "Link to view: https://go.xero.com/app/!abc/bank/acc-1/bt-1"
                        ]))])) /\
    remoteUploads Demo.env ProcessedAttachment.fileName
      ProcessedAttachment.base64Content
      (fun tid => createBankTransactionAttachmentByFileName tid "bt-1")
      Demo.threeProcessed (world Demo.machine) = (world m', calls) /\
    attachEvents (trace m') = (attachEvents (trace Demo.machine) ++ calls)%list /\
    OneResultPerAttachment Demo.env ProcessedAttachment.fileName
      ProcessedAttachment.base64Content
      (fun tid => createBankTransactionAttachmentByFileName tid "bt-1")
      Demo.threeProcessed calls (attachmentResults m').
Proof.
  assert (Hcreated :
    bankTransactionCreated Demo.env (Demo.bankArgs "contact-1" (Some Demo.threeFiles))
      Demo.machine Demo.sampleBankTransaction Demo.bankLink Demo.machine).
  { exists (world Demo.machine), (Demo.ok Demo.sampleBankTransaction),
      (BankAccount.mk (Some "acc-1")).
    repeat split. }
  split; [exact Hcreated|]. split; [reflexivity|].
  apply (proj1 (proj2 (upload_loop_isolates_failures Demo.World Demo.env))
           (Demo.bankArgs "contact-1" (Some Demo.threeFiles))
           Demo.machine Demo.machine Demo.machine
           Demo.sampleBankTransaction Demo.bankLink Demo.threeFiles
           Demo.threeProcessed Hcreated);
    reflexivity.
Defined.

(** C2.  In a non-empty batch, the first item whose processing fails makes
    [processAttachments] raise one error, whose message is that item's
    failure message behind "Failed to process attachment: ", and no list is
    returned; every error [processAttachments] raises has that prefix.  At
    each of the four call sites ([CreateBankTransactionTool],
    [UpdateInvoiceTool], [UpdateBankTransactionTool] and the
    [CreateCreditNoteTool] that normalizes) the error is caught: the result
    array holds exactly one entry, named "unknown" with status [failed],
    and the tool returns, instead of throwing, one text block with the
    entity's heading, identifier, contact, total and status (and date,
    type or reference where the tool has them), the line "Attachments:
    unknown (failed)" and the link. *)
Theorem processAttachments_fails_fast :
  forall World (env : Collaborators World) (more : MoreCollaborators World),
    (forall pre a post (m m1 m2 : Machine World) done u,
       processAttachments env (Some pre) m = (m1, inr done) ->
       processItem_try env a m1 = (m2, inl u) ->
       processAttachments env (Some (pre ++ a :: post)%list) m =
         (m2, inl (newError ("Failed to process attachment: " ++ errorMessage u)))) /\
    (forall l (m m' : Machine World) e,
       processAttachments env (Some l) m = (m', inl e) ->
       exists message,
         e = newError ("Failed to process attachment: " ++ message)) /\
    (forall args (m m2 m3 : Machine World) bt link l e,
       bankTransactionCreated env args m bt link m2 ->
       CreateBankTransactionArgs.attachments args = Some l ->
       shouldAttach (Some l) (BankTransaction.bankTransactionID bt) = true ->
       processAttachments env (Some (map InlineAttachment.asInput l))
                          (mkMachine (world m2) (trace m2) []) = (m3, inl e) ->
       CreateBankTransactionTool env args m =
         (mkMachine (world m3)
            (trace m3 ++ [ConsoleError "Failed to process attachments:"])
            [AttachmentUploadResult.mk "unknown" failed
               (Some ("Processing failed: " ++ errorMessage e))],
          inr (ToolResponse.mk
                 [ContentBlock.mk "text"
                    (join LF (filterBoolean
                       [ Some "Bank transaction successfully:";
                         Some ("ID: " ++ tpl (BankTransaction.bankTransactionID bt));
                         Some ("Date: " ++ tpl (BankTransaction.date bt));
                         Some ("Contact: " ++
                               tpl (match BankTransaction.contact bt with
                                    | Some c => Contact.name c
                                    | None => None
                                    end));
                         Some ("Total: " ++
                               tpl (option_map (numberToString env)
                                               (BankTransaction.total bt)));
                         Some ("Status: " ++ tpl (BankTransaction.status bt));
                         Some "Attachments: unknown (failed)";
                         (if truthy link
                          then Some ("Link to view: " ++ str link)
                          else None) ]))]))) /\
    (forall args (m m2 m3 : Machine World) invoice link l e,
       invoiceUpdated env args m invoice link m2 ->
       UpdateInvoiceArgs.attachments args = Some l ->
       shouldAttach (Some l) (Invoice.invoiceID invoice) = true ->
       processAttachments env (Some l)
                          (mkMachine (world m2) (trace m2) []) = (m3, inl e) ->
       UpdateInvoiceTool env args m =
         (mkMachine (world m3)
            (trace m3 ++ [ConsoleError "Failed to process attachments:"])
            [AttachmentUploadResult.mk "unknown" failed
               (Some ("Processing failed: " ++ errorMessage e))],
          inr (ToolResponse.mk
                 [ContentBlock.mk "text"
                    (join LF
                       [ Some "Invoice updated successfully:";
                         Some ("ID: " ++ tpl (Invoice.invoiceID invoice));
                         Some ("Contact: " ++
                               tpl (match Invoice.contact invoice with
                                    | Some c => Contact.name c
                                    | None => None
                                    end));
                         Some ("Type: " ++ tpl (Invoice.type invoice));
                         Some ("Reference: " ++
                               orElse (Invoice.reference invoice) "None");
                         Some ("Total: " ++
                               tpl (option_map (numberToString env)
                                               (Invoice.total invoice)));
                         Some ("Status: " ++ tpl (Invoice.status invoice));
                         Some "Attachments: unknown (failed)";
                         (if truthy link
                          then Some ("Link to view: " ++ str link)
                          else None) ])]))) /\
    (forall args (m m2 m3 : Machine World) bt link l e,
       bankTransactionUpdated env more args m bt link m2 ->
       UpdateBankTransactionArgs.attachments args = Some l ->
       shouldAttach (Some l) (BankTransaction.bankTransactionID bt) = true ->
       processAttachments env (Some (map InlineAttachment.asInput l))
                          (mkMachine (world m2) (trace m2) []) = (m3, inl e) ->
       UpdateBankTransactionTool env more args m =
         (mkMachine (world m3)
            (trace m3 ++ [ConsoleError "Failed to process attachments:"])
            [AttachmentUploadResult.mk "unknown" failed
               (Some ("Processing failed: " ++ errorMessage e))],
          inr (ToolResponse.mk
                 [ContentBlock.mk "text"
                    (join LF (filterBoolean
                       [ Some "Bank transaction updated successfully:";
                         Some ("ID: " ++ tpl (BankTransaction.bankTransactionID bt));
                         Some ("Date: " ++ tpl (BankTransaction.date bt));
                         Some ("Contact: " ++
                               tpl (match BankTransaction.contact bt with
                                    | Some c => Contact.name c
                                    | None => None
                                    end));
                         Some ("Total: " ++
                               tpl (option_map (numberToString env)
                                               (BankTransaction.total bt)));
                         Some ("Status: " ++ tpl (BankTransaction.status bt));
                         Some "Attachments: unknown (failed)";
                         (if truthy link
                          then Some ("Link to view: " ++ str link)
                          else None) ]))]))) /\
    (forall args (m m2 m3 : Machine World) cn link l e,
       creditNoteCreated env args m cn link m2 ->
       CreateCreditNoteNormalizingArgs.attachments args = Some l ->
       shouldAttach (Some l) (CreditNote.creditNoteID cn) = true ->
       processAttachments env (Some l)
                          (mkMachine (world m2) (trace m2) []) = (m3, inl e) ->
       CreateCreditNoteTool_normalizing env args m =
         (mkMachine (world m3)
            (trace m3 ++ [ConsoleError "Failed to process attachments:"])
            [AttachmentUploadResult.mk "unknown" failed
               (Some ("Processing failed: " ++ errorMessage e))],
          inr (ToolResponse.mk
                 [ContentBlock.mk "text"
                    (join LF (filterBoolean
                       [ Some "Credit note created successfully:";
                         Some ("ID: " ++ tpl (CreditNote.creditNoteID cn));
                         Some ("Contact: " ++
                               tpl (match CreditNote.contact cn with
                                    | Some c => Contact.name c
                                    | None => None
                                    end));
                         Some ("Total: " ++
                               tpl (option_map (numberToString env)
                                               (CreditNote.total cn)));
                         Some ("Status: " ++ tpl (CreditNote.status cn));
                         Some "Attachments: unknown (failed)";
                         (if truthy link
                          then Some ("Link to view: " ++ str link)
                          else None) ]))]))).
Proof.
  intros World env more. split; [|split; [|split; [|split; [|split]]]].
  - intros pre a post m m1 m2 done u Hpre Hitem.
    exact (processAttachments_item_fails env pre a post m m1 m2 done u Hpre Hitem).
  - intros l m m' e H.
    exact (processAttachments_error_prefixed env l m m' e H).
  - intros args m m2 m3 bt link l e Hcreated Hatts Hguard Hnorm.
    rewrite (CreateBankTransactionTool_after_success env args m m2 bt link Hcreated).
    rewrite Hatts.
    rewrite (bankTransactionReport_run env bt link (Some l) m2
               (mkMachine (world m3)
                  (trace m3 ++ [ConsoleError "Failed to process attachments:"])
                  [AttachmentUploadResult.mk "unknown" failed
                     (Some ("Processing failed: " ++ errorMessage e))])).
    + reflexivity.
    + rewrite Hguard.
      exact (normalizeAndUpload_fails env _ _ _ _ _ Hnorm).
  - intros args m m2 m3 invoice link l e Hupdated Hatts Hguard Hnorm.
    rewrite (UpdateInvoiceTool_after_success env args m m2 invoice link Hupdated).
    rewrite Hatts.
    rewrite (invoiceReport_run env invoice link (Some l) m2
               (mkMachine (world m3)
                  (trace m3 ++ [ConsoleError "Failed to process attachments:"])
                  [AttachmentUploadResult.mk "unknown" failed
                     (Some ("Processing failed: " ++ errorMessage e))])).
    + reflexivity.
    + rewrite Hguard.
      exact (normalizeAndUpload_fails env _ _ _ _ _ Hnorm).
  - intros args m m2 m3 bt link l e Hupdated Hatts Hguard Hnorm.
    rewrite (UpdateBankTransactionTool_run env more args m m2
               (mkMachine (world m3)
                  (trace m3 ++ [ConsoleError "Failed to process attachments:"])
                  [AttachmentUploadResult.mk "unknown" failed
                     (Some ("Processing failed: " ++ errorMessage e))])
               bt link Hupdated).
    + reflexivity.
    + rewrite Hatts, Hguard.
      exact (normalizeAndUpload_fails env _ _ _ _ _ Hnorm).
  - intros args m m2 m3 cn link l e Hcreated Hatts Hguard Hnorm.
    rewrite (CreateCreditNoteTool_normalizing_run env args m m2
               (mkMachine (world m3)
                  (trace m3 ++ [ConsoleError "Failed to process attachments:"])
                  [AttachmentUploadResult.mk "unknown" failed
                     (Some ("Processing failed: " ++ errorMessage e))])
               cn link Hcreated).
    + reflexivity.
    + rewrite Hatts, Hguard.
      exact (normalizeAndUpload_fails env _ _ _ _ _ Hnorm).
Qed.

Lemma processAttachments_fails_fast_witness :
  bankTransactionCreated Demo.env (Demo.bankArgs "contact-1" (Some Demo.namelessFile))
    Demo.machine Demo.sampleBankTransaction Demo.bankLink Demo.machine /\
  processAttachments Demo.env (Some (map InlineAttachment.asInput Demo.namelessFile))
    Demo.machine =
    (Demo.machine,
     inl (newError "Failed to process attachment: fileName is required when using base64Content")) /\
  CreateBankTransactionTool Demo.env
    (Demo.bankArgs "contact-1" (Some Demo.namelessFile)) Demo.machine =
    (mkMachine (world Demo.machine) [ConsoleError "Failed to process attachments:"]
       [AttachmentUploadResult.mk "unknown" failed
          (Some "Processing failed: Failed to process attachment: fileName is required when using base64Content")],
     inr (ToolResponse.mk
            [ContentBlock.mk "text"
               (join LF
                  [ Some "Bank transaction successfully:";
                    Some "ID: bt-1";
                    Some "Date: 2024-05-01";
                    Some "Contact: ACME";
                    Some "Total: 120";
                    Some "Status: AUTHORISED";
                    Some "Attachments: unknown (failed)";
                    Some "Link to view: https://go.xero.com/app/!abc/bank/acc-1/bt-1"
                  ])])).
Proof.
  assert (Hcreated :
    bankTransactionCreated Demo.env (Demo.bankArgs "contact-1" (Some Demo.namelessFile))
      Demo.machine Demo.sampleBankTransaction Demo.bankLink Demo.machine).
  { exists (world Demo.machine), (Demo.ok Demo.sampleBankTransaction),
      (BankAccount.mk (Some "acc-1")).
    repeat split. }
  split; [exact Hcreated|]. split.
  - apply (proj1 (processAttachments_fails_fast Demo.World Demo.env Scenario.more)
             [Demo.byContent] Demo.emptyName [] Demo.machine Demo.machine Demo.machine
             [Demo.aPdf] (newError "fileName is required when using base64Content"));
      reflexivity.
  - apply (proj1 (proj2 (proj2 (processAttachments_fails_fast
                                  Demo.World Demo.env Scenario.more)))
             (Demo.bankArgs "contact-1" (Some Demo.namelessFile))
             Demo.machine Demo.machine Demo.machine
             Demo.sampleBankTransaction Demo.bankLink Demo.namelessFile
             (newError "Failed to process attachment: fileName is required when using base64Content")
             Hcreated);
      reflexivity.
Defined.

(** ** Entity Handlers *)

(** C5.  The envelopes returned by the account handlers are well formed,
    whatever the remote client does: the handlers never throw, and in the
    envelope [isError] is true iff [result] is null and iff [error] is
    non-null, so exactly one of [result] and [error] is populated. *)
Theorem account_handlers_return_well_formed_envelopes :
  forall World (env : Collaborators World),
    (forall accountId (m : Machine World),
       exists m' r,
         getXeroAccount env accountId m = (m', inr r) /\ envelope_ok r) /\
    (forall code name type accountId description taxType enablePaymentsToAccount
            bankAccountNumber bankAccountType showInExpenseClaims
            (m : Machine World),
       exists m' r,
         createXeroAccount env code name type accountId description taxType
           enablePaymentsToAccount bankAccountNumber bankAccountType
           showInExpenseClaims m = (m', inr r) /\
         envelope_ok r).
Proof.
  intros World env.
  assert (Hok : forall a : Account.t,
             envelope_ok (XeroClientResponse.mk (Some a) false None)).
  { intros a. split; simpl; split; intros H; try discriminate. now contradiction H. }
  assert (Herr : forall s : string,
             envelope_ok (XeroClientResponse.mk (@None Account.t) true (Some s))).
  { intros s. split; simpl; split; intros H; try reflexivity. discriminate. }
  split.
  - intros accountId m. unfold getXeroAccount, tryCatch.
    destruct (bind (getAccount env accountId) _ m) as [m1 [e|r]] eqn:Hrun.
    + eexists. eexists. split; [reflexivity|]. apply Herr.
    + exists m1, r. split; [reflexivity|].
      unfold bind in Hrun.
      destruct (getAccount env accountId m) as [m2 [e|[a|]]]; try discriminate.
      injection Hrun as _ <-. apply Hok.
  - intros code name type accountId description taxType enablePaymentsToAccount
           bankAccountNumber bankAccountType showInExpenseClaims m.
    unfold createXeroAccount, tryCatch.
    destruct (bind (createAccount env code name type accountId description taxType
                      enablePaymentsToAccount bankAccountNumber bankAccountType
                      showInExpenseClaims) _ m) as [m1 [e|r]] eqn:Hrun.
    + eexists. eexists. split; [reflexivity|]. apply Herr.
    + exists m1, r. split; [reflexivity|].
      unfold bind in Hrun.
      destruct (createAccount env code name type accountId description taxType
                  enablePaymentsToAccount bankAccountNumber bankAccountType
                  showInExpenseClaims m) as [m2 [e|[a|]]]; try discriminate.
      injection Hrun as _ <-. apply Hok.
Qed.

(** The handlers at work in the concrete world: a found account, an account
    that does not exist, and a created account. *)
Example getXeroAccount_found :
  getXeroAccount Demo.env "acc-1" Demo.machine =
    (Demo.machine, inr (XeroClientResponse.mk (Some Demo.sampleAccount) false None)).
Proof. reflexivity. Qed.

Example getXeroAccount_missing :
  getXeroAccount Demo.env "acc-2" Demo.machine =
    (Demo.machine, inr (XeroClientResponse.mk None true (Some "Account not found."))).
Proof. reflexivity. Qed.

(** ** Tool Facade *)

Section FacadeFacts.

Context {World : Type} (env : Collaborators World).

(** [CreateAccountTool] wraps its whole body in [try]/[catch]: whatever the
    collaborators do, it returns a text block. *)
Lemma CreateAccountTool_never_throws args (m : Machine World) :
  exists m' text, CreateAccountTool env args m = (m', inr (textResponse text)).
Proof.
  unfold CreateAccountTool, tryCatch.
  match goal with |- context [bind ?c ?k m] =>
    destruct (bind c k m) as [m1 [e|r]] eqn:Hrun
  end.
  - eexists. eexists. reflexivity.
  - exists m1. unfold bind in Hrun.
    match type of Hrun with context [createXeroAccount ?e ?a ?b ?c ?d ?f ?g ?h ?i ?j ?k m] =>
      destruct (createXeroAccount e a b c d f g h i j k m) as [m2 [e'|resp]]
    end; [discriminate|].
    destruct (XeroClientResponse.isError resp).
    + injection Hrun as _ <-. eexists. reflexivity.
    + unfold deref in Hrun.
      destruct (XeroClientResponse.result resp) as [account|]; [|discriminate].
      injection Hrun as _ <-. eexists. reflexivity.
Qed.

End FacadeFacts.

(** C4 fails on the tools that have no [try]/[catch] of their own.  With an
    organisation whose short code cannot be retrieved, [UpdateInvoiceTool]
    updates the invoice and then lets the deep-link builder's exception
    escape; [CreateBankTransactionTool] does the same. *)
Theorem tool_handler_lets_exception_escape :
  UpdateInvoiceTool Demo.env (Demo.invoiceArgs "inv-1" None) Demo.machineNoShortCode =
    (Demo.machineNoShortCode,
     inl (newError "Failed to retrieve organisation short code")) /\
  CreateBankTransactionTool Demo.env (Demo.bankArgs "contact-1" None)
    Demo.machineNoShortCode =
    (Demo.machineNoShortCode,
     inl (newError "Failed to retrieve organisation short code")).
Proof. split; reflexivity. Qed.

(** ** Sequencing: no upload before the primary operation succeeded *)

Lemma shouldAttach_false {T A} (idOf : T -> option string) result entity
      (attachments : option (list A)) :
  ~ mayAttach idOf (inr result) attachments ->
  XeroClientResponse.isError result = false ->
  XeroClientResponse.result result = Some entity ->
  shouldAttach attachments (idOf entity) = false.
Proof.
  intros Hno He Hr. unfold shouldAttach.
  destruct attachments as [[|a l]|]; try reflexivity.
  destruct (truthy (idOf entity)) eqn:Hid; [|reflexivity].
  exfalso. apply Hno. exists result, entity. repeat split; try assumption.
  now exists a, l.
Qed.

Lemma deepLinkLine_not_attachments (link : option string) :
  isAttachmentsLine (deepLinkLine link) = false.
Proof. unfold deepLinkLine. destruct (truthy link); reflexivity. Qed.

Lemma skipped_by_throw {World T} (errorLabel : string) (fields : T -> list Line)
      (filtered : bool) outcome (m m' : Machine World) e :
  trace m' = trace m ->
  attachmentResults m' = attachmentResults m ->
  AttachmentsSkipped errorLabel fields filtered outcome m m' (inl e).
Proof.
  intros Ht Hr. repeat split; [exact Ht | now right | discriminate].
Qed.

Lemma skipped_by_error_text {World T} (errorLabel : string)
      (fields : T -> list Line) (filtered : bool)
      (result : XeroClientResponse.t T) (m m' : Machine World) :
  XeroClientResponse.isError result = true ->
  isAttachmentsLine
    (Some (errorLabel ++ tplNull (XeroClientResponse.error result))) = false ->
  trace m' = trace m ->
  attachmentResults m' = attachmentResults m ->
  AttachmentsSkipped errorLabel fields filtered (inr result) m m'
    (inr (textResponse (errorLabel ++ tplNull (XeroClientResponse.error result)))).
Proof.
  intros He Hnot Ht Hr. split; [exact Ht|]. split; [now right|].
  intros response H. injection H as H. rewrite <- H.
  exists [Some (errorLabel ++ tplNull (XeroClientResponse.error result))].
  split; [|split].
  - exists result. split; [reflexivity|]. now rewrite He.
  - reflexivity.
  - intros Hin. apply no_attachments_line; [|exact Hin].
    constructor; [exact Hnot|constructor].
Qed.

Section LinkFacts.

Context {World : Type} (env : Collaborators World).

(** Computing a deep link adds nothing to the trace and leaves the result
    array alone, whether it returns or throws. *)
Lemma bankTransactionLink_frame ba bt (m m2 : Machine World) r :
  bankTransactionLink env ba bt m = (m2, r) ->
  trace m2 = trace m /\ attachmentResults m2 = attachmentResults m.
Proof.
  unfold bankTransactionLink. destruct (_ && _).
  - unfold bind, callWorld. simpl.
    destruct (bankTransactionDeepLink env _ _ (world m)) as [w2 [e|s]];
      intros H; injection H as <- _; split; reflexivity.
  - intros H. injection H as <- _. split; reflexivity.
Qed.

Lemma invoiceLink_frame invoice (m m2 : Machine World) r :
  invoiceLink env invoice m = (m2, r) ->
  trace m2 = trace m /\ attachmentResults m2 = attachmentResults m.
Proof.
  unfold invoiceLink. destruct (truthy _).
  - unfold bind, callWorld. simpl.
    destruct (getDeepLink env _ _ (world m)) as [w2 [e|s]];
      intros H; injection H as <- _; split; reflexivity.
  - intros H. injection H as <- _. split; reflexivity.
Qed.

Lemma creditNoteLink_frame creditNote (m m2 : Machine World) r :
  creditNoteLink env creditNote m = (m2, r) ->
  trace m2 = trace m /\ attachmentResults m2 = attachmentResults m.
Proof.
  unfold creditNoteLink. destruct (truthy _).
  - unfold bind, callWorld. simpl.
    destruct (getDeepLink env _ _ (world m)) as [w2 [e|s]];
      intros H; injection H as <- _; split; reflexivity.
  - intros H. injection H as <- _. split; reflexivity.
Qed.

(** A report whose attachment guard is false. *)
Lemma skipped_report {T} (errorLabel : string) (fields : T -> list Line)
      (filtered : bool) (result : XeroClientResponse.t T) (entity : T)
      (link : option string) (m m2 : Machine World) :
  XeroClientResponse.isError result = false ->
  XeroClientResponse.result result = Some entity ->
  trace m2 = trace m ->
  Forall (fun l => isAttachmentsLine l = false) (fields entity) ->
  AttachmentsSkipped errorLabel fields filtered (inr result) m
    (mkMachine (world m2) (trace m2) [])
    (inr (textResponse
            (join LF ((if filtered then filterBoolean else fun ls => ls)
                        (fields entity
                           ++ [attachmentsLine []; deepLinkLine link])%list)))).
Proof.
  intros He Hr Ht Hf. split; [exact Ht|]. split; [now left|].
  intros response H. injection H as H. rewrite <- H.
  exists ((if filtered then filterBoolean else fun ls => ls)
            (fields entity ++ [None; deepLinkLine link])%list).
  split; [|split].
  - exists result. split; [reflexivity|]. rewrite He.
    exists entity, link. split; [exact Hr | reflexivity].
  - reflexivity.
  - intros Hin. apply no_attachments_line; [|exact Hin].
    assert (Hall : Forall (fun l => isAttachmentsLine l = false)
                     (fields entity ++ [None; deepLinkLine link])%list).
    { apply Forall_app. split; [exact Hf|].
      repeat constructor. apply deepLinkLine_not_attachments. }
    destruct filtered; [|exact Hall].
    unfold filterBoolean. apply Forall_forall. intros l Hl.
    apply filter_In in Hl. rewrite Forall_forall in Hall. now apply Hall.
Qed.

End LinkFacts.

(** C9 as stated fails: the handler did not return success and nothing is
    uploaded, and yet the response text has a line that starts with
    "Attachments:", the second line of the handler's error text, which the
    tool puts into the response as it is. *)
Lemma remote_text_can_hold_an_attachments_line :
  ~ mayAttach BankTransaction.bankTransactionID
      (inr (Demo.err (T := BankTransaction.t) Multiline.validationError))
      (Some Demo.threeFiles) /\
  CreateBankTransactionTool Multiline.env
    (Demo.bankArgs "contact-1" (Some Demo.threeFiles)) Demo.machine =
    (Demo.machine,
     inr (ToolResponse.mk
            [ContentBlock.mk "text"
               ("Error creating bank transaction: A validation exception occurred"
                  ++ LF ++ "Attachments: not supported for this transaction type")])) /\
  splitLines
    ("Error creating bank transaction: A validation exception occurred"
       ++ LF ++ "Attachments: not supported for this transaction type")
  = [ "Error creating bank transaction: A validation exception occurred";
      "Attachments: not supported for this transaction type" ] /\
  hasAttachmentsLine
    ("Error creating bank transaction: A validation exception occurred"
       ++ LF ++ "Attachments: not supported for this transaction type") = true.
Proof.
  split; [|split; [|split]]; try reflexivity.
  intros (result & entity & Ho & He & _). injection Ho as <-. discriminate He.
Qed.

(** C9, amended.  In [CreateBankTransactionTool], both variants of
    [CreateCreditNoteTool], [UpdateInvoiceTool] and
    [UpdateBankTransactionTool], unless the handler returned success, the
    resource's identifier is non-empty and the attachment list is
    non-empty, the attachment handling is skipped: no upload call (nor any
    other call) is added to the trace, no attachment result is produced,
    and a returned response is one text block, the join of the error line
    or of the entity's field lines, a null where the attachments line
    would be, and the link line.  That text has no line starting with
    "Attachments:" unless one of the joined elements holds such a line
    itself, behind a line break. *)
Theorem attachments_skipped_unless_created :
  forall World (env : Collaborators World) (more : MoreCollaborators World),
    (forall args (m : Machine World) w1 outcome,
       createXeroBankTransaction env
         (CreateBankTransactionArgs.type args)
         (CreateBankTransactionArgs.bankAccountId args)
         (CreateBankTransactionArgs.contactId args)
         (CreateBankTransactionArgs.lineItems args)
         (CreateBankTransactionArgs.reference args)
         (CreateBankTransactionArgs.date args) (world m) = (w1, outcome) ->
       ~ mayAttach BankTransaction.bankTransactionID outcome
                   (CreateBankTransactionArgs.attachments args) ->
       exists m' r,
         CreateBankTransactionTool env args m = (m', r) /\
         AttachmentsSkipped "Error creating bank transaction: "
           (bankTransactionFields env) true outcome m m' r) /\
    (forall args (m : Machine World) w1 outcome,
       createXeroCreditNote env
         (CreateCreditNoteArgs.contactId args)
         (CreateCreditNoteArgs.lineItems args)
         (CreateCreditNoteArgs.reference args) (world m) = (w1, outcome) ->
       ~ mayAttach CreditNote.creditNoteID outcome
                   (CreateCreditNoteArgs.attachments args) ->
       exists m' r,
         CreateCreditNoteTool env args m = (m', r) /\
         AttachmentsSkipped "Error creating credit note: "
           (creditNoteFields env) true outcome m m' r) /\
    (forall args (m : Machine World) w1 outcome,
       updateXeroInvoice env
         (UpdateInvoiceArgs.invoiceId args)
         (UpdateInvoiceArgs.lineItems args)
         (UpdateInvoiceArgs.reference args)
         (UpdateInvoiceArgs.dueDate args)
         (UpdateInvoiceArgs.date args)
         (UpdateInvoiceArgs.contactId args) (world m) = (w1, outcome) ->
       ~ mayAttach Invoice.invoiceID outcome (UpdateInvoiceArgs.attachments args) ->
       exists m' r,
         UpdateInvoiceTool env args m = (m', r) /\
         AttachmentsSkipped "Error updating invoice: "
           (invoiceFields env) false outcome m m' r) /\
    (forall args (m : Machine World) w1 outcome,
       updateXeroBankTransaction more
         (UpdateBankTransactionArgs.bankTransactionId args)
         (UpdateBankTransactionArgs.type args)
         (UpdateBankTransactionArgs.contactId args)
         (UpdateBankTransactionArgs.lineItems args)
         (UpdateBankTransactionArgs.reference args)
         (UpdateBankTransactionArgs.date args) (world m) = (w1, outcome) ->
       ~ mayAttach BankTransaction.bankTransactionID outcome
                   (UpdateBankTransactionArgs.attachments args) ->
       exists m' r,
         UpdateBankTransactionTool env more args m = (m', r) /\
         AttachmentsSkipped "Error updating bank transaction: "
           (updatedBankTransactionFields env) true outcome m m' r) /\
    (forall args (m : Machine World) w1 outcome,
       createXeroCreditNote env
         (CreateCreditNoteNormalizingArgs.contactId args)
         (CreateCreditNoteNormalizingArgs.lineItems args)
         (CreateCreditNoteNormalizingArgs.reference args) (world m) = (w1, outcome) ->
       ~ mayAttach CreditNote.creditNoteID outcome
                   (CreateCreditNoteNormalizingArgs.attachments args) ->
       exists m' r,
         CreateCreditNoteTool_normalizing env args m = (m', r) /\
         AttachmentsSkipped "Error creating credit note: "
           (creditNoteFields env) true outcome m m' r).
Proof.
  intros World env more. split; [|split; [|split; [|split]]].
  - intros args m w1 outcome Hh Hno.
    unfold CreateBankTransactionTool, bind at 1, callWorld. rewrite Hh.
    destruct outcome as [e|result].
    { eexists. eexists. split; [reflexivity|]. now apply skipped_by_throw. }
    destruct (XeroClientResponse.isError result) eqn:He.
    { eexists. eexists. split; [reflexivity|].
      now apply skipped_by_error_text. }
    unfold bind at 1, deref.
    destruct (XeroClientResponse.result result) as [bt|] eqn:Hr.
    2:{ eexists. eexists. split; [reflexivity|]. now apply skipped_by_throw. }
    simpl. unfold bind at 1.
    destruct (BankTransaction.bankAccount bt) as [ba|].
    2:{ eexists. eexists. split; [reflexivity|]. now apply skipped_by_throw. }
    simpl. unfold bind at 1.
    destruct (bankTransactionLink env ba bt
                (mkMachine w1 (trace m) (attachmentResults m)))
      as [m2 [e|link]] eqn:Hl;
      destruct (bankTransactionLink_frame env _ _ _ _ _ Hl) as [Ht Hres].
    + eexists. eexists. split; [reflexivity|]. now apply skipped_by_throw.
    + eexists. eexists. split.
      * apply bankTransactionReport_run.
        rewrite (shouldAttach_false BankTransaction.bankTransactionID
                   result bt _ Hno He Hr).
        reflexivity.
      * apply (skipped_report "Error creating bank transaction: "
                 (bankTransactionFields env) true result bt link m m2 He Hr Ht).
        repeat constructor.
  - intros args m w1 outcome Hh Hno.
    unfold CreateCreditNoteTool, bind at 1, callWorld. rewrite Hh.
    destruct outcome as [e|result].
    { eexists. eexists. split; [reflexivity|]. now apply skipped_by_throw. }
    destruct (XeroClientResponse.isError result) eqn:He.
    { eexists. eexists. split; [reflexivity|].
      now apply skipped_by_error_text. }
    unfold bind at 1, deref.
    destruct (XeroClientResponse.result result) as [cn|] eqn:Hr.
    2:{ eexists. eexists. split; [reflexivity|]. now apply skipped_by_throw. }
    simpl. unfold bind at 1.
    destruct (creditNoteLink env cn (mkMachine w1 (trace m) (attachmentResults m)))
      as [m2 [e|link]] eqn:Hl;
      destruct (creditNoteLink_frame env _ _ _ _ Hl) as [Ht Hres].
    + eexists. eexists. split; [reflexivity|]. now apply skipped_by_throw.
    + eexists. eexists. split.
      * unfold creditNoteReport, bind at 1, newResults.
        rewrite (shouldAttach_false CreditNote.creditNoteID result cn _ Hno He Hr).
        reflexivity.
      * apply (skipped_report "Error creating credit note: "
                 (creditNoteFields env) true result cn link m m2 He Hr Ht).
        repeat constructor.
  - intros args m w1 outcome Hh Hno.
    unfold UpdateInvoiceTool, bind at 1, callWorld. rewrite Hh.
    destruct outcome as [e|result].
    { eexists. eexists. split; [reflexivity|]. now apply skipped_by_throw. }
    destruct (XeroClientResponse.isError result) eqn:He.
    { eexists. eexists. split; [reflexivity|].
      now apply skipped_by_error_text. }
    unfold bind at 1, deref.
    destruct (XeroClientResponse.result result) as [invoice|] eqn:Hr.
    2:{ eexists. eexists. split; [reflexivity|]. now apply skipped_by_throw. }
    simpl. unfold bind at 1.
    destruct (invoiceLink env invoice (mkMachine w1 (trace m) (attachmentResults m)))
      as [m2 [e|link]] eqn:Hl;
      destruct (invoiceLink_frame env _ _ _ _ Hl) as [Ht Hres].
    + eexists. eexists. split; [reflexivity|]. now apply skipped_by_throw.
    + eexists. eexists. split.
      * apply invoiceReport_run.
        rewrite (shouldAttach_false Invoice.invoiceID result invoice _ Hno He Hr).
        reflexivity.
      * apply (skipped_report "Error updating invoice: "
                 (invoiceFields env) false result invoice link m m2 He Hr Ht).
        repeat constructor.
  - intros args m w1 outcome Hh Hno.
    destruct outcome as [e|result].
    { eexists. eexists. split.
      - unfold UpdateBankTransactionTool, bind at 1, callWorld. rewrite Hh.
        reflexivity.
      - now apply skipped_by_throw. }
    destruct (XeroClientResponse.isError result) eqn:He.
    { eexists. eexists. split.
      - unfold UpdateBankTransactionTool, bind at 1, callWorld. rewrite Hh, He.
        reflexivity.
      - now apply skipped_by_error_text. }
    destruct (XeroClientResponse.result result) as [bt|] eqn:Hr.
    2:{ eexists. eexists. split.
        - unfold UpdateBankTransactionTool, bind at 1, callWorld. rewrite Hh, He.
          unfold bind at 1. rewrite Hr. reflexivity.
        - now apply skipped_by_throw. }
    destruct (BankTransaction.bankAccount bt) as [ba|] eqn:Hb.
    2:{ eexists. eexists. split.
        - unfold UpdateBankTransactionTool, bind at 1, callWorld. rewrite Hh, He.
          unfold bind at 1. rewrite Hr. unfold deref at 1, ret at 1.
          unfold bind at 1. rewrite Hb. reflexivity.
        - now apply skipped_by_throw. }
    destruct (bankTransactionLink env ba bt
                (mkMachine w1 (trace m) (attachmentResults m)))
      as [m2 [e|link]] eqn:Hl;
      destruct (bankTransactionLink_frame env _ _ _ _ _ Hl) as [Ht Hres].
    + eexists. eexists. split.
      * unfold UpdateBankTransactionTool, bind at 1, callWorld. rewrite Hh, He.
        unfold bind at 1. rewrite Hr. unfold deref at 1, ret at 1.
        unfold bind at 1. rewrite Hb. unfold deref at 1, ret at 1.
        unfold bind at 1. cbn [world trace attachmentResults]. rewrite Hl.
        reflexivity.
      * now apply skipped_by_throw.
    + eexists. eexists. split.
      * apply (UpdateBankTransactionTool_run env more args m m2 _ bt link).
        { exists w1, result, ba. repeat split; assumption. }
        rewrite (shouldAttach_false BankTransaction.bankTransactionID
                   result bt _ Hno He Hr).
        reflexivity.
      * apply (skipped_report "Error updating bank transaction: "
                 (updatedBankTransactionFields env) true result bt link m m2
                 He Hr Ht).
        repeat constructor.
  - intros args m w1 outcome Hh Hno.
    destruct outcome as [e|result].
    { eexists. eexists. split.
      - unfold CreateCreditNoteTool_normalizing, bind at 1, callWorld. rewrite Hh.
        reflexivity.
      - now apply skipped_by_throw. }
    destruct (XeroClientResponse.isError result) eqn:He.
    { eexists. eexists. split.
      - unfold CreateCreditNoteTool_normalizing, bind at 1, callWorld.
        rewrite Hh, He. reflexivity.
      - now apply skipped_by_error_text. }
    destruct (XeroClientResponse.result result) as [cn|] eqn:Hr.
    2:{ eexists. eexists. split.
        - unfold CreateCreditNoteTool_normalizing, bind at 1, callWorld.
          rewrite Hh, He. unfold bind at 1. rewrite Hr. reflexivity.
        - now apply skipped_by_throw. }
    destruct (creditNoteLink env cn (mkMachine w1 (trace m) (attachmentResults m)))
      as [m2 [e|link]] eqn:Hl;
      destruct (creditNoteLink_frame env _ _ _ _ Hl) as [Ht Hres].
    + eexists. eexists. split.
      * unfold CreateCreditNoteTool_normalizing, bind at 1, callWorld.
        rewrite Hh, He. unfold bind at 1. rewrite Hr.
        unfold deref at 1, ret at 1.
        unfold bind at 1. cbn [world trace attachmentResults]. rewrite Hl.
        reflexivity.
      * now apply skipped_by_throw.
    + eexists. eexists. split.
      * apply (CreateCreditNoteTool_normalizing_run env args m m2 _ cn link).
        { exists w1, result. repeat split; assumption. }
        rewrite (shouldAttach_false CreditNote.creditNoteID result cn _ Hno He Hr).
        reflexivity.
      * apply (skipped_report "Error creating credit note: "
                 (creditNoteFields env) true result cn link m m2 He Hr Ht).
        repeat constructor.
Qed.

Lemma attachments_skipped_unless_created_witness :
  ~ mayAttach BankTransaction.bankTransactionID
      (inr (Demo.err (T := BankTransaction.t) "Contact not found"))
      (Some Demo.threeFiles) /\
  (exists m' r,
     CreateBankTransactionTool Demo.env
       (Demo.bankArgs "nobody" (Some Demo.threeFiles)) Demo.machine = (m', r) /\
     AttachmentsSkipped "Error creating bank transaction: "
       (bankTransactionFields Demo.env) true
       (inr (Demo.err (T := BankTransaction.t) "Contact not found"))
       Demo.machine m' r) /\
  ~ mayAttach CreditNote.creditNoteID
      (inr (Demo.ok Demo.sampleCreditNote)) (@None (list InlineAttachment.t)) /\
  (exists m' r,
     CreateCreditNoteTool Demo.env (Demo.creditNoteArgs "contact-1" None)
       Demo.machine = (m', r) /\
     AttachmentsSkipped "Error creating credit note: "
       (creditNoteFields Demo.env) true
       (inr (Demo.ok Demo.sampleCreditNote)) Demo.machine m' r).
Proof.
  assert (H1 : ~ mayAttach BankTransaction.bankTransactionID
                   (inr (Demo.err (T := BankTransaction.t) "Contact not found"))
                   (Some Demo.threeFiles)).
  { intros (result & entity & Ho & He & _). injection Ho as <-. discriminate He. }
  assert (H2 : ~ mayAttach CreditNote.creditNoteID
                   (inr (Demo.ok Demo.sampleCreditNote))
                   (@None (list InlineAttachment.t))).
  { intros (result & entity & _ & _ & _ & _ & a & l & Ha). discriminate Ha. }
  split; [exact H1|]. split; [|split; [exact H2|]].
  - apply (proj1 (attachments_skipped_unless_created
                    Demo.World Demo.env Scenario.more)
             (Demo.bankArgs "nobody" (Some Demo.threeFiles)) Demo.machine
             (world Demo.machine) (inr (Demo.err "Contact not found")));
      [reflexivity | exact H1].
  - apply (proj1 (proj2 (attachments_skipped_unless_created
                           Demo.World Demo.env Scenario.more))
             (Demo.creditNoteArgs "contact-1" None) Demo.machine
             (world Demo.machine) (inr (Demo.ok Demo.sampleCreditNote)));
      [reflexivity | exact H2].
Defined.

(** ** The scenarios of the specification, run on the concrete world *)

(** Three attachments, the second upload rejected: three results in input
    order, the second [failed], and the bank transaction still reported. *)
Example partial_failure_scenario :
  CreateBankTransactionTool Demo.env
    (Demo.bankArgs "contact-1" (Some Demo.threeFiles)) Demo.machine =
    (mkMachine (Demo.mkWorld 3 (Some "!abc"))
       [ RemoteAttach (createBankTransactionAttachmentByFileName "tenant-1" "bt-1"
                         "a.pdf" [Byte.x41; Byte.x42; Byte.x43]) None;
         RemoteAttach (createBankTransactionAttachmentByFileName "tenant-1" "bt-1"
                         "b.pdf" [Byte.x41; Byte.x42; Byte.x43])
                      (Some (newError "Request failed with status code 400"));
         ConsoleError "Attachment failed for b.pdf:";
         RemoteAttach (createBankTransactionAttachmentByFileName "tenant-1" "bt-1"
                         "c.pdf" [Byte.x41; Byte.x42]) None ]
       [ AttachmentUploadResult.mk "a.pdf" success None;
         AttachmentUploadResult.mk "b.pdf" failed
           (Some "Request failed with status code 400");
         AttachmentUploadResult.mk "c.pdf" success None ],
     inr (textResponse
            (join LF
               [ Some "Bank transaction successfully:";
                 Some "ID: bt-1";
                 Some "Date: 2024-05-01";
                 Some "Contact: ACME";
                 Some "Total: 120";
                 Some "Status: AUTHORISED";
                 Some "Attachments: a.pdf (success), b.pdf (failed), c.pdf (success)";
                 Some "Link to view: https://go.xero.com/app/!abc/bank/acc-1/bt-1" ]))).
Proof. reflexivity. Qed.

(** No attachments: the response has the entity's fields and the link, and
    no "Attachments:" line. *)
Example no_attachments_scenario :
  CreateCreditNoteTool Demo.env (Demo.creditNoteArgs "contact-1" None) Demo.machine =
    (Demo.machine,
     inr (textResponse
            (join LF
               [ Some "Credit note created successfully:";
                 Some "ID: cn-1";
                 Some "Contact: ACME";
                 Some "Total: 120";
                 Some "Status: DRAFT";
                 Some "Link to view: https://go.xero.com/app/!abc/invoicing/view/cn-1" ]))).
Proof. reflexivity. Qed.

(** The lines of that text, as [split] gives them: none starts with
    "Attachments:". *)
Example no_attachments_scenario_lines :
  splitLines
    (join LF
       [ Some "Credit note created successfully:";
         Some "ID: cn-1";
         Some "Contact: ACME";
         Some "Total: 120";
         Some "Status: DRAFT";
         Some "Link to view: https://go.xero.com/app/!abc/invoicing/view/cn-1" ])
  = [ "Credit note created successfully:";
      "ID: cn-1";
      "Contact: ACME";
      "Total: 120";
      "Status: DRAFT";
      "Link to view: https://go.xero.com/app/!abc/invoicing/view/cn-1" ] /\
  hasAttachmentsLine
    (join LF
       [ Some "Credit note created successfully:";
         Some "ID: cn-1";
         Some "Contact: ACME";
         Some "Total: 120";
         Some "Status: DRAFT";
         Some "Link to view: https://go.xero.com/app/!abc/invoicing/view/cn-1" ])
  = false /\
  hasAttachmentsLine
    (join LF
       [ Some "Bank transaction successfully:";
         Some "ID: bt-1";
         Some "Attachments: a.pdf (success), b.pdf (failed), c.pdf (success)";
         Some "Link to view: https://go.xero.com/app/!abc/bank/acc-1/bt-1" ])
  = true.
Proof. repeat split. Qed.

(** [UpdateInvoiceTool] joins its lines without filtering: a skipped
    attachment line leaves an empty line, not an "Attachments:" line. *)
Example update_invoice_without_attachments :
  UpdateInvoiceTool Demo.env (Demo.invoiceArgs "inv-1" None) Demo.machine =
    (Demo.machine,
     inr (textResponse
            (join LF
               [ Some "Invoice updated successfully:";
                 Some "ID: inv-1";
                 Some "Contact: ACME";
                 Some "Type: ACCREC";
                 Some "Reference: None";
                 Some "Total: 120";
                 Some "Status: DRAFT";
                 None;
                 Some "Link to view: https://go.xero.com/app/!abc/invoicing/view/inv-1" ]))).
Proof. reflexivity. Qed.

(** * Further properties *)

(** ** File Loader *)

(** A regular file of at most 10 MiB, the limit itself included, is
    loaded: one [stat] and then one [readFile], both on the resolved path;
    the result is the encoded content, the base name of the resolved path
    and the MIME type inferred from that name. *)
Theorem fileToBase64_loads_files_up_to_the_limit :
  forall World (env : Collaborators World) (filePath : string)
         (m : Machine World) (w1 w2 : World) (stats : Stats.t) (buffer : Buffer),
    fs_stat env (resolve env filePath) (world m) = (w1, inr stats) ->
    Stats.isFile stats = true ->
    (Stats.size stats <= 10 * 1024 * 1024)%N ->
    fs_readFile env (resolve env filePath) w1 = (w2, inr buffer) ->
    fileToBase64 env filePath m =
      (mkMachine w2
         (trace m ++ [FsStat (resolve env filePath); FsReadFile (resolve env filePath)])
         (attachmentResults m),
       inr (FileToBase64Result.mk
              (toBase64 env buffer)
              (detectMimeType env (basename env (resolve env filePath)))
              (basename env (resolve env filePath)))).
Proof.
  intros World env filePath m w1 w2 stats buffer Hstat Hfile Hsize Hread.
  unfold fileToBase64, tryCatch, fileToBase64_try, stat, readFile. run_monad.
  rewrite Hstat. simpl. rewrite Hfile. simpl.
  assert (Hfits : (MAX_FILE_SIZE <? Stats.size stats)%N = false).
  { apply N.ltb_ge. exact Hsize. }
  rewrite Hfits. simpl. rewrite Hread. simpl.
  now rewrite <- app_assoc.
Qed.

Lemma fileToBase64_loads_files_up_to_the_limit_witness :
  Scenario.stat "/tmp/limit.bin" (world Demo.machine)
    = (world Demo.machine, inr (Stats.mk true (10 * 1024 * 1024))) /\
  fileToBase64 (Scenario.env true) "/tmp/limit.bin" Demo.machine =
    (mkMachine (world Demo.machine)
       [FsStat "/tmp/limit.bin"; FsReadFile "/tmp/limit.bin"] [],
     inr (FileToBase64Result.mk "QUI=" "application/octet-stream" "limit.bin")).
Proof.
  split; [reflexivity|].
  apply (fileToBase64_loads_files_up_to_the_limit Demo.World (Scenario.env true)
           "/tmp/limit.bin" Demo.machine (world Demo.machine) (world Demo.machine)
           (Stats.mk true 10485760) [Byte.x41; Byte.x42]);
    reflexivity || (vm_compute; discriminate).
Defined.

(** What is not a regular file is refused before its size is looked at and
    without being read, whatever its size: the error names the path as the
    caller gave it. *)
Theorem fileToBase64_refuses_non_files_first :
  forall World (env : Collaborators World) (filePath : string)
         (m : Machine World) (w1 : World) (stats : Stats.t),
    fs_stat env (resolve env filePath) (world m) = (w1, inr stats) ->
    Stats.isFile stats = false ->
    fileToBase64 env filePath m =
      (mkMachine w1 (trace m ++ [FsStat (resolve env filePath)]) (attachmentResults m),
       inl (newError ("Path is not a file: " ++ filePath))).
Proof.
  intros World env filePath m w1 stats Hstat Hfile.
  unfold fileToBase64, tryCatch.
  rewrite (fileToBase64_try_not_a_file env filePath m w1 stats Hstat Hfile).
  unfold fileToBase64_catch, newError, codeIs.
  assert (Hkept : includes "not a file" ("Path is not a file: " ++ filePath) = true).
  { apply (includes_after "not a file" "Path is " (": " ++ filePath)). }
  rewrite Hkept. now rewrite orb_true_r.
Qed.

Lemma fileToBase64_refuses_non_files_first_witness :
  Scenario.stat "/tmp/bigdir" (world Demo.machine)
    = (world Demo.machine, inr (Stats.mk false 20000000)) /\
  fileToBase64 (Scenario.env true) "/tmp/bigdir" Demo.machine =
    (mkMachine (world Demo.machine) [FsStat "/tmp/bigdir"] [],
     inl (newError "Path is not a file: /tmp/bigdir")).
Proof.
  split; [reflexivity|].
  apply (fileToBase64_refuses_non_files_first Demo.World (Scenario.env true)
           "/tmp/bigdir" Demo.machine (world Demo.machine)
           (Stats.mk false 20000000));
    reflexivity.
Defined.

Lemma roundMiB_just_over_the_limit (size : N) :
  (10485760 < size)%N -> (size < 11010048)%N -> roundMiB size = 10%N.
Proof.
  intros Hlo Hhi. unfold roundMiB.
  symmetry. apply (N.div_unique _ _ _ (size + 524288 - 10485760)%N); lia.
Qed.

(** The size in the "File too large" message is rounded to whole MiB: for
    every file over the limit but under 10.5 MiB the message reads
    "File too large: 10MB (max: 10MB)". *)
Theorem fileToBase64_too_large_message_rounds_down_to_the_limit :
  forall World (env : Collaborators World) (filePath : string)
         (m : Machine World) (w1 : World) (stats : Stats.t),
    fs_stat env (resolve env filePath) (world m) = (w1, inr stats) ->
    Stats.isFile stats = true ->
    (10 * 1024 * 1024 < Stats.size stats)%N ->
    (Stats.size stats < 10 * 1024 * 1024 + 512 * 1024)%N ->
    fileToBase64 env filePath m =
      (mkMachine w1 (trace m ++ [FsStat (resolve env filePath)]) (attachmentResults m),
       inl (newError "File too large: 10MB (max: 10MB)")).
Proof.
  intros World env filePath m w1 stats Hstat Hfile Hlo Hhi.
  unfold fileToBase64, tryCatch.
  rewrite (fileToBase64_try_too_large env filePath m w1 stats Hstat Hfile Hlo).
  rewrite (roundMiB_just_over_the_limit (Stats.size stats) Hlo Hhi).
  reflexivity.
Qed.

Lemma fileToBase64_too_large_message_rounds_down_to_the_limit_witness :
  Scenario.stat "/tmp/over.bin" (world Demo.machine)
    = (world Demo.machine, inr (Stats.mk true 10485761)) /\
  fileToBase64 (Scenario.env true) "/tmp/over.bin" Demo.machine =
    (mkMachine (world Demo.machine) [FsStat "/tmp/over.bin"] [],
     inl (newError "File too large: 10MB (max: 10MB)")).
Proof.
  split; [reflexivity|].
  apply (fileToBase64_too_large_message_rounds_down_to_the_limit
           Demo.World (Scenario.env true) "/tmp/over.bin" Demo.machine
           (world Demo.machine) (Stats.mk true 10485761));
    reflexivity.
Defined.

(** ** Attachment Normalizer *)

Section FurtherNormalizerFacts.

Context {World : Type} (env : Collaborators World).

Lemma truthy_str (o : option string) :
  truthy o = true -> o = Some (str o) /\ str o <> "".
Proof.
  destruct o as [s|]; simpl; [|discriminate].
  intros H. split; [reflexivity|]. intros ->. discriminate.
Qed.

(** The outcomes of one iteration of the normalizer's loop. *)
Lemma processItem_inv a (m m' : Machine World) r :
  processItem env a m = (m', r) ->
  match r with
  | inr p => Normalized env a p /\
             (truthy (AttachmentInput.filePath a) = false -> m' = m)
  | inl e =>
      (truthy (AttachmentInput.filePath a) = true /\
       exists u,
         fileToBase64 env (str (AttachmentInput.filePath a)) m = (m', inl u) /\
         e = newError (PROCESS_PREFIX ++ errorMessage u)) \/
      (truthy (AttachmentInput.filePath a) = false /\ m' = m /\
       ((truthy (AttachmentInput.base64Content a) = true /\
         truthy (AttachmentInput.fileName a) = false /\
         e = newError (PROCESS_PREFIX ++ MISSING_FILE_NAME)) \/
        (truthy (AttachmentInput.base64Content a) = false /\
         e = newError (PROCESS_PREFIX ++ MISSING_SOURCE))))
  end.
Proof.
  unfold processItem, tryCatch.
  destruct (truthy (AttachmentInput.filePath a)) eqn:Hp.
  - destruct (fileToBase64 env (str (AttachmentInput.filePath a)) m)
      as [m1 [u|fd]] eqn:Hload;
      rewrite (processItem_try_by_path env a m m1 _ Hp Hload).
    + unfold throw. intros H. injection H as <- <-.
      left. split; [reflexivity|]. now exists u.
    + intros H. injection H as <- <-.
      destruct (fileToBase64_ok_shape env _ _ _ _ Hload) as [Hname Hmime].
      unfold Normalized. rewrite Hp. simpl. rewrite Hname, Hmime.
      repeat split. discriminate.
  - destruct (truthy (AttachmentInput.base64Content a)) eqn:Hc.
    + destruct (truthy (AttachmentInput.fileName a)) eqn:Hn.
      * rewrite (processItem_try_by_content env a m Hp Hc Hn).
        intros H. injection H as <- <-.
        destruct (truthy_str _ Hc) as [Hc1 Hc2].
        destruct (truthy_str _ Hn) as [Hn1 Hn2].
        unfold Normalized. rewrite Hp. simpl. repeat split; assumption.
      * rewrite (processItem_try_missing_name env a m Hp Hc Hn).
        unfold throw. intros H. injection H as <- <-.
        right. repeat split. left. repeat split.
    + rewrite (processItem_try_missing_source env a m Hp Hc).
      unfold throw. intros H. injection H as <- <-.
      right. repeat split. right. repeat split.
Qed.

Lemma processLoop_shape l : forall acc (m m' : Machine World) ps,
  processLoop env l acc m = (m', inr ps) ->
  exists ps', ps = (acc ++ ps')%list /\ Forall2 (Normalized env) l ps'.
Proof.
  induction l as [|a l IH]; intros acc m m' ps H.
  - simpl in H. injection H as _ <-. exists []. rewrite app_nil_r. now split.
  - simpl in H. unfold bind in H.
    destruct (processItem env a m) as [m1 [e|p]] eqn:Hi; [discriminate|].
    apply processItem_inv in Hi. destruct Hi as [Hn _].
    apply IH in H. destruct H as (ps' & -> & Hall).
    exists (p :: ps'). rewrite <- app_assoc. split; [reflexivity|].
    now constructor.
Qed.

Lemma schema_accepts a :
  attachmentSchema a = [] ->
  truthy (AttachmentInput.filePath a) = false ->
  truthy (AttachmentInput.base64Content a) = true /\
  truthy (AttachmentInput.fileName a) = true.
Proof.
  unfold attachmentSchema. intros H Hp. rewrite Hp in H. simpl in H.
  destruct (truthy (AttachmentInput.base64Content a)); simpl in H; [|discriminate].
  destruct (truthy (AttachmentInput.fileName a)); simpl in H; [|discriminate].
  now split.
Qed.

Lemma processLoop_valid_fails l : forall acc (m m' : Machine World) e,
  Forall (fun a => attachmentSchema a = []) l ->
  processLoop env l acc m = (m', inl e) ->
  exists a m1 u,
    In a l /\
    truthy (AttachmentInput.filePath a) = true /\
    fileToBase64 env (str (AttachmentInput.filePath a)) m1 = (m', inl u) /\
    e = newError (PROCESS_PREFIX ++ errorMessage u).
Proof.
  induction l as [|a l IH]; intros acc m m' e Hvalid H; [discriminate|].
  inversion Hvalid as [|? ? Ha Hl]; subst.
  simpl in H. unfold bind in H.
  destruct (processItem env a m) as [m1 [e1|p]] eqn:Hi.
  - injection H as <- <-. apply processItem_inv in Hi.
    destruct Hi as [(Hp & u & Hload & ->) | (Hp & _ & Hlate)].
    + exists a, m, u. repeat split; try assumption. now left.
    + exfalso. destruct (schema_accepts a Ha Hp) as [Hc Hn].
      destruct Hlate as [(_ & Hn' & _) | (Hc' & _)]; congruence.
  - destruct (IH _ _ _ _ Hl H) as (b & m2 & u & Hin & Hp & Hload & He).
    exists b, m2, u. repeat split; try assumption. now right.
Qed.

(** Inputs without a usable [filePath] are processed without any call:
    the machine is left as it was. *)
Lemma processLoop_inline l : forall acc (m : Machine World),
  Forall namedWithContent l ->
  processLoop env (map InlineAttachment.asInput l) acc m =
    (m, inr (acc ++ map (normalizedInline env) l)%list).
Proof.
  induction l as [|a l IH]; intros acc m Hall.
  - simpl. now rewrite app_nil_r.
  - inversion Hall as [|? ? [Hn Hc] Hl]; subst.
    simpl. unfold bind, processItem, tryCatch.
    rewrite (processItem_try_by_content env (InlineAttachment.asInput a) m).
    + rewrite (IH _ _ Hl). rewrite <- app_assoc. reflexivity.
    + reflexivity.
    + simpl. destruct (InlineAttachment.base64Content a =? "") eqn:E;
        [apply String.eqb_eq in E; contradiction | reflexivity].
    + simpl. destruct (InlineAttachment.fileName a =? "") eqn:E;
        [apply String.eqb_eq in E; contradiction | reflexivity].
Qed.

(** The loader and the normalizer add no remote call to the trace. *)
Lemma fileToBase64_attachEvents filePath (m : Machine World) :
  attachEvents (trace (fst (fileToBase64 env filePath m))) = attachEvents (trace m).
Proof.
  assert (Htry : attachEvents (trace (fst (fileToBase64_try env filePath m)))
                 = attachEvents (trace m)).
  { unfold fileToBase64_try, stat, readFile. run_monad.
    destruct (fs_stat env (resolve env filePath) (world m)) as [w1 [u|stats]]; simpl.
    - rewrite attachEvents_app. simpl. apply app_nil_r.
    - destruct (Stats.isFile stats); simpl;
        [|rewrite attachEvents_app; simpl; apply app_nil_r].
      destruct (MAX_FILE_SIZE <? Stats.size stats)%N; simpl;
        [rewrite attachEvents_app; simpl; apply app_nil_r|].
      destruct (fs_readFile env (resolve env filePath) w1) as [w2 [u|buffer]]; simpl;
        rewrite !attachEvents_app; simpl; now rewrite !app_nil_r. }
  unfold fileToBase64, tryCatch.
  destruct (fileToBase64_try env filePath m) as [m2 [u|r]]; [|exact Htry].
  destruct (fileToBase64_catch_throws filePath u m2) as [e ->]. exact Htry.
Qed.

Lemma processItem_attachEvents a (m : Machine World) :
  attachEvents (trace (fst (processItem env a m))) = attachEvents (trace m).
Proof.
  unfold processItem, tryCatch, processItem_try.
  destruct (truthy (AttachmentInput.filePath a)).
  - unfold bind.
    pose proof (fileToBase64_attachEvents (str (AttachmentInput.filePath a)) m) as H.
    destruct (fileToBase64 env (str (AttachmentInput.filePath a)) m) as [m1 [u|fd]];
      exact H.
  - destruct (truthy (AttachmentInput.base64Content a)); [|reflexivity].
    destruct (truthy (AttachmentInput.fileName a)); reflexivity.
Qed.

Lemma processLoop_attachEvents l : forall acc (m : Machine World),
  attachEvents (trace (fst (processLoop env l acc m))) = attachEvents (trace m).
Proof.
  induction l as [|a l IH]; intros acc m; [reflexivity|].
  simpl. unfold bind.
  pose proof (processItem_attachEvents a m) as H.
  destruct (processItem env a m) as [m1 [u|p]]; simpl in *; [exact H|].
  now rewrite IH.
Qed.

Lemma processAttachments_attachEvents l (m : Machine World) :
  attachEvents (trace (fst (processAttachments env l m))) = attachEvents (trace m).
Proof.
  destruct l as [[|a l]|]; try reflexivity.
  apply (processLoop_attachEvents (a :: l)).
Qed.

End FurtherNormalizerFacts.

(** Behind the schema the normalizer's own checks never fire: when every
    input of a batch is accepted by [attachmentSchema], a failure of
    [processAttachments] is always the failure of the file loader on one of
    the by-path inputs, behind the prefix. *)
Theorem schema_valid_batches_fail_only_in_the_loader :
  forall World (env : Collaborators World) (l : list AttachmentInput.t)
         (m m' : Machine World) (e : Thrown),
    Forall (fun a => attachmentSchema a = []) l ->
    processAttachments env (Some l) m = (m', inl e) ->
    exists a m1 u,
      In a l /\
      truthy (AttachmentInput.filePath a) = true /\
      fileToBase64 env (str (AttachmentInput.filePath a)) m1 = (m', inl u) /\
      e = newError ("Failed to process attachment: " ++ errorMessage u).
Proof.
  intros World env l m m' e Hvalid H.
  destruct l as [|a l]; [discriminate|].
  exact (processLoop_valid_fails env (a :: l) [] m m' e Hvalid H).
Qed.

Lemma schema_valid_batches_fail_only_in_the_loader_witness :
  Forall (fun a => attachmentSchema a = []) [Demo.byContent; Scenario.missingFile] /\
  exists a m1 u,
    In a [Demo.byContent; Scenario.missingFile] /\
    truthy (AttachmentInput.filePath a) = true /\
    fileToBase64 Demo.env (str (AttachmentInput.filePath a)) m1
      = (mkMachine (world Demo.machine) [FsStat "/tmp/nope"] [], inl u) /\
    newError "Failed to process attachment: File not found: /tmp/nope"
      = newError ("Failed to process attachment: " ++ errorMessage u).
Proof.
  assert (Hvalid : Forall (fun a => attachmentSchema a = [])
                     [Demo.byContent; Scenario.missingFile]).
  { repeat constructor. }
  split; [exact Hvalid|].
  apply (schema_valid_batches_fail_only_in_the_loader Demo.World Demo.env
           [Demo.byContent; Scenario.missingFile] Demo.machine
           (mkMachine (world Demo.machine) [FsStat "/tmp/nope"] [])
           (newError "Failed to process attachment: File not found: /tmp/nope")
           Hvalid).
  reflexivity.
Defined.

(** A batch that [processAttachments] returns has one processed attachment
    per input, in input order: for a by-path input the overrides or the
    values derived from the base name of the resolved path, for a
    by-content input the name and the content as given, both non-empty. *)
Theorem processAttachments_returns_one_attachment_per_input :
  forall World (env : Collaborators World) (l : list AttachmentInput.t)
         (m m' : Machine World) (ps : list ProcessedAttachment.t),
    processAttachments env (Some l) m = (m', inr ps) ->
    length ps = length l /\ Forall2 (Normalized env) l ps.
Proof.
  intros World env l m m' ps H.
  assert (Hall : Forall2 (Normalized env) l ps).
  { destruct l as [|a l].
    - simpl in H. injection H as _ <-. constructor.
    - destruct (processLoop_shape env (a :: l) [] m m' ps H) as (ps' & -> & Hall).
      exact Hall. }
  split; [|exact Hall].
  symmetry. exact (Forall2_length Hall).
Qed.

Lemma processAttachments_returns_one_attachment_per_input_witness :
  processAttachments Demo.env (Some [Demo.byPathOverridden; Demo.byContent])
    Demo.machine
    = (mkMachine (world Demo.machine) [FsStat "/tmp/a.pdf"; FsReadFile "/tmp/a.pdf"] [],
       inr [ProcessedAttachment.mk "scan.bin" "text/plain" "QUJD"; Demo.aPdf]) /\
  length [ProcessedAttachment.mk "scan.bin" "text/plain" "QUJD"; Demo.aPdf]
    = length [Demo.byPathOverridden; Demo.byContent] /\
  Forall2 (Normalized Demo.env) [Demo.byPathOverridden; Demo.byContent]
    [ProcessedAttachment.mk "scan.bin" "text/plain" "QUJD"; Demo.aPdf].
Proof.
  split; [reflexivity|].
  apply (processAttachments_returns_one_attachment_per_input Demo.World Demo.env
           [Demo.byPathOverridden; Demo.byContent] Demo.machine
           (mkMachine (world Demo.machine)
              [FsStat "/tmp/a.pdf"; FsReadFile "/tmp/a.pdf"] [])).
  reflexivity.
Defined.

(** Inline attachments that have a name and some content always
    normalize, and without any call: the machine (world, trace, results)
    is left as it was, and each attachment keeps its name and content, its
    MIME type being the override or the inference from its name. *)
Theorem processAttachments_inline_needs_no_io :
  forall World (env : Collaborators World) (l : list InlineAttachment.t)
         (m : Machine World),
    Forall namedWithContent l ->
    processAttachments env (Some (map InlineAttachment.asInput l)) m =
      (m, inr (map (normalizedInline env) l)).
Proof.
  intros World env l m Hall.
  destruct l as [|a l]; [reflexivity|].
  exact (processLoop_inline env (a :: l) [] m Hall).
Qed.

Lemma processAttachments_inline_needs_no_io_witness :
  Forall namedWithContent Demo.threeFiles /\
  processAttachments Demo.env (Some (map InlineAttachment.asInput Demo.threeFiles))
    Demo.machine = (Demo.machine, inr Demo.threeProcessed).
Proof.
  assert (Hall : Forall namedWithContent Demo.threeFiles).
  { repeat constructor; discriminate. }
  split; [exact Hall|].
  exact (processAttachments_inline_needs_no_io Demo.World Demo.env
           Demo.threeFiles Demo.machine Hall).
Defined.

(** No attachment is uploaded unless the whole batch normalized.
    [processAttachments] itself never makes a remote call; and when it
    fails, the attachment block of a tool ends without a single upload
    call, also for the inputs that had been processed, holding the one
    "unknown" entry. *)
Theorem nothing_is_uploaded_when_normalization_fails :
  forall World (env : Collaborators World)
         (endpoint : string -> string -> Buffer -> AttachCall)
         (attachments : list AttachmentInput.t) (m m1 : Machine World) (e : Thrown),
    processAttachments env (Some attachments) m = (m1, inl e) ->
    exists m',
      normalizeAndUpload env endpoint attachments m = (m', inr tt) /\
      attachEvents (trace m') = attachEvents (trace m) /\
      world m' = world m1 /\
      attachmentResults m' = (attachmentResults m ++ [unknownResult e])%list.
Proof.
  intros World env endpoint attachments m m1 e H.
  eexists. split; [exact (normalizeAndUpload_fails env endpoint _ _ _ _ H)|].
  simpl. repeat split.
  rewrite attachEvents_app. simpl. rewrite app_nil_r.
  pose proof (processAttachments_attachEvents env (Some attachments) m) as Hk.
  now rewrite H in Hk.
Qed.

Lemma nothing_is_uploaded_when_normalization_fails_witness :
  processAttachments Demo.env (Some [Demo.byContent; Scenario.missingFile]) Demo.machine
    = (mkMachine (world Demo.machine) [FsStat "/tmp/nope"] [],
       inl (newError "Failed to process attachment: File not found: /tmp/nope")) /\
  exists m',
    normalizeAndUpload Demo.env
      (fun tid fileName body =>
         createInvoiceAttachmentByFileName tid "inv-1" fileName body true)
      [Demo.byContent; Scenario.missingFile] Demo.machine = (m', inr tt) /\
    attachEvents (trace m') = attachEvents (trace Demo.machine) /\
    world m' = world Demo.machine /\
    attachmentResults m' =
      [unknownResult
         (newError "Failed to process attachment: File not found: /tmp/nope")].
Proof.
  split; [reflexivity|].
  apply (nothing_is_uploaded_when_normalization_fails Demo.World Demo.env
           (fun tid fileName body =>
              createInvoiceAttachmentByFileName tid "inv-1" fileName body true)
           [Demo.byContent; Scenario.missingFile] Demo.machine
           (mkMachine (world Demo.machine) [FsStat "/tmp/nope"] [])).
  reflexivity.
Defined.

(** ** Upload loop and attachment block *)

Lemma fsEvents_app (t1 t2 : list Event) :
  fsEvents (t1 ++ t2) = (fsEvents t1 ++ fsEvents t2)%list.
Proof.
  induction t1 as [|ev t1 IH]; [reflexivity|].
  destruct ev; simpl; now rewrite IH.
Qed.

Section FurtherUploadFacts.

Context {World : Type} (env : Collaborators World).

Lemma uploadLoop_fsEvents {A} (fileNameOf base64Of : A -> string) endpoint l :
  forall m : Machine World,
    fsEvents (trace (fst (uploadLoop env fileNameOf base64Of endpoint l m)))
      = fsEvents (trace m).
Proof.
  induction l as [|a l IH]; intros m; [reflexivity|].
  destruct (uploadOne_run env endpoint (fileNameOf a) (base64Of a) m)
    as (w1 & threw & Hone).
  cbv zeta in Hone. simpl. unfold bind. rewrite Hone. rewrite IH. simpl.
  rewrite fsEvents_app. simpl.
  destruct threw; simpl; apply app_nil_r.
Qed.

(** Inputs without a usable [filePath] leave the machine as it was,
    whether they are processed or refused. *)
Lemma processLoop_pathless l : forall acc (m : Machine World),
  Forall (fun a => truthy (AttachmentInput.filePath a) = false) l ->
  fst (processLoop env l acc m) = m.
Proof.
  induction l as [|a l IH]; intros acc m Hall; [reflexivity|].
  inversion Hall as [|? ? Ha Hl]; subst.
  simpl. unfold bind.
  destruct (processItem env a m) as [m1 [e|p]] eqn:Hi;
    apply processItem_inv in Hi; simpl.
  - destruct Hi as [(Hp & _) | (_ & Hm & _)]; [congruence | exact Hm].
  - destruct Hi as [_ Hm]. rewrite (Hm Ha). now apply IH.
Qed.

Lemma inline_inputs_pathless (l : list InlineAttachment.t) :
  Forall (fun a => truthy (AttachmentInput.filePath a) = false)
         (map InlineAttachment.asInput l).
Proof. induction l; constructor; auto. Qed.

Lemma normalizeAndUpload_inline_fsEvents endpoint (l : list InlineAttachment.t)
      (m : Machine World) :
  fsEvents (trace (fst (normalizeAndUpload env endpoint
                          (map InlineAttachment.asInput l) m)))
    = fsEvents (trace m).
Proof.
  unfold normalizeAndUpload, tryCatch, bind.
  assert (Hm : fst (processAttachments env
                      (Some (map InlineAttachment.asInput l)) m) = m).
  { destruct l as [|a l]; [reflexivity|].
    apply (processLoop_pathless (map InlineAttachment.asInput (a :: l)) [] m).
    apply inline_inputs_pathless. }
  destruct (processAttachments env (Some (map InlineAttachment.asInput l)) m)
    as [m1 [e|processed]]; simpl in Hm; subst m1.
  - run_monad. rewrite fsEvents_app. simpl. apply app_nil_r.
  - pose proof (uploadLoop_fsEvents ProcessedAttachment.fileName
                  ProcessedAttachment.base64Content endpoint processed m) as H.
    destruct (uploadLoop_run env ProcessedAttachment.fileName
                ProcessedAttachment.base64Content endpoint processed m)
      as (m2 & _ & _ & Hrun & _).
    rewrite Hrun in *. exact H.
Qed.

(** The attachment block ends with one result per attachment, or with the
    single "unknown" entry. *)
Lemma normalizeAndUpload_results endpoint attachments (m : Machine World) :
  exists m' results,
    normalizeAndUpload env endpoint attachments m = (m', inr tt) /\
    attachmentResults m' = (attachmentResults m ++ results)%list /\
    (length results = length attachments \/
     exists e, results = [unknownResult e]).
Proof.
  destruct (processAttachments env (Some attachments) m) as [m1 [e|processed]] eqn:H.
  - eexists. exists [unknownResult e]. split; [|split].
    + exact (normalizeAndUpload_fails env endpoint _ _ _ _ H).
    + reflexivity.
    + right. now exists e.
  - destruct (normalizeAndUpload_uploads env endpoint _ _ _ _ H)
      as (m' & calls & results & Hrun & _ & Hres & (_ & Hlen & _)).
    exists m', results. split; [exact Hrun|]. split; [exact Hres|].
    left. rewrite Hlen.
    destruct attachments as [|a l].
    + simpl in H. now injection H as _ <-.
    + destruct (processLoop_shape env (a :: l) [] m m1 processed H)
        as (ps' & -> & Hall).
      symmetry. exact (Forall2_length Hall).
Qed.

End FurtherUploadFacts.

(** In the tools that normalize first, the attachment block never throws
    and leaves either exactly one result per input attachment or exactly
    one entry named "unknown": partial results of a batch that failed to
    normalize do not exist. *)
Theorem attachment_block_reports_every_attachment_or_unknown :
  forall World (env : Collaborators World)
         (endpoint : string -> string -> Buffer -> AttachCall)
         (attachments : list AttachmentInput.t) (m : Machine World),
    exists m' results,
      normalizeAndUpload env endpoint attachments m = (m', inr tt) /\
      attachmentResults m' = (attachmentResults m ++ results)%list /\
      (length results = length attachments \/
       exists e, results = [unknownResult e]).
Proof.
  intros World env endpoint attachments m.
  apply normalizeAndUpload_results.
Qed.

(** The converse of the skip: in [CreateBankTransactionTool], when the
    bank transaction was created with a non-empty identifier and a
    non-empty attachment list was given, the result array is never empty
    and the response always has its "Attachments:" line, whatever the
    normalizer and the uploads do. *)
Theorem attachments_line_present_when_attachments_were_given :
  forall World (env : Collaborators World) args (m m2 : Machine World) bt link,
    bankTransactionCreated env args m bt link m2 ->
    shouldAttach (CreateBankTransactionArgs.attachments args)
                 (BankTransaction.bankTransactionID bt) = true ->
    exists m' r results,
      CreateBankTransactionTool env args m =
        (m', inr (textResponse
                    (join LF (filterBoolean
                       (bankTransactionFields env bt
                          ++ [attachmentsLine (r :: results);
                              deepLinkLine link]))))) /\
      attachmentResults m' = r :: results /\
      isAttachmentsLine (attachmentsLine (r :: results)) = true.
Proof.
  intros World env args m m2 bt link Hcreated Hguard.
  rewrite (CreateBankTransactionTool_after_success env args m m2 bt link Hcreated).
  destruct (CreateBankTransactionArgs.attachments args) as [[|a l]|] eqn:Hatts;
    try discriminate.
  destruct (normalizeAndUpload_results env
              (fun tid => createBankTransactionAttachmentByFileName tid
                            (str (BankTransaction.bankTransactionID bt)))
              (map InlineAttachment.asInput (a :: l))
              (mkMachine (world m2) (trace m2) []))
    as (m' & results & Hrun & Hres & Hcount).
  simpl in Hres.
  assert (Hne : exists r rest, results = r :: rest).
  { destruct results as [|r rest]; [|now exists r, rest].
    destruct Hcount as [Hlen | [e He]]; discriminate. }
  destruct Hne as (r & rest & ->).
  exists m', r, rest. split; [|split].
  - rewrite <- Hres. apply bankTransactionReport_run. now rewrite Hguard.
  - exact Hres.
  - reflexivity.
Qed.

Lemma attachments_line_present_when_attachments_were_given_witness :
  bankTransactionCreated Demo.env (Demo.bankArgs "contact-1" (Some Demo.namelessFile))
    Demo.machine Demo.sampleBankTransaction Demo.bankLink Demo.machine /\
  exists m' r results,
    CreateBankTransactionTool Demo.env
      (Demo.bankArgs "contact-1" (Some Demo.namelessFile)) Demo.machine =
      (m', inr (textResponse
                  (join LF (filterBoolean
                     (bankTransactionFields Demo.env Demo.sampleBankTransaction
                        ++ [attachmentsLine (r :: results);
                            deepLinkLine Demo.bankLink]))))) /\
    attachmentResults m' = r :: results /\
    isAttachmentsLine (attachmentsLine (r :: results)) = true.
Proof.
  assert (Hcreated :
    bankTransactionCreated Demo.env (Demo.bankArgs "contact-1" (Some Demo.namelessFile))
      Demo.machine Demo.sampleBankTransaction Demo.bankLink Demo.machine).
  { exists (world Demo.machine), (Demo.ok Demo.sampleBankTransaction),
      (BankAccount.mk (Some "acc-1")).
    repeat split. }
  split; [exact Hcreated|].
  apply (attachments_line_present_when_attachments_were_given Demo.World Demo.env
           (Demo.bankArgs "contact-1" (Some Demo.namelessFile))
           Demo.machine Demo.machine Demo.sampleBankTransaction Demo.bankLink
           Hcreated).
  reflexivity.
Defined.

(** ** Tools *)

Section FurtherToolFacts.

Context {World : Type} (env : Collaborators World) (more : MoreCollaborators World).

Lemma inline_block_fsEvents (guard : bool) endpoint (l : list InlineAttachment.t)
      (m : Machine World) :
  exists m',
    (if guard
     then normalizeAndUpload env endpoint (map InlineAttachment.asInput l)
     else ret tt) m = (m', inr tt) /\
    fsEvents (trace m') = fsEvents (trace m).
Proof.
  destruct guard.
  - destruct (normalizeAndUpload_total env endpoint
                (map InlineAttachment.asInput l) m) as [m' H].
    exists m'. split; [exact H|].
    pose proof (normalizeAndUpload_inline_fsEvents env endpoint l m) as Hfs.
    now rewrite H in Hfs.
  - exists m. now split.
Qed.

Lemma CreateBankTransactionTool_fsEvents args (m : Machine World) :
  fsEvents (trace (fst (CreateBankTransactionTool env args m))) = fsEvents (trace m).
Proof.
  unfold CreateBankTransactionTool, bind at 1, callWorld.
  destruct (createXeroBankTransaction env _ _ _ _ _ _ (world m))
    as [w1 [e|result]]; [reflexivity|].
  destruct (XeroClientResponse.isError result); [reflexivity|].
  unfold bind at 1, deref.
  destruct (XeroClientResponse.result result) as [bt|]; [|reflexivity].
  simpl. unfold bind at 1.
  destruct (BankTransaction.bankAccount bt) as [ba|]; [|reflexivity].
  simpl. unfold bind at 1.
  destruct (bankTransactionLink env ba bt
              (mkMachine w1 (trace m) (attachmentResults m)))
    as [m2 [e|link]] eqn:Hl;
    destruct (bankTransactionLink_frame env _ _ _ _ _ Hl) as [Ht _]; simpl in Ht.
  - simpl. now rewrite Ht.
  - unfold bankTransactionReport, bind at 1, newResults. unfold bind at 1.
    destruct (inline_block_fsEvents
                (shouldAttach (CreateBankTransactionArgs.attachments args)
                              (BankTransaction.bankTransactionID bt))
                (fun tid => createBankTransactionAttachmentByFileName tid
                              (str (BankTransaction.bankTransactionID bt)))
                (match CreateBankTransactionArgs.attachments args with
                 | Some l => l
                 | None => []
                 end)
                (mkMachine (world m2) (trace m2) [])) as (m' & Hrun & Hfs).
    rewrite Hrun. simpl. simpl in Hfs. now rewrite Hfs, Ht.
Qed.

Lemma UpdateBankTransactionTool_fsEvents args (m : Machine World) :
  fsEvents (trace (fst (UpdateBankTransactionTool env more args m)))
    = fsEvents (trace m).
Proof.
  unfold UpdateBankTransactionTool, bind at 1, callWorld.
  destruct (updateXeroBankTransaction more _ _ _ _ _ _ (world m))
    as [w1 [e|result]]; [reflexivity|].
  destruct (XeroClientResponse.isError result); [reflexivity|].
  unfold bind at 1, deref.
  destruct (XeroClientResponse.result result) as [bt|]; [|reflexivity].
  simpl. unfold bind at 1.
  destruct (BankTransaction.bankAccount bt) as [ba|]; [|reflexivity].
  simpl. unfold bind at 1.
  destruct (bankTransactionLink env ba bt
              (mkMachine w1 (trace m) (attachmentResults m)))
    as [m2 [e|link]] eqn:Hl;
    destruct (bankTransactionLink_frame env _ _ _ _ _ Hl) as [Ht _]; simpl in Ht.
  - simpl. now rewrite Ht.
  - unfold bind at 1, newResults. unfold bind at 1.
    destruct (inline_block_fsEvents
                (shouldAttach (UpdateBankTransactionArgs.attachments args)
                              (BankTransaction.bankTransactionID bt))
                (fun tid => createBankTransactionAttachmentByFileName tid
                              (str (BankTransaction.bankTransactionID bt)))
                (match UpdateBankTransactionArgs.attachments args with
                 | Some l => l
                 | None => []
                 end)
                (mkMachine (world m2) (trace m2) [])) as (m' & Hrun & Hfs).
    rewrite Hrun. simpl. simpl in Hfs. now rewrite Hfs, Ht.
Qed.

End FurtherToolFacts.

(** The bank-transaction tools never touch the file system: their schema
    admits inline attachments only, so no run of
    [CreateBankTransactionTool] or [UpdateBankTransactionTool] adds a
    [stat] or a [readFile] to the trace, although both go through the
    normalizer. *)
Theorem bank_transaction_tools_never_touch_the_file_system :
  forall World (env : Collaborators World) (more : MoreCollaborators World),
    (forall args (m : Machine World),
       fsEvents (trace (fst (CreateBankTransactionTool env args m)))
         = fsEvents (trace m)) /\
    (forall args (m : Machine World),
       fsEvents (trace (fst (UpdateBankTransactionTool env more args m)))
         = fsEvents (trace m)).
Proof.
  intros World env more. split.
  - apply CreateBankTransactionTool_fsEvents.
  - apply UpdateBankTransactionTool_fsEvents.
Qed.

Section VariantFacts.

Context {World : Type} (env : Collaborators World).

Lemma bind_ext {A B} (c : M World A) (k1 k2 : A -> M World B) (m : Machine World) :
  (forall a m1, k1 a m1 = k2 a m1) -> bind c k1 m = bind c k2 m.
Proof.
  intros H. unfold bind. destruct (c m) as [m1 [e|a]]; [reflexivity | apply H].
Qed.

Lemma bind_cong_l {A B} (c1 c2 : M World A) (k : A -> M World B)
      (m : Machine World) :
  c1 m = c2 m -> bind c1 k m = bind c2 k m.
Proof. intros H. unfold bind. now rewrite H. Qed.

Lemma uploadLoop_normalizedInline endpoint (l : list InlineAttachment.t) :
  forall m : Machine World,
    uploadLoop env ProcessedAttachment.fileName ProcessedAttachment.base64Content
               endpoint (map (normalizedInline env) l) m
    = uploadLoop env InlineAttachment.fileName InlineAttachment.base64Content
                 endpoint l m.
Proof.
  induction l as [|a l IH]; intros m; [reflexivity|].
  simpl. unfold bind.
  destruct (uploadOne env endpoint (InlineAttachment.fileName a)
              (InlineAttachment.base64Content a) m) as [m1 [e|[]]];
    [reflexivity | apply IH].
Qed.

(** On inline attachments that have a name and content, normalizing first
    changes nothing. *)
Lemma normalizeAndUpload_inline endpoint (l : list InlineAttachment.t)
      (m : Machine World) :
  Forall namedWithContent l ->
  normalizeAndUpload env endpoint (map InlineAttachment.asInput l) m
  = uploadLoop env InlineAttachment.fileName InlineAttachment.base64Content
               endpoint l m.
Proof.
  intros Hall. unfold normalizeAndUpload, tryCatch, bind.
  assert (Hnorm : processAttachments env (Some (map InlineAttachment.asInput l)) m
                  = (m, inr (map (normalizedInline env) l))).
  { destruct l as [|a l]; [reflexivity|].
    exact (processLoop_inline env (a :: l) [] m Hall). }
  rewrite Hnorm, uploadLoop_normalizedInline.
  destruct (uploadLoop_run env InlineAttachment.fileName
              InlineAttachment.base64Content endpoint l m)
    as (m' & _ & _ & Hrun & _).
  now rewrite Hrun.
Qed.

End VariantFacts.

(** The two variants of [CreateCreditNoteTool] agree on well-formed inline
    attachments: when every attachment has a name and some content, the
    variant that normalizes first ends in the same machine (world, trace,
    results) and with the same response as the variant that uploads the
    attachments as they are. *)
Theorem credit_note_variants_agree_on_inline_attachments :
  forall World (env : Collaborators World) (contactId : string)
         (lineItems : list LineItem.t) (reference : option string)
         (attachments : option (list InlineAttachment.t)) (m : Machine World),
    (forall l, attachments = Some l -> Forall namedWithContent l) ->
    CreateCreditNoteTool_normalizing env
      (CreateCreditNoteNormalizingArgs.mk contactId lineItems reference
         (option_map (map InlineAttachment.asInput) attachments)) m
    = CreateCreditNoteTool env
        (CreateCreditNoteArgs.mk contactId lineItems reference attachments) m.
Proof.
  intros World env contactId lineItems reference attachments m Hall.
  unfold CreateCreditNoteTool_normalizing, CreateCreditNoteTool.
  cbn [CreateCreditNoteNormalizingArgs.contactId
       CreateCreditNoteNormalizingArgs.lineItems
       CreateCreditNoteNormalizingArgs.reference
       CreateCreditNoteNormalizingArgs.attachments
       CreateCreditNoteArgs.contactId CreateCreditNoteArgs.lineItems
       CreateCreditNoteArgs.reference CreateCreditNoteArgs.attachments].
  apply bind_ext. intros result m1.
  destruct (XeroClientResponse.isError result); [reflexivity|].
  apply bind_ext. intros cn m2.
  apply bind_ext. intros link m3.
  unfold creditNoteReport.
  apply bind_ext. intros [] m4.
  apply bind_cong_l.
  destruct attachments as [[|a l]|]; try reflexivity.
  unfold option_map, shouldAttach.
  change (map InlineAttachment.asInput (a :: l))
    with (InlineAttachment.asInput a :: map InlineAttachment.asInput l) at 1.
  cbv iota.
  destruct (truthy (CreditNote.creditNoteID cn)); [|reflexivity].
  exact (normalizeAndUpload_inline env _ (a :: l) _ (Hall _ eq_refl)).
Qed.

Lemma credit_note_variants_agree_on_inline_attachments_witness :
  (forall l, Some Demo.threeFiles = Some l -> Forall namedWithContent l) /\
  CreateCreditNoteTool_normalizing Demo.env
    (CreateCreditNoteNormalizingArgs.mk "contact-1" [] None
       (option_map (map InlineAttachment.asInput) (Some Demo.threeFiles)))
    Demo.machine
  = CreateCreditNoteTool Demo.env
      (CreateCreditNoteArgs.mk "contact-1" [] None (Some Demo.threeFiles))
      Demo.machine.
Proof.
  assert (Hall : forall l, Some Demo.threeFiles = Some l -> Forall namedWithContent l).
  { intros l H. injection H as <-. repeat constructor; discriminate. }
  split; [exact Hall|].
  exact (credit_note_variants_agree_on_inline_attachments Demo.World Demo.env
           "contact-1" [] None (Some Demo.threeFiles) Demo.machine Hall).
Defined.

(** ** Entity Handlers and the tools around them *)

Section AccountFacts.

Context {World : Type} (env : Collaborators World) (more : MoreCollaborators World).

(** What [getAccount] does, by the outcome of its two remote calls. *)
Lemma getAccount_unauthenticated accountId (m : Machine World) w1 e :
  authenticate env (world m) = (w1, inl e) ->
  getAccount env accountId m
    = (mkMachine w1 (trace m) (attachmentResults m), inl e).
Proof.
  intros H. unfold getAccount, bind, callWorld. now rewrite H.
Qed.

Lemma getAccount_answered accountId (m : Machine World) w1 w2 r :
  authenticate env (world m) = (w1, inr tt) ->
  api_getAccount env (tenantId env w1) accountId w1 = (w2, r) ->
  getAccount env accountId m =
    (mkMachine w2 (trace m) (attachmentResults m),
     match r with
     | inl e => inl e
     | inr accounts => inr (firstOf accounts)
     end).
Proof.
  intros Ha Hg. unfold getAccount, bind, callWorld, readWorld. rewrite Ha.
  simpl. rewrite Hg. destruct r; reflexivity.
Qed.

Lemma createAccount_unauthenticated code name type accountId description taxType
      enablePaymentsToAccount bankAccountNumber bankAccountType showInExpenseClaims
      (m : Machine World) w1 e :
  authenticate env (world m) = (w1, inl e) ->
  createAccount env code name type accountId description taxType
    enablePaymentsToAccount bankAccountNumber bankAccountType showInExpenseClaims m
    = (mkMachine w1 (trace m) (attachmentResults m), inl e).
Proof.
  intros H. unfold createAccount, bind, callWorld. now rewrite H.
Qed.

(** The envelope of [getXeroAccount] is a success holding an account or an
    error holding a message. *)
Lemma getXeroAccount_cases accountId (m : Machine World) :
  exists m',
    (exists account,
       getXeroAccount env accountId m
         = (m', inr (XeroClientResponse.mk (Some account) false None))) \/
    (exists message,
       getXeroAccount env accountId m
         = (m', inr (XeroClientResponse.mk None true (Some message)))).
Proof.
  unfold getXeroAccount, tryCatch, bind.
  destruct (getAccount env accountId m) as [m1 [e|[a|]]].
  - exists m1. right. now eexists.
  - exists m1. left. now exists a.
  - exists m1. right. now eexists.
Qed.

End AccountFacts.

(** The account handlers authenticate first: when [authenticate] throws,
    no accounting-API call is made (the world stays as [authenticate] left
    it) and the handler returns the error envelope with the formatted
    error. *)
Theorem account_handlers_stop_when_authentication_fails :
  forall World (env : Collaborators World) (m : Machine World) (w1 : World)
         (e : Thrown),
    authenticate env (world m) = (w1, inl e) ->
    (forall accountId,
       getXeroAccount env accountId m =
         (mkMachine w1 (trace m) (attachmentResults m),
          inr (XeroClientResponse.mk None true (Some (formatError env e))))) /\
    (forall code name type accountId description taxType enablePaymentsToAccount
            bankAccountNumber bankAccountType showInExpenseClaims,
       createXeroAccount env code name type accountId description taxType
         enablePaymentsToAccount bankAccountNumber bankAccountType
         showInExpenseClaims m =
         (mkMachine w1 (trace m) (attachmentResults m),
          inr (XeroClientResponse.mk None true (Some (formatError env e))))).
Proof.
  intros World env m w1 e Hauth. split.
  - intros accountId. unfold getXeroAccount, tryCatch, bind.
    now rewrite (getAccount_unauthenticated env accountId m w1 e Hauth).
  - intros. unfold createXeroAccount, tryCatch, bind.
    now rewrite (createAccount_unauthenticated env code name type accountId
                   description taxType enablePaymentsToAccount bankAccountNumber
                   bankAccountType showInExpenseClaims m w1 e Hauth).
Qed.

Lemma account_handlers_stop_when_authentication_fails_witness :
  authenticate (Scenario.env false) (world Demo.machine)
    = (Demo.mkWorld 1 (Some "!abc"), inl (newError "invalid_client")) /\
  getXeroAccount (Scenario.env false) "acc-1" Demo.machine =
    (mkMachine (Demo.mkWorld 1 (Some "!abc")) [] [],
     inr (XeroClientResponse.mk None true (Some "invalid_client"))) /\
  createXeroAccount (Scenario.env false) "200" "Sales" "REVENUE" (Some "acc-1")
    None None None None None None Demo.machine =
    (mkMachine (Demo.mkWorld 1 (Some "!abc")) [] [],
     inr (XeroClientResponse.mk None true (Some "invalid_client"))).
Proof.
  split; [reflexivity|]. split.
  - apply (proj1 (account_handlers_stop_when_authentication_fails Demo.World
                    (Scenario.env false) Demo.machine (Demo.mkWorld 1 (Some "!abc"))
                    (newError "invalid_client") eq_refl)).
  - apply (proj2 (account_handlers_stop_when_authentication_fails Demo.World
                    (Scenario.env false) Demo.machine (Demo.mkWorld 1 (Some "!abc"))
                    (newError "invalid_client") eq_refl)).
Defined.

(** [GetAccountTool] never throws, and its answer is either the error text
    or the listing of an account: its "No account found with ID" branch is
    never taken, because the handler turns an empty answer of the remote
    service into an error envelope, reported as
    "Error retrieving account: " followed by the formatted
    "Account not found." error. *)
Theorem GetAccountTool_reports_a_missing_account_as_an_error :
  forall World (env : Collaborators World) (more : MoreCollaborators World)
         (accountId : string) (m : Machine World),
    (exists m' text,
       GetAccountTool env more accountId m = (m', inr (textResponse text)) /\
       ((exists message, text = "Error retrieving account: " ++ message) \/
        (exists account,
           text = join LF (filterBoolean (accountFields more account ++ [None]))))) /\
    (forall w1 w2 accounts,
       authenticate env (world m) = (w1, inr tt) ->
       api_getAccount env (tenantId env w1) accountId w1 = (w2, inr accounts) ->
       firstOf accounts = None ->
       GetAccountTool env more accountId m =
         (mkMachine w2 (trace m) (attachmentResults m),
          inr (textResponse
                 ("Error retrieving account: "
                    ++ formatError env (newError "Account not found."))))).
Proof.
  intros World env more accountId m. split.
  - unfold GetAccountTool, bind.
    destruct (getXeroAccount_cases env accountId m)
      as [m' [[account H] | [message H]]]; rewrite H.
    + exists m'. eexists. split; [reflexivity|]. right. now exists account.
    + exists m'. eexists. split; [reflexivity|]. left. now exists message.
  - intros w1 w2 accounts Ha Hg Hnone.
    unfold GetAccountTool, bind, getXeroAccount, tryCatch, bind.
    rewrite (getAccount_answered env accountId m w1 w2 (inr accounts) Ha Hg).
    now rewrite Hnone.
Qed.

Lemma GetAccountTool_reports_a_missing_account_as_an_error_witness :
  firstOf (Some (@nil Account.t)) = None /\
  GetAccountTool Demo.env Scenario.more "acc-2" Demo.machine =
    (Demo.machine,
     inr (textResponse "Error retrieving account: Account not found.")).
Proof.
  split; [reflexivity|].
  apply (proj2 (GetAccountTool_reports_a_missing_account_as_an_error Demo.World
                  Demo.env Scenario.more "acc-2" Demo.machine)
           (world Demo.machine) (world Demo.machine) (Some []));
    reflexivity.
Defined.

Section GuardedToolFacts.

Context {World : Type} (env : Collaborators World) (more : MoreCollaborators World).

(** A [try] block whose [catch] returns a text block always returns one. *)
Lemma guarded_tool_returns_text (body : M World ToolResponse.t)
      (label : Thrown -> string) (m : Machine World) :
  (forall m1 response, body m = (m1, inr response) ->
                       exists text, response = textResponse text) ->
  exists m' text,
    tryCatch body (fun error => ret (textResponse (label error))) m
      = (m', inr (textResponse text)).
Proof.
  intros H. unfold tryCatch.
  destruct (body m) as [m1 [e|response]] eqn:Hb.
  - eexists. eexists. reflexivity.
  - destruct (H m1 response eq_refl) as [text ->]. now exists m1, text.
Qed.

(** One journal upload never throws. *)
Lemma uploadJournalAttachment_total id a (m : Machine World) :
  exists m', uploadJournalAttachment env more id a m = (m', inr tt).
Proof.
  unfold uploadJournalAttachment. run_monad.
  destruct (api_attachManualJournal more _ _ _ _ (world m)) as [w1 [e|[]]];
    simpl; eexists; reflexivity.
Qed.

Lemma uploadJournalAttachments_total id l : forall m : Machine World,
  exists m', uploadJournalAttachments env more id l m = (m', inr tt).
Proof.
  induction l as [|a l IH]; intros m; [now exists m|].
  simpl. unfold bind.
  destruct (uploadJournalAttachment_total id a m) as [m1 ->]. apply IH.
Qed.

End GuardedToolFacts.

(** [UpdateContactTool] never throws.  When the contact was updated and the
    deep-link builder then throws, the update is not undone and the
    response is the text of the [catch] block, which reads
    "Error creating contact: " followed by the error's message. *)
Theorem UpdateContactTool_reports_a_late_failure_as_an_error :
  forall World (env : Collaborators World) (more : MoreCollaborators World)
         (args : UpdateContactArgs.t) (m : Machine World),
    (exists m' text,
       UpdateContactTool env more args m = (m', inr (textResponse text))) /\
    (forall w1 w2 response contact e,
       updateXeroContact more
         (UpdateContactArgs.contactId args) (UpdateContactArgs.name args)
         (UpdateContactArgs.firstName args) (UpdateContactArgs.lastName args)
         (UpdateContactArgs.email args) (UpdateContactArgs.phone args)
         (UpdateContactArgs.address args) (world m) = (w1, inr response) ->
       XeroClientResponse.isError response = false ->
       XeroClientResponse.result response = Some contact ->
       truthy (XeroContact.contactID contact) = true ->
       getDeepLink env CONTACT (str (XeroContact.contactID contact)) w1
         = (w2, inl e) ->
       UpdateContactTool env more args m =
         (mkMachine w2 (trace m) (attachmentResults m),
          inr (textResponse
                 ("Error creating contact: " ++ errorMessage (ensureError env e))))).
Proof.
  intros World env more args m. split.
  - unfold UpdateContactTool. apply guarded_tool_returns_text.
    intros m1 response. unfold bind at 1, callWorld.
    destruct (updateXeroContact more _ _ _ _ _ _ _ (world m)) as [w1 [e|envelope]];
      [discriminate|].
    destruct (XeroClientResponse.isError envelope).
    { intros H. injection H as _ <-. now eexists. }
    unfold bind at 1, deref.
    destruct (XeroClientResponse.result envelope) as [contact|]; [|discriminate].
    simpl. unfold bind at 1.
    destruct (truthy (XeroContact.contactID contact)).
    + unfold bind at 1, callWorld. simpl.
      destruct (getDeepLink env CONTACT _ w1) as [w2 [e|url]]; [discriminate|].
      intros H. injection H as _ <-. now eexists.
    + intros H. injection H as _ <-. now eexists.
  - intros w1 w2 response contact e Hupd Herr Hres Hid Hlink.
    unfold UpdateContactTool, tryCatch, bind at 1, callWorld.
    rewrite Hupd, Herr. unfold bind at 1, deref. rewrite Hres. simpl.
    unfold bind at 1. rewrite Hid. unfold bind at 1, callWorld. simpl.
    now rewrite Hlink.
Qed.

Lemma UpdateContactTool_reports_a_late_failure_as_an_error_witness :
  updateXeroContact Scenario.more "c-1" "ACME" None None None None None
    (world Demo.machineNoShortCode)
    = (world Demo.machineNoShortCode, inr (Demo.ok Scenario.sampleContact)) /\
  UpdateContactTool Demo.env Scenario.more (Scenario.contactArgs "c-1")
    Demo.machineNoShortCode =
    (Demo.machineNoShortCode,
     inr (textResponse
            "Error creating contact: Failed to retrieve organisation short code")).
Proof.
  split; [reflexivity|].
  apply (proj2 (UpdateContactTool_reports_a_late_failure_as_an_error Demo.World
                  Demo.env Scenario.more (Scenario.contactArgs "c-1")
                  Demo.machineNoShortCode)
           (world Demo.machineNoShortCode) (world Demo.machineNoShortCode)
           (Demo.ok Scenario.sampleContact) Scenario.sampleContact
           (newError "Failed to retrieve organisation short code"));
    reflexivity.
Defined.

Section JournalTextFacts.

Context {World : Type} (env : Collaborators World).

Lemma objects_text {A} (f : A -> ContentBlock.t) (lines : list A) :
  elemToString (EBlocks (map f lines))
  = join "," (repeat (Some "[object Object]") (length lines)).
Proof.
  unfold elemToString. f_equal.
  induction lines as [|l lines IH]; [reflexivity|]. simpl. now rewrite IH.
Qed.

Lemma elemTruthy_lineOf (e : Elem) :
  (forall blocks, e = EBlocks blocks -> blocks <> []) ->
  elemTruthy e = truthy (lineOf e).
Proof.
  intros H. destruct e as [s| |blocks]; try reflexivity.
  destruct blocks as [|b blocks]; [now contradiction (H [] eq_refl)|].
  simpl. destruct (map _ blocks); reflexivity.
Qed.

(** Filtering and joining the elements is filtering and joining their
    lines, as long as no array of objects among them is empty. *)
Lemma joinTruthy_lines (sep : string) (elems : list Elem) :
  Forall (fun e => forall blocks, e = EBlocks blocks -> blocks <> []) elems ->
  joinTruthy sep elems = join sep (filterBoolean (map lineOf elems)).
Proof.
  intros Hall. unfold joinTruthy, filterBoolean. f_equal.
  induction Hall as [|e elems He Hall IH]; [reflexivity|].
  simpl. rewrite (elemTruthy_lineOf e He).
  destruct (truthy (lineOf e)) eqn:Ht; [|exact IH].
  simpl. rewrite IH. f_equal.
  destruct e; [reflexivity | discriminate | reflexivity].
Qed.

(** The text of a created journal that has journal lines: the array of
    line objects is one element of the joined array, and renders as one
    "[object Object]" per line. *)
Lemma manualJournal_text journal results link lines :
  ManualJournal.journalLines journal = Some lines ->
  lines <> [] ->
  joinTruthy LF (manualJournalElems env journal results link) =
    join LF (filterBoolean
      [ Some ("Manual journal created: " ++ tpl (ManualJournal.narration journal)
                ++ " (ID: " ++ tpl (ManualJournal.manualJournalID journal) ++ ")");
        (if truthy (ManualJournal.date journal)
         then Some ("Date: " ++ str (ManualJournal.date journal))
         else None);
        Some (if truthy (ManualJournal.status journal)
              then "Status: " ++ str (ManualJournal.status journal)
              else "No status");
        Some (join "," (repeat (Some "[object Object]") (length lines)));
        Some ("Show on Cash Basis Reports: "
                ++ tplBool (ManualJournal.showOnCashBasisReports journal));
        attachmentsLine results;
        deepLinkLine link ]).
Proof.
  intros Hlines Hne.
  rewrite joinTruthy_lines.
  - unfold manualJournalElems. rewrite Hlines.
    cbn [map]. rewrite <- (objects_text (journalLineBlock env) lines).
    do 2 f_equal.
    destruct (truthy (ManualJournal.date journal));
      destruct (truthy (ManualJournal.status journal));
      destruct (attachmentsLine results);
      destruct (deepLinkLine link); reflexivity.
  - unfold manualJournalElems. rewrite Hlines.
    repeat constructor; try discriminate;
      try (intros blocks H; destruct lines; [contradiction | ];
           injection H as <-; discriminate).
    + destruct (truthy (ManualJournal.date journal)); discriminate.
    + destruct (truthy (ManualJournal.status journal)); discriminate.
    + destruct (attachmentsLine results); discriminate.
    + destruct (deepLinkLine link); discriminate.
Qed.

End JournalTextFacts.

(** [CreateManualJournalTool] never throws.  When the journal was created,
    the response does not list the journal lines: the array of line
    objects is joined as one array element, so the text holds one
    "[object Object]" per journal line, separated by commas, between the
    status and the cash-basis line. *)
Theorem CreateManualJournalTool_renders_journal_lines_as_objects :
  forall World (env : Collaborators World) (more : MoreCollaborators World)
         (args : CreateManualJournalArgs.t) (m : Machine World),
    (exists m' text,
       CreateManualJournalTool env more args m = (m', inr (textResponse text))) /\
    (forall w1 w2 response journal lines url,
       createXeroManualJournal more
         (CreateManualJournalArgs.narration args)
         (CreateManualJournalArgs.manualJournalLines args)
         (CreateManualJournalArgs.date args)
         (CreateManualJournalArgs.lineAmountTypes args)
         (CreateManualJournalArgs.status args)
         (CreateManualJournalArgs.url args)
         (CreateManualJournalArgs.showOnCashBasisReports args) (world m)
         = (w1, inr response) ->
       XeroClientResponse.isError response = false ->
       XeroClientResponse.result response = Some journal ->
       truthy (ManualJournal.manualJournalID journal) = true ->
       getDeepLink env MANUAL_JOURNAL (str (ManualJournal.manualJournalID journal)) w1
         = (w2, inr url) ->
       ManualJournal.journalLines journal = Some lines ->
       lines <> [] ->
       exists m',
         CreateManualJournalTool env more args m =
           (m', inr (textResponse (join LF (filterBoolean
              [ Some ("Manual journal created: "
                        ++ tpl (ManualJournal.narration journal)
                        ++ " (ID: " ++ tpl (ManualJournal.manualJournalID journal)
                        ++ ")");
                (if truthy (ManualJournal.date journal)
                 then Some ("Date: " ++ str (ManualJournal.date journal))
                 else None);
                Some (if truthy (ManualJournal.status journal)
                      then "Status: " ++ str (ManualJournal.status journal)
                      else "No status");
                Some (join "," (repeat (Some "[object Object]") (length lines)));
                Some ("Show on Cash Basis Reports: "
                        ++ tplBool (ManualJournal.showOnCashBasisReports journal));
                attachmentsLine (attachmentResults m');
                deepLinkLine (Some url) ]))))).
Proof.
  intros World env more args m. split.
  - unfold CreateManualJournalTool. apply guarded_tool_returns_text.
    intros m1 response. unfold bind at 1, callWorld.
    destruct (createXeroManualJournal more _ _ _ _ _ _ _ (world m))
      as [w1 [e|envelope]]; [discriminate|].
    destruct (XeroClientResponse.isError envelope).
    { intros H. injection H as _ <-. now eexists. }
    unfold bind at 1, deref.
    destruct (XeroClientResponse.result envelope) as [journal|]; [|discriminate].
    simpl. unfold bind at 1.
    match goal with |- context [(if ?c then ?a else ?b) ?m0] =>
      destruct ((if c then a else b) m0) as [m2 [e|link]]; [discriminate|]
    end.
    unfold bind at 1, newResults. unfold bind at 1.
    match goal with |- context [(if ?c then ?a else ?b) ?m0] =>
      assert (Hblock : exists m3, (if c then a else b) m0 = (m3, inr tt))
    end.
    { destruct (shouldAttach _ _); [apply uploadJournalAttachments_total|].
      eexists. reflexivity. }
    destruct Hblock as [m3 ->].
    intros H. injection H as _ <-. now eexists.
  - intros w1 w2 response journal lines url Hh Herr Hres Hid Hlink Hlines Hne.
    unfold CreateManualJournalTool, tryCatch, bind at 1, callWorld.
    rewrite Hh, Herr. unfold bind at 1, deref. rewrite Hres. simpl.
    unfold bind at 1. rewrite Hid. unfold bind at 1, callWorld. simpl.
    rewrite Hlink. unfold bind at 1, newResults. unfold bind at 1.
    unfold ret at 1. cbv beta iota. cbn [world trace].
    match goal with |- context [(if ?c then ?a else ?b) ?m0] =>
      assert (Hblock : exists m3, (if c then a else b) m0 = (m3, inr tt))
    end.
    { destruct (shouldAttach _ _); [apply uploadJournalAttachments_total|].
      eexists. reflexivity. }
    destruct Hblock as [m3 ->].
    exists m3. unfold bind, getResults, ret.
    now rewrite (manualJournal_text env journal (attachmentResults m3) (Some url)
                   lines Hlines Hne).
Qed.

Lemma CreateManualJournalTool_renders_journal_lines_as_objects_witness :
  createXeroManualJournal Scenario.more "Accrual" [] None None None None None
    (world Demo.machine)
    = (world Demo.machine, inr (Demo.ok Scenario.sampleJournal)) /\
  exists m',
    CreateManualJournalTool Demo.env Scenario.more
      (Scenario.journalArgs "Accrual" None) Demo.machine =
      (m', inr (textResponse (join LF (filterBoolean
         [ Some "Manual journal created: Accrual (ID: mj-1)";
           Some "Date: 2024-05-01";
           Some "Status: DRAFT";
           Some "[object Object],[object Object]";
           Some "Show on Cash Basis Reports: true";
           attachmentsLine (attachmentResults m');
           deepLinkLine (Some "https://go.xero.com/app/!abc/invoicing/view/mj-1") ])))).
Proof.
  split; [reflexivity|].
  apply (proj2 (CreateManualJournalTool_renders_journal_lines_as_objects Demo.World
                  Demo.env Scenario.more (Scenario.journalArgs "Accrual" None)
                  Demo.machine)
           (world Demo.machine) (world Demo.machine)
           (Demo.ok Scenario.sampleJournal) Scenario.sampleJournal
           [ ManualJournalLine.mk (Some 100%float) (Some "200") None None None;
             ManualJournalLine.mk (Some (-100)%float) (Some "400") None None None ]
           "https://go.xero.com/app/!abc/invoicing/view/mj-1");
    reflexivity || discriminate.
Defined.

(** ** A missing file, from the loader to the response *)

Section MissingFileFacts.

Context {World : Type} (env : Collaborators World).


End MissingFileFacts.


